(** * soap-to-swagger: WSDL parser and OpenAPI generator

  A shallow embedding of [wsdl_parser.py] and [swagger_generator.py].

  Python [str] values are modelled as [string] (the bytes of their UTF-8
  encoding), Python [None] as the [None] of an [option], Python dicts whose
  insertion order is observable as association lists with dict-assignment
  semantics, and raised exceptions as the [Raise] branch of a result
  monad.  Library functions whose behaviour is not fixed by the repository
  (lxml's byte parser, [urlparse], [str.strip], [str.isdigit], [int]) are
  fields of a [Library] record over which the development is generic. *)

From Stdlib Require Import List String Ascii Bool Arith ZArith Lia.
Import ListNotations.
Open Scope list_scope.
Open Scope string_scope.

Set Implicit Arguments.
Set Warnings "-register-all".

(** ** Python strings *)

Module Py.

(** [c in s] for a one-character [c]. *)
Fixpoint contains (c : ascii) (s : string) : bool :=
  match s with
  | EmptyString => false
  | String a r => Ascii.eqb a c || contains c r
  end.

(** [s.split(c)] for a one-character separator. *)
Fixpoint split (c : ascii) (s : string) : list string :=
  match s with
  | EmptyString => [EmptyString]
  | String a r =>
      if Ascii.eqb a c then EmptyString :: split c r
      else match split c r with
           | h :: t => String a h :: t
           | [] => [String a EmptyString]
           end
  end.

(** [s.split(':')[1]]; every call site is guarded by [':' in s], which
    makes index 1 exist (lemma [split_second_exists] below). *)
Definition split_colon_1 (s : string) : string :=
  nth 1 (split ":" s) EmptyString.

Definition lower_ascii (a : ascii) : ascii :=
  let n := nat_of_ascii a in
  if (Nat.leb 65 n && Nat.leb n 90)%bool then ascii_of_nat (n + 32) else a.

(** [s.lower()].  Only ASCII letters are folded: the single non-ASCII
    code point whose lower case is ASCII is the Kelvin sign (to k), and
    no key of the tables looked up below contains a k. *)
Fixpoint lower (s : string) : string :=
  match s with
  | EmptyString => EmptyString
  | String a r => String (lower_ascii a) (lower r)
  end.

(** Some character of [s] is an ASCII capital. *)
Fixpoint has_upper (s : string) : bool :=
  match s with
  | EmptyString => false
  | String a r =>
      (Nat.leb 65 (nat_of_ascii a) && Nat.leb (nat_of_ascii a) 90)%bool
      || has_upper r
  end.

(** Truth value of an optional string: [None] and [''] are falsy. *)
Definition truthy (v : option string) : bool :=
  match v with
  | None => false
  | Some EmptyString => false
  | Some (String _ _) => true
  end.

(** [str(v)] as f-strings apply it to a value that is a string or None. *)
Definition format (v : option string) : string :=
  match v with
  | None => "None"
  | Some s => s
  end.

(** [x or y] on optional strings. *)
Definition or_else (x y : option string) : option string :=
  if truthy x then x else y.

Definition dquote : string := String "034"%char EmptyString.

Definition newline : string := String "010"%char EmptyString.

(** [d.get(key, default)] on a dict that holds [key]: the stored value,
    None included.  The default only serves a dict without the key, and
    the dicts the parser builds hold every key. *)
Definition get_present {A} (stored default : A) : A := stored.

End Py.

(** ** Insertion-ordered dictionaries

  [d[k] = v] keeps the position of an existing key and replaces its value;
  a new key goes to the end.  [d.get(k)] is [get]. *)

Module Dict.

Section WithKey.
Variable K : Type.
Variable eqb : K -> K -> bool.
Variable V : Type.

Definition t := list (K * V).

Fixpoint get (k : K) (d : t) : option V :=
  match d with
  | [] => None
  | (k', v) :: r => if eqb k' k then Some v else get k r
  end.

Fixpoint set (k : K) (v : V) (d : t) : t :=
  match d with
  | [] => [(k, v)]
  | (k', v') :: r => if eqb k' k then (k', v) :: r else (k', v') :: set k v r
  end.

(** A loop [for (k, v) in l: d[k] = v]. *)
Definition set_all (l : list (K * V)) (d : t) : t :=
  fold_left (fun acc kv => set (fst kv) (snd kv) acc) l d.

(** The value of the last pair of [l] whose key is [k]. *)
Fixpoint last_with (k : K) (l : list (K * V)) : option V :=
  match l with
  | [] => None
  | (k', v) :: r =>
      match last_with k r with
      | Some w => Some w
      | None => if eqb k' k then Some v else None
      end
  end.
End WithKey.

Definition okey_eqb (a b : option string) : bool :=
  match a, b with
  | None, None => true
  | Some x, Some y => String.eqb x y
  | _, _ => false
  end.

End Dict.

(** ** OpenAPI primitive schemas *)

(** An OpenAPI primitive schema [{"type": t}] or [{"type": t, "format": f}]. *)
Record ScalarSchema := { sc_type : string; sc_format : option string }.

Definition plain (t : string) : ScalarSchema :=
  {| sc_type := t; sc_format := None |}.

Definition formatted (t f : string) : ScalarSchema :=
  {| sc_type := t; sc_format := Some f |}.

(** ** Exceptions and the result monad *)

(** The classes of the exceptions that occur; all derive from [Exception]. *)
Inductive exn_class :=
| XMLSyntaxError
| XPathEvalError
| TypeError
| ValueError
| OtherException (class_name : string).

(** An exception with the text [str(e)] gives. *)
Record exn := { exn_cls : exn_class; exn_str : string }.

Inductive result (A : Type) :=
| Ok (a : A)
| Raise (e : exn).

Arguments Ok {A} a.
Arguments Raise {A} e.

Definition bind {A B} (m : result A) (f : A -> result B) : result B :=
  match m with
  | Ok a => f a
  | Raise e => Raise e
  end.

Notation "x <- m ;; k" := (bind m (fun x => k))
  (at level 61, m at next level, right associativity).

(** A loop that builds a list by appending one computed item per element. *)
Fixpoint for_each {A B} (f : A -> result B) (l : list A) : result (list B) :=
  match l with
  | [] => Ok []
  | a :: r => b <- f a ;; bs <- for_each f r ;; Ok (b :: bs)
  end.

(** A loop that threads an accumulator through computations that may raise. *)
Fixpoint fold_result {A S} (f : S -> A -> result S) (l : list A) (s : S)
  : result S :=
  match l with
  | [] => Ok s
  | a :: r => s' <- f s a ;; fold_result f r s'
  end.

(** ** lxml element trees *)

(** An expanded name: namespace URI (empty for none) and local part. *)
Record qname := { q_ns : string; q_local : string }.

(** An element: tag, attributes, the text before its first child
    ([.text], [None] when there is none) and its child elements. *)
Inductive element :=
| Element (tag : qname) (attrib : list (string * string))
          (text : option string) (children : list element).

Definition tag_of (e : element) : qname :=
  match e with Element t _ _ _ => t end.

Definition attrib_of (e : element) : list (string * string) :=
  match e with Element _ a _ _ => a end.

Definition text_of (e : element) : option string :=
  match e with Element _ _ t _ => t end.

Definition children_of (e : element) : list element :=
  match e with Element _ _ _ c => c end.

(** [e.get(key)]: the attribute value, or None. *)
Definition get (key : string) (e : element) : option string :=
  Dict.get String.eqb key (attrib_of e).

(** [e.get(key, default)]. *)
Definition get_or (key default : string) (e : element) : string :=
  match get key e with
  | Some v => v
  | None => default
  end.

(** The proper descendants of an element, in document order. *)
Fixpoint descendants (e : element) : list element :=
  match e with
  | Element _ _ _ cs => flat_map (fun c => c :: descendants c) cs
  end.

Definition has_name (uri local : string) (e : element) : bool :=
  String.eqb (q_ns (tag_of e)) uri && String.eqb (q_local (tag_of e)) local.

(** ** Library functions

    What the repository calls but does not define.  [fromstring] is lxml's
    parser of a byte string; [urlparse] yields the scheme and the netloc of
    [urllib.parse.urlparse] (it raises ValueError on some inputs);
    [strip], [isdigit] and [int] are the [str] methods and the builtin;
    [xpath_syntax_message] is the diagnostic of the XPath compiler for a
    malformed expression; [xpath_injected] is the value of the expression
    [//wsdl:message[@name="..."]] when the interpolated name carries two or
    more double quotes, so that it is some other expression. *)
Record Library := {
  fromstring : string -> result element;
  urlparse : string -> result (string * string);
  strip : string -> string;
  isdigit : string -> bool;
  int : string -> result Z;
  xpath_syntax_message : string -> string;
  xpath_injected :
    Dict.t string (option string) -> string -> element -> result (list element)
}.

(** ** XPath evaluation, as [wsdl_parser.py] uses it *)

(** The prefix table [self.namespaces]: a prefix is bound to a URI or None. *)
Definition namespaces := Dict.t string (option string).

Definition mk_exn (c : exn_class) (s : string) : exn :=
  {| exn_cls := c; exn_str := s |}.

(** lxml validates the whole prefix table before it evaluates anything: a
    prefix bound to None or to the empty string is refused. *)
Fixpoint check_namespaces (ns : namespaces) : result unit :=
  match ns with
  | [] => Ok tt
  | (prefix, uri) :: r =>
      if negb (Py.truthy (Some prefix)) then
        Raise (mk_exn TypeError
                 "empty namespace prefix is not supported in XPath")
      else if negb (Py.truthy uri) then
        Raise (mk_exn TypeError
                 "setting default namespace is not supported in XPath")
      else check_namespaces r
  end.

(** The elements of [nodes] that satisfy the name test [prefix:local]. *)
Definition select (ns : namespaces) (prefix local : string)
  (nodes : list element) : result (list element) :=
  _ <- check_namespaces ns ;;
  match Dict.get String.eqb prefix ns with
  | Some (Some uri) => Ok (filter (has_name uri local) nodes)
  | _ => Raise (mk_exn XPathEvalError "Undefined namespace prefix")
  end.

(** [root.xpath('//prefix:local', namespaces=ns)], [root] the document
    element. *)
Definition xpath_all (ns : namespaces) (root : element)
  (prefix local : string) : result (list element) :=
  select ns prefix local (root :: descendants root).

(** [e.xpath('.//prefix:local', namespaces=ns)]. *)
Definition xpath_under (ns : namespaces) (e : element)
  (prefix local : string) : result (list element) :=
  select ns prefix local (descendants e).

Fixpoint count_dquote (s : string) : nat :=
  match s with
  | EmptyString => 0
  | String a r => (if Ascii.eqb a "034" then 1 else 0) + count_dquote r
  end.

Definition name_is (msg_name : string) (e : element) : bool :=
  match get "name" e with
  | Some v => String.eqb v msg_name
  | None => false
  end.

(** [root.xpath(f'//wsdl:message[@name="{msg_name}"]', namespaces=ns)].
    The name is pasted between double quotes without escaping.  Without a
    double quote of its own it is the literal the attribute is compared
    with.  With exactly one, the three double quotes of the predicate
    cannot pair up into literals, and the expression does not compile.
    With more, the expression is whatever the name makes it. *)
Definition xpath_message_named (L : Library) (ns : namespaces)
  (root : element) (msg_name : string) : result (list element) :=
  match count_dquote msg_name with
  | 0 =>
      msgs <- xpath_all ns root "wsdl" "message" ;;
      Ok (filter (name_is msg_name) msgs)
  | 1 =>
      _ <- check_namespaces ns ;;
      Raise (mk_exn XPathEvalError (xpath_syntax_message L msg_name))
  | _ =>
      _ <- check_namespaces ns ;;
      xpath_injected L ns msg_name root
  end.

(** ** The service description [WSDLParser.parse] returns *)

Record Part := {
  part_name : option string;
  part_element : option string;
  part_type : option string
}.

Record Message := {
  message_name : option string;
  message_parts : list Part
}.

Record Fault := {
  fault_name : option string;
  fault_message : option string;
  fault_documentation : option string
}.

Record Operation := {
  operation_name : option string;
  operation_documentation : option string;
  operation_input : option Message;
  operation_output : option Message;
  operation_faults : list Fault
}.

Record PropertyDef := {
  property_type : string;
  property_required : bool;
  property_array : bool
}.

(** A value of the [types] dict: what [_parse_complex_type],
    [_parse_simple_type] (with or without a restriction) and
    [_parse_element] build. *)
Inductive TypeDef :=
| ComplexDef (properties : Dict.t (option string) PropertyDef)
| SimpleDef (type base : string)
| SimpleDefault
| ElementDef (type xml_type : string).

Record BindingOperation := {
  binding_operation_name : option string;
  binding_operation_soap_action : string
}.

Record Binding := {
  binding_name : option string;
  binding_type : option string;
  binding_transport : string;
  binding_style : string;
  binding_operations : list BindingOperation
}.

Record Port := {
  port_name : option string;
  port_binding : option string;
  port_location : option string
}.

Record Service := {
  service_name : option string;
  service_ports : list Port;
  service_documentation : option string
}.

Record ServiceInfo := {
  info_name : string;
  info_description : string;
  info_target_namespace : option string;
  info_operations : list Operation;
  info_types : Dict.t string TypeDef;
  info_bindings : list Binding;
  info_services : list Service
}.

(** ** [wsdl_parser.py] *)

Module WSDLParser.

(** The state of a parser object: its prefix table. *)
Record t := { self_namespaces : namespaces }.

(** [WSDLParser.__init__]. *)
Definition __init__ : t :=
  {| self_namespaces :=
       [ ("wsdl", Some "http://schemas.xmlsoap.org/wsdl/");
         ("soap", Some "http://schemas.xmlsoap.org/wsdl/soap/");
         ("soap12", Some "http://schemas.xmlsoap.org/wsdl/soap12/");
         ("xsd", Some "http://www.w3.org/2001/XMLSchema");
         ("tns", None) ] |}.

(** [type_mapping] of [WSDLParser._map_xsd_type]. *)
Definition type_mapping : Dict.t string string :=
  [ ("string", "string"); ("int", "integer"); ("integer", "integer");
    ("long", "integer"); ("short", "integer"); ("byte", "integer");
    ("double", "number"); ("float", "number"); ("decimal", "number");
    ("boolean", "boolean"); ("date", "string"); ("dateTime", "string");
    ("time", "string"); ("base64Binary", "string");
    ("hexBinary", "string"); ("anyURI", "string") ].

Definition _map_xsd_type (xsd_type : option string) : string :=
  match xsd_type with
  | None => "string"
  | Some EmptyString => "string"
  | Some t =>
      let t := if Py.contains ":" t then Py.split_colon_1 t else t in
      match Dict.get String.eqb (Py.lower t) type_mapping with
      | Some k => k
      | None => "string"
      end
  end.

Section Extraction.

Variable L : Library.
(** [self.namespaces] as it is while the extraction runs. *)
Variable ns : namespaces.

Definition _get_service_name (root : element) : result string :=
  services <- xpath_all ns root "wsdl" "service" ;;
  match services with
  | s :: _ => Ok (get_or "name" "UnknownService" s)
  | [] => Ok "UnknownService"
  end.

Definition _get_service_description (root : element) : result string :=
  docs <- xpath_all ns root "wsdl" "documentation" ;;
  match docs with
  | d :: _ =>
      match text_of d with
      | Some (String a r) => Ok (String a r)
      | _ => Ok "No description available"
      end
  | [] => Ok "SOAP Web Service converted from WSDL"
  end.

Definition _get_element_documentation (e : element) : result (option string) :=
  docs <- xpath_under ns e "wsdl" "documentation" ;;
  match docs with
  | d :: _ =>
      match text_of d with
      | Some (String a r) => Ok (Some (strip L (String a r)))
      | _ => Ok None
      end
  | [] => Ok None
  end.

Definition _parse_message (message : element) : result Message :=
  part_elements <- xpath_under ns message "wsdl" "part" ;;
  Ok {| message_name := get "name" message;
        message_parts :=
          map (fun part => {| part_name := get "name" part;
                              part_element := get "element" part;
                              part_type := get "type" part |})
              part_elements |}.

Definition _extract_message_info (root operation : element)
  (msg_type : string) : result (option Message) :=
  msg_elements <- xpath_under ns operation "wsdl" msg_type ;;
  match msg_elements with
  | [] => Ok None
  | msg_element :: _ =>
      match get "message" msg_element with
      | Some (String a r) =>
          let msg_name := String a r in
          let msg_name :=
            if Py.contains ":" msg_name then Py.split_colon_1 msg_name
            else msg_name in
          messages <- xpath_message_named L ns root msg_name ;;
          match messages with
          | m :: _ => parsed <- _parse_message m ;; Ok (Some parsed)
          | [] => Ok None
          end
      | _ => Ok None
      end
  end.

Definition _extract_faults (root operation : element) : result (list Fault) :=
  fault_elements <- xpath_under ns operation "wsdl" "fault" ;;
  for_each
    (fun fault =>
       doc <- _get_element_documentation fault ;;
       Ok {| fault_name := get "name" fault;
             fault_message := get "message" fault;
             fault_documentation := doc |})
    fault_elements.

Definition _extract_operations (root : element) : result (list Operation) :=
  port_types <- xpath_all ns root "wsdl" "portType" ;;
  per_port_type <-
    for_each
      (fun port_type =>
         ops <- xpath_under ns port_type "wsdl" "operation" ;;
         for_each
           (fun op =>
              doc <- _get_element_documentation op ;;
              inp <- _extract_message_info root op "input" ;;
              out <- _extract_message_info root op "output" ;;
              faults <- _extract_faults root op ;;
              Ok {| operation_name := get "name" op;
                    operation_documentation := doc;
                    operation_input := inp;
                    operation_output := out;
                    operation_faults := faults |})
           ops)
      port_types ;;
  Ok (List.concat per_port_type).

(** [max_occurs == 'unbounded' or
     (max_occurs.isdigit() and int(max_occurs) > 1)]. *)
Definition is_array (max_occurs : string) : result bool :=
  if String.eqb max_occurs "unbounded" then Ok true
  else if isdigit L max_occurs then
         n <- int L max_occurs ;; Ok (Z.ltb 1 n)
       else Ok false.

Definition _parse_complex_type (complex_type : element) : result TypeDef :=
  sequences <- xpath_under ns complex_type "xsd" "sequence" ;;
  properties <-
    fold_result
      (fun properties seq =>
         elements <- xpath_under ns seq "xsd" "element" ;;
         fold_result
           (fun properties elem =>
              let prop_name := get "name" elem in
              let prop_type := get_or "type" "string" elem in
              let min_occurs := get_or "minOccurs" "1" elem in
              let max_occurs := get_or "maxOccurs" "1" elem in
              array <- is_array max_occurs ;;
              Ok (Dict.set Dict.okey_eqb prop_name
                    {| property_type := _map_xsd_type (Some prop_type);
                       property_required := negb (String.eqb min_occurs "0");
                       property_array := array |}
                    properties))
           elements properties)
      sequences [] ;;
  Ok (ComplexDef properties).

Definition _parse_simple_type (simple_type : element) : result TypeDef :=
  restrictions <- xpath_under ns simple_type "xsd" "restriction" ;;
  match restrictions with
  | r :: _ =>
      let base_type := get_or "base" "string" r in
      Ok (SimpleDef (_map_xsd_type (Some base_type)) base_type)
  | [] => Ok SimpleDefault
  end.

Definition _parse_element (element : element) : TypeDef :=
  let elem_type := get_or "type" "string" element in
  ElementDef (_map_xsd_type (Some elem_type)) elem_type.

(** One of the three loops of [_extract_types]: an element with a
    non-empty [name] is parsed and stored under that name. *)
Definition store_named (parse_one : element -> result TypeDef)
  (types : Dict.t string TypeDef) (e : element)
  : result (Dict.t string TypeDef) :=
  match get "name" e with
  | Some (String a r) =>
      d <- parse_one e ;; Ok (Dict.set String.eqb (String a r) d types)
  | _ => Ok types
  end.

Definition _extract_types (root : element) : result (Dict.t string TypeDef) :=
  schemas <- xpath_all ns root "xsd" "schema" ;;
  fold_result
    (fun types schema =>
       complex_types <- xpath_under ns schema "xsd" "complexType" ;;
       types <- fold_result (store_named _parse_complex_type)
                  complex_types types ;;
       simple_types <- xpath_under ns schema "xsd" "simpleType" ;;
       types <- fold_result (store_named _parse_simple_type)
                  simple_types types ;;
       elements <- xpath_under ns schema "xsd" "element" ;;
       fold_result (store_named (fun e => Ok (_parse_element e)))
         elements types)
    schemas [].

Definition _get_soap_transport (binding : element) : result string :=
  soap_bindings <- xpath_under ns binding "soap" "binding" ;;
  match soap_bindings with
  | b :: _ => Ok (get_or "transport" "http://schemas.xmlsoap.org/soap/http" b)
  | [] => Ok "http://schemas.xmlsoap.org/soap/http"
  end.

Definition _get_soap_style (binding : element) : result string :=
  soap_bindings <- xpath_under ns binding "soap" "binding" ;;
  match soap_bindings with
  | b :: _ => Ok (get_or "style" "document" b)
  | [] => Ok "document"
  end.

Definition _extract_binding_operations (binding : element)
  : result (list BindingOperation) :=
  op_elements <- xpath_under ns binding "wsdl" "operation" ;;
  for_each
    (fun op =>
       soap_ops <- xpath_under ns op "soap" "operation" ;;
       let soap_action :=
         match soap_ops with
         | o :: _ => get_or "soapAction" "" o
         | [] => ""
         end in
       Ok {| binding_operation_name := get "name" op;
             binding_operation_soap_action := soap_action |})
    op_elements.

Definition _extract_bindings (root : element) : result (list Binding) :=
  binding_elements <- xpath_all ns root "wsdl" "binding" ;;
  for_each
    (fun binding =>
       transport <- _get_soap_transport binding ;;
       style <- _get_soap_style binding ;;
       ops <- _extract_binding_operations binding ;;
       Ok {| binding_name := get "name" binding;
             binding_type := get "type" binding;
             binding_transport := transport;
             binding_style := style;
             binding_operations := ops |})
    binding_elements.

Definition _extract_services (root : element) : result (list Service) :=
  service_elements <- xpath_all ns root "wsdl" "service" ;;
  for_each
    (fun service =>
       ports <- xpath_under ns service "wsdl" "port" ;;
       service_ports <-
         for_each
           (fun port =>
              addresses <- xpath_under ns port "soap" "address" ;;
              addresses <-
                match addresses with
                | [] => xpath_under ns port "soap12" "address"
                | _ => Ok addresses
                end ;;
              let location :=
                match addresses with
                | a :: _ => get "location" a
                | [] => Some ""
                end in
              Ok {| port_name := get "name" port;
                    port_binding := get "binding" port;
                    port_location := location |})
           ports ;;
       doc <- _get_element_documentation service ;;
       Ok {| service_name := get "name" service;
             service_ports := service_ports;
             service_documentation := doc |})
    service_elements.

(** The dict literal of [parse]: its values are computed in this order. *)
Definition extract (root : element) (target_ns : option string)
  : result ServiceInfo :=
  name <- _get_service_name root ;;
  description <- _get_service_description root ;;
  operations <- _extract_operations root ;;
  types <- _extract_types root ;;
  bindings <- _extract_bindings root ;;
  services <- _extract_services root ;;
  Ok {| info_name := name;
        info_description := description;
        info_target_namespace := target_ns;
        info_operations := operations;
        info_types := types;
        info_bindings := bindings;
        info_services := services |}.

End Extraction.

(** The body of the [try] of [parse]: the outcome and the parser object as
    the call leaves it.  ([wsdl_content.encode('utf-8')] is the identity on
    the byte model of strings.) *)
Definition parse_try (L : Library) (self : t) (wsdl_content : string)
  : result ServiceInfo * t :=
  match fromstring L wsdl_content with
  | Raise e => (Raise e, self)
  | Ok root =>
      let target_ns := get "targetNamespace" root in
      let self' :=
        if Py.truthy target_ns then
          {| self_namespaces :=
               Dict.set String.eqb "tns" target_ns (self_namespaces self) |}
        else self in
      (extract L (self_namespaces self') root target_ns, self')
  end.

(** The two [except] clauses of [parse]. *)
Definition parse_except (e : exn) : exn :=
  match exn_cls e with
  | XMLSyntaxError => mk_exn ValueError ("Invalid XML syntax: " ++ exn_str e)
  | _ => mk_exn ValueError ("Failed to parse WSDL: " ++ exn_str e)
  end.

Definition parse (L : Library) (self : t) (wsdl_content : string)
  : result ServiceInfo * t :=
  match parse_try L self wsdl_content with
  | (Ok service_info, self') => (Ok service_info, self')
  | (Raise e, self') => (Raise (parse_except e), self')
  end.

End WSDLParser.

(** ** The OpenAPI document [SwaggerGenerator.generate] returns

    Entries that are the same constant in every document (the
    descriptions of bodies, responses and parameters, the [contact] block)
    are left out. *)

(** The [application/json] schema of a message. *)
Inductive MessageSchema :=
| GenericObject
| ObjectSchema (properties : Dict.t (option string) ScalarSchema)
               (required : option (list (option string))).

Record RequestBody := {
  request_text_xml_example : string;
  request_soap_xml_example : string;
  request_json_schema : option MessageSchema
}.

Record Responses := {
  response_200_text_xml_example : string;
  response_200_json_schema : option MessageSchema;
  response_500_text_xml_example : string
}.

Record HeaderParameter := {
  parameter_name : string;
  parameter_required : bool;
  parameter_enum : list string;
  parameter_default : option string
}.

Record PostOperation := {
  post_tags : list string;
  post_summary : option string;
  post_description : string;
  post_operationId : option string;
  post_requestBody : RequestBody;
  post_responses : Responses;
  post_parameters : list HeaderParameter
}.

(** A path item: its only key is [post]. *)
Record PathItem := { post : PostOperation }.

Inductive PropSchema :=
| PropScalar (type : string)
| PropArray (items_type : string).

Inductive ComponentSchema :=
| ComponentObject (properties : Dict.t (option string) PropSchema)
                  (required : option (list (option string)))
| ComponentScalar (schema : ScalarSchema).

Record Server := { server_url : string; server_description : string }.

Record OpenApiDocument := {
  openapi : string;
  info_title : string;
  info_description' : string;
  info_version : string;
  servers : list Server;
  paths : Dict.t string PathItem;
  components_schemas : Dict.t string ComponentSchema;
  tags : list (string * string)
}.

(** ** [swagger_generator.py] *)

Module SwaggerGenerator.

Definition swagger_version : string := "3.0.0".

(** [type_mapping] of [SwaggerGenerator._map_type_to_openapi]. *)
Definition type_mapping : Dict.t string ScalarSchema :=
  [ ("string", plain "string"); ("int", formatted "integer" "int32");
    ("integer", plain "integer"); ("long", formatted "integer" "int64");
    ("short", formatted "integer" "int32");
    ("byte", formatted "integer" "int32");
    ("double", formatted "number" "double");
    ("float", formatted "number" "float"); ("decimal", plain "number");
    ("boolean", plain "boolean"); ("date", formatted "string" "date");
    ("dateTime", formatted "string" "date-time");
    ("time", formatted "string" "time");
    ("base64Binary", formatted "string" "byte");
    ("hexBinary", formatted "string" "binary");
    ("anyURI", formatted "string" "uri") ].

Definition _map_type_to_openapi (wsdl_type : option string) : ScalarSchema :=
  match wsdl_type with
  | None => plain "string"
  | Some EmptyString => plain "string"
  | Some t =>
      let t := if Py.contains ":" t then Py.split_colon_1 t else t in
      match Dict.get String.eqb (Py.lower t) type_mapping with
      | Some s => s
      | None => plain "string"
      end
  end.

Definition lines (l : list string) : string := String.concat Py.newline l.

Definition quoted (s : string) : string := Py.dquote ++ s ++ Py.dquote.

Definition xml_declaration : string :=
  "<?xml version=" ++ quoted "1.0" ++ " encoding=" ++ quoted "UTF-8" ++ "?>".

Definition envelope_open : string :=
  "<soap:Envelope xmlns:soap="
  ++ quoted "http://schemas.xmlsoap.org/soap/envelope/" ++ ">".

Definition _generate_soap_example (operation : Operation) (msg_type : string)
  : string :=
  let op_name :=
    Py.format (Py.get_present (operation_name operation) (Some "Operation")) in
  if String.eqb msg_type "request" then
    lines [ xml_declaration;
            envelope_open;
            "    <soap:Header>";
            "        <!-- Optional SOAP headers -->";
            "    </soap:Header>";
            "    <soap:Body>";
            ("        <" ++ op_name ++ " xmlns="
               ++ quoted "http://example.com/service" ++ ">")%string;
            "            <!-- Request parameters -->";
            ("        </" ++ op_name ++ ">")%string;
            "    </soap:Body>";
            "</soap:Envelope>" ]
  else
    lines [ xml_declaration;
            envelope_open;
            "    <soap:Body>";
            ("        <" ++ op_name ++ "Response xmlns="
               ++ quoted "http://example.com/service" ++ ">")%string;
            "            <!-- Response data -->";
            ("        </" ++ op_name ++ "Response>")%string;
            "    </soap:Body>";
            "</soap:Envelope>" ].

Definition _generate_soap_fault_example : string :=
  lines [ xml_declaration;
          envelope_open;
          "    <soap:Body>";
          "        <soap:Fault>";
          "            <faultcode>soap:Server</faultcode>";
          "            <faultstring>Server Error</faultstring>";
          "            <detail>";
          "                <!-- Fault details -->";
          "            </detail>";
          "        </soap:Fault>";
          "    </soap:Body>";
          "</soap:Envelope>" ].

(** [part.get('type') or part.get('element', 'string')]. *)
Definition part_type_of (part : Part) : option string :=
  Py.or_else (part_type part)
    (Py.get_present (part_element part) (Some "string")).

(** The loop of [_generate_input_schema]: one assignment to [properties]
    and one [required.append] per part. *)
Fixpoint input_loop (parts : list Part)
  (properties : Dict.t (option string) ScalarSchema)
  (required : list (option string))
  : Dict.t (option string) ScalarSchema * list (option string) :=
  match parts with
  | [] => (properties, required)
  | part :: rest =>
      let part_name := Py.get_present (part_name part) (Some "parameter") in
      let openapi_type := _map_type_to_openapi (part_type_of part) in
      input_loop rest
        (Dict.set Dict.okey_eqb part_name openapi_type properties)
        (required ++ [part_name])%list
  end.

Definition _generate_input_schema (input_msg : option Message)
  : MessageSchema :=
  match input_msg with
  | None => GenericObject
  | Some msg =>
      match message_parts msg with
      | [] => GenericObject
      | parts =>
          let (properties, required) := input_loop parts [] [] in
          ObjectSchema properties
            (match required with [] => None | _ => Some required end)
      end
  end.

(** The loop of [_generate_output_schema]. *)
Fixpoint output_loop (parts : list Part)
  (properties : Dict.t (option string) ScalarSchema)
  : Dict.t (option string) ScalarSchema :=
  match parts with
  | [] => properties
  | part :: rest =>
      let part_name := Py.get_present (part_name part) (Some "result") in
      let openapi_type := _map_type_to_openapi (part_type_of part) in
      output_loop rest
        (Dict.set Dict.okey_eqb part_name openapi_type properties)
  end.

Definition _generate_output_schema (output_msg : option Message)
  : MessageSchema :=
  match output_msg with
  | None => GenericObject
  | Some msg =>
      match message_parts msg with
      | [] => GenericObject
      | parts => ObjectSchema (output_loop parts []) None
      end
  end.

Definition header_parameters : list HeaderParameter :=
  [ {| parameter_name := "SOAPAction";
       parameter_required := false;
       parameter_enum := [];
       parameter_default := None |};
    {| parameter_name := "Content-Type";
       parameter_required := true;
       parameter_enum := ["text/xml"; "application/soap+xml"];
       parameter_default := Some "text/xml" |} ].

Definition _generate_operation_spec (operation : Operation) : PathItem :=
  let name := Py.get_present (operation_name operation) (Some "SOAP Operation") in
  {| post :=
       {| post_tags := ["SOAP Operations"];
          post_summary := name;
          post_description :=
            Py.format
              (Py.or_else (operation_documentation operation)
                 (Some ("SOAP operation: "
                        ++ Py.format (operation_name operation))%string));
          post_operationId := operation_name operation;
          post_requestBody :=
            {| request_text_xml_example :=
                 _generate_soap_example operation "request";
               request_soap_xml_example :=
                 _generate_soap_example operation "request";
               request_json_schema :=
                 match operation_input operation with
                 | Some msg => Some (_generate_input_schema (Some msg))
                 | None => None
                 end |};
          post_responses :=
            {| response_200_text_xml_example :=
                 _generate_soap_example operation "response";
               response_200_json_schema :=
                 match operation_output operation with
                 | Some msg => Some (_generate_output_schema (Some msg))
                 | None => None
                 end;
               response_500_text_xml_example :=
                 _generate_soap_fault_example |};
          post_parameters := header_parameters |} |}.

(** [type_def.get('type')]. *)
Definition type_def_type (d : TypeDef) : string :=
  match d with
  | ComplexDef _ => "object"
  | SimpleDef t _ => t
  | SimpleDefault => "string"
  | ElementDef t _ => t
  end.

(** [type_def.get('properties', {})]. *)
Definition type_def_properties (d : TypeDef)
  : Dict.t (option string) PropertyDef :=
  match d with
  | ComplexDef p => p
  | _ => []
  end.

Fixpoint properties_loop (props : Dict.t (option string) PropertyDef)
  (schema_properties : Dict.t (option string) PropSchema)
  (required : list (option string))
  : Dict.t (option string) PropSchema * list (option string) :=
  match props with
  | [] => (schema_properties, required)
  | (prop_name, prop_def) :: rest =>
      let prop_schema :=
        if property_array prop_def then PropArray (property_type prop_def)
        else PropScalar (property_type prop_def) in
      properties_loop rest
        (Dict.set Dict.okey_eqb prop_name prop_schema schema_properties)
        (if property_required prop_def then (required ++ [prop_name])%list
         else required)
  end.

Definition _generate_schemas (types : Dict.t string TypeDef)
  : Dict.t string ComponentSchema :=
  fold_left
    (fun schemas entry =>
       let (type_name, type_def) := (entry : string * TypeDef) in
       if String.eqb (type_def_type type_def) "object" then
         let (properties, required) :=
           properties_loop (type_def_properties type_def) [] [] in
         Dict.set String.eqb type_name
           (ComponentObject properties
              (match required with [] => None | _ => Some required end))
           schemas
       else
         Dict.set String.eqb type_name
           (ComponentScalar
              (_map_type_to_openapi (Some (type_def_type type_def))))
           schemas)
    types [].

Section Generation.

Variable L : Library.

(** The inner loop of [_extract_base_url]: [Some url] stands for the
    [return] inside the loop. *)
Fixpoint scan_ports (ports : list Port) : result (option string) :=
  match ports with
  | [] => Ok None
  | port :: rest =>
      match Py.get_present (port_location port) (Some "") with
      | Some (String a r) =>
          parsed <- urlparse L (String a r) ;;
          let (scheme, netloc) := (parsed : string * string) in
          if Py.truthy (Some scheme) && Py.truthy (Some netloc) then
            Ok (Some (scheme ++ "://" ++ netloc)%string)
          else scan_ports rest
      | _ => scan_ports rest
      end
  end.

(** The outer loop of [_extract_base_url]. *)
Fixpoint scan_services (services : list Service) : result (option string) :=
  match services with
  | [] => Ok None
  | service :: rest =>
      found <- scan_ports (Py.get_present (service_ports service) []) ;;
      match found with
      | Some url => Ok (Some url)
      | None => scan_services rest
      end
  end.

Definition _extract_base_url (services : list Service) : result string :=
  found <- scan_services services ;;
  match found with
  | Some url => Ok url
  | None => Ok "https://example.com"
  end.

(** The loop of [generate] over the operations. *)
Definition paths_loop (operations : list Operation)
  (paths : Dict.t string PathItem) : Dict.t string PathItem :=
  fold_left
    (fun paths operation =>
       let path := ("/" ++ Py.format (operation_name operation))%string in
       Dict.set String.eqb path (_generate_operation_spec operation) paths)
    operations paths.

Definition generate (wsdl_data : ServiceInfo) : result OpenApiDocument :=
  base_url <- _extract_base_url (Py.get_present (info_services wsdl_data) []) ;;
  Ok {| openapi := swagger_version;
        info_title := Py.get_present (info_name wsdl_data) "SOAP Web Service";
        info_description' :=
          Py.get_present (info_description wsdl_data)
            "SOAP Web Service converted from WSDL";
        info_version := "1.0.0";
        servers :=
          if Py.truthy (Some base_url) then
            [ {| server_url := base_url;
                 server_description := "SOAP Service Endpoint" |} ]
          else [];
        paths :=
          paths_loop (Py.get_present (info_operations wsdl_data) []) [];
        components_schemas :=
          _generate_schemas (Py.get_present (info_types wsdl_data) []);
        tags := [("SOAP Operations", "SOAP web service operations")] |}.

End Generation.

End SwaggerGenerator.

(** ** Parser objects in use

    Every assignment to [self.namespaces] writes the key [tns], so a parser
    object created by [__init__] always holds the four fixed bindings and
    some value for [tns]. *)

Definition wsdl_uri : string := "http://schemas.xmlsoap.org/wsdl/".
Definition soap_uri : string := "http://schemas.xmlsoap.org/wsdl/soap/".
Definition soap12_uri : string := "http://schemas.xmlsoap.org/wsdl/soap12/".
Definition xsd_uri : string := "http://www.w3.org/2001/XMLSchema".

Definition namespaces_with (tns : option string) : namespaces :=
  [ ("wsdl", Some wsdl_uri); ("soap", Some soap_uri);
    ("soap12", Some soap12_uri); ("xsd", Some xsd_uri); ("tns", tns) ].

Definition parser_with (tns : option string) : WSDLParser.t :=
  {| WSDLParser.self_namespaces := namespaces_with tns |}.

(** ** What the specification says, for comparison with the code *)

Module Spec.

(** The operation elements of all port types, in document order; an
    operation is counted once for each port type it lies in. *)
Definition port_type_operations (root : element) : list element :=
  flat_map (fun port_type =>
              filter (has_name wsdl_uri "operation") (descendants port_type))
    (filter (has_name wsdl_uri "portType") (root :: descendants root)).

(** The message name the first [msg_type] element of an operation refers
    to, without its prefix; None when the operation has no such element
    or the element has no (or an empty) message attribute. *)
Definition referenced_message (operation : element) (msg_type : string)
  : option string :=
  match filter (has_name wsdl_uri msg_type) (descendants operation) with
  | e :: _ =>
      match get "message" e with
      | Some (String a r) =>
          Some (if Py.contains ":" (String a r)
                then Py.split_colon_1 (String a r) else String a r)
      | _ => None
      end
  | [] => None
  end.

(** The document has a message element of that name. *)
Definition message_defined (root : element) (msg_name : string) : bool :=
  existsb (name_is msg_name)
    (filter (has_name wsdl_uri "message") (root :: descendants root)).

(** The locations of all ports, services first, in declaration order. *)
Definition locations (services : list Service) : list (option string) :=
  flat_map (fun s => map port_location (service_ports s)) services.

(** A location parses as an absolute URL: scheme and netloc both present. *)
Definition absolute (L : Library) (location : option string)
  : option string :=
  match location with
  | Some (String a r) =>
      match urlparse L (String a r) with
      | Ok (String s1 s, String n1 n) =>
          Some (String s1 s ++ "://" ++ String n1 n)%string
      | _ => None
      end
  | _ => None
  end.

(** The base URL of the first location that parses as an absolute URL. *)
Fixpoint first_absolute (L : Library) (locs : list (option string))
  : option string :=
  match locs with
  | [] => None
  | l :: rest =>
      match absolute L l with
      | Some url => Some url
      | None => first_absolute L rest
      end
  end.

(** The description as specified: the trimmed text of the first
    documentation element, else the default. *)
Definition description (L : Library) (root : element) : string :=
  match find (has_name wsdl_uri "documentation") (root :: descendants root) with
  | Some d =>
      match text_of d with
      | Some t => strip L t
      | None => ""
      end
  | None => "SOAP Web Service converted from WSDL"
  end.

(** The definition an element of a schema contributes to the catalog. *)
Definition definition_of (L : Library) (ns : namespaces) (e : element)
  : result (option (string * TypeDef)) :=
  match get "name" e with
  | Some (String a r) =>
      if has_name xsd_uri "complexType" e then
        d <- WSDLParser._parse_complex_type L ns e ;; Ok (Some (String a r, d))
      else if has_name xsd_uri "simpleType" e then
        d <- WSDLParser._parse_simple_type ns e ;; Ok (Some (String a r, d))
      else if has_name xsd_uri "element" e then
        Ok (Some (String a r, WSDLParser._parse_element e))
      else Ok None
  | _ => Ok None
  end.

Fixpoint somes {A} (l : list (option A)) : list A :=
  match l with
  | [] => []
  | Some a :: r => a :: somes r
  | None :: r => somes r
  end.

(** The named definitions of all schemas, in the order of the document. *)
Definition document_order_definitions (L : Library) (ns : namespaces)
  (root : element) : result (list (string * TypeDef)) :=
  schemas <- xpath_all ns root "xsd" "schema" ;;
  per_schema <-
    for_each
      (fun schema =>
         found <- for_each (definition_of L ns) (descendants schema) ;;
         Ok (somes found))
      schemas ;;
  Ok (List.concat per_schema).

End Spec.

(** ** The order in which [_extract_types] meets the definitions *)

(** The named elements of one loop of [_extract_types], each with its
    parsed definition. *)
Fixpoint named_definitions (parse_one : element -> result TypeDef)
  (l : list element) : result (list (string * TypeDef)) :=
  match l with
  | [] => Ok []
  | e :: rest =>
      match get "name" e with
      | Some (String a r) =>
          d <- parse_one e ;;
          ds <- named_definitions parse_one rest ;;
          Ok ((String a r, d) :: ds)
      | _ => named_definitions parse_one rest
      end
  end.

(** Per schema: all complex types, then all simple types, then all
    elements, each group in document order. *)
Definition schema_definitions (L : Library) (ns : namespaces)
  (schema : element) : result (list (string * TypeDef)) :=
  complex_types <- xpath_under ns schema "xsd" "complexType" ;;
  cs <- named_definitions (WSDLParser._parse_complex_type L ns) complex_types ;;
  simple_types <- xpath_under ns schema "xsd" "simpleType" ;;
  ss <- named_definitions (WSDLParser._parse_simple_type ns) simple_types ;;
  elements <- xpath_under ns schema "xsd" "element" ;;
  es <- named_definitions (fun e => Ok (WSDLParser._parse_element e)) elements ;;
  Ok (cs ++ ss ++ es)%list.

Definition traversal_definitions (L : Library) (ns : namespaces)
  (root : element) : result (list (string * TypeDef)) :=
  schemas <- xpath_all ns root "xsd" "schema" ;;
  per_schema <- for_each (schema_definitions L ns) schemas ;;
  Ok (List.concat per_schema).

(** ** Sample documents and a sample library *)

Module Samples.

Definition is_alpha (a : ascii) : bool :=
  let n := nat_of_ascii a in
  (Nat.leb 65 n && Nat.leb n 90) || (Nat.leb 97 n && Nat.leb n 122).

Definition is_digit (a : ascii) : bool :=
  let n := nat_of_ascii a in Nat.leb 48 n && Nat.leb n 57.

Definition is_space (a : ascii) : bool :=
  let n := nat_of_ascii a in
  (Nat.leb 9 n && Nat.leb n 13) || (Nat.leb 28 n && Nat.leb n 32).

Fixpoint all_chars (p : ascii -> bool) (s : string) : bool :=
  match s with
  | EmptyString => true
  | String a r => p a && all_chars p r
  end.

Fixpoint take_until (stop : ascii -> bool) (s : string) : string :=
  match s with
  | EmptyString => EmptyString
  | String a r => if stop a then EmptyString else String a (take_until stop r)
  end.

Fixpoint drop_until (stop : ascii -> bool) (s : string) : string :=
  match s with
  | EmptyString => EmptyString
  | String a r => if stop a then String a r else drop_until stop r
  end.

Fixpoint lstrip (s : string) : string :=
  match s with
  | String a r => if is_space a then lstrip r else s
  | EmptyString => EmptyString
  end.

Fixpoint rstrip (s : string) : string :=
  match s with
  | EmptyString => EmptyString
  | String a r =>
      match rstrip r with
      | EmptyString => if is_space a then EmptyString else String a EmptyString
      | r' => String a r'
      end
  end.

(** [str.strip] on ASCII text. *)
Definition strip (s : string) : string := rstrip (lstrip s).

(** [str.isdigit] on ASCII text. *)
Definition isdigit (s : string) : bool :=
  match s with
  | EmptyString => false
  | _ => all_chars is_digit s
  end.

Fixpoint decimal (s : string) (acc : Z) : Z :=
  match s with
  | EmptyString => acc
  | String a r => decimal r (10 * acc + Z.of_nat (nat_of_ascii a - 48))
  end.

(** [int] on a string of ASCII digits. *)
Definition int (s : string) : result Z :=
  if isdigit s then Ok (decimal s 0)
  else Raise (mk_exn ValueError "invalid literal for int() with base 10").

Definition is_scheme_char (a : ascii) : bool :=
  is_alpha a || is_digit a || Ascii.eqb a "+" || Ascii.eqb a "-"
  || Ascii.eqb a ".".

Definition is_delimiter (a : ascii) : bool :=
  Ascii.eqb a "/" || Ascii.eqb a "?" || Ascii.eqb a "#".

(** Scheme and netloc as [urlsplit] computes them for a URL of printable
    ASCII characters; the host between brackets is not validated. *)
Definition urlparse (url : string) : result (string * string) :=
  let head := take_until (Ascii.eqb ":") url in
  let scheme_found :=
    Py.contains ":" url
    && match head with
       | String a _ => is_alpha a && all_chars is_scheme_char head
       | EmptyString => false
       end in
  let scheme := if scheme_found then Py.lower head else "" in
  let rest :=
    if scheme_found then
      match drop_until (Ascii.eqb ":") url with
      | String _ r => r
      | EmptyString => EmptyString
      end
    else url in
  match rest with
  | String "/" (String "/" r) =>
      let netloc := take_until is_delimiter r in
      if xorb (Py.contains "[" netloc) (Py.contains "]" netloc) then
        Raise (mk_exn ValueError "Invalid IPv6 URL")
      else Ok (scheme, netloc)
  | _ => Ok (scheme, "")
  end.

Definition wsdl (local : string) : qname :=
  {| q_ns := wsdl_uri; q_local := local |}.
Definition soap (local : string) : qname :=
  {| q_ns := soap_uri; q_local := local |}.
Definition xsd (local : string) : qname :=
  {| q_ns := xsd_uri; q_local := local |}.

(** A service with two port types that both declare [Add], a message part
    without a name, a reference to a message that does not exist and one
    port with an address. *)
Definition calculator_xml : string :=
  "<definitions xmlns='http://schemas.xmlsoap.org/wsdl/'"
  ++ " xmlns:soap='http://schemas.xmlsoap.org/wsdl/soap/'"
  ++ " xmlns:xsd='http://www.w3.org/2001/XMLSchema'"
  ++ " targetNamespace='urn:calc'>"
  ++ "<documentation>Calculator</documentation>"
  ++ "<message name='AddRequest'>"
  ++ "<part name='a' type='xsd:int'/><part type='xsd:int'/></message>"
  ++ "<message name='AddResponse'>"
  ++ "<part name='sum' type='xsd:dateTime'/></message>"
  ++ "<portType name='P1'><operation name='Add'>"
  ++ "<input message='tns:Missing'/></operation></portType>"
  ++ "<portType name='P2'><operation name='Add'>"
  ++ "<input message='tns:AddRequest'/>"
  ++ "<output message='tns:AddResponse'/></operation></portType>"
  ++ "<service name='Calc'><port name='p' binding='tns:b'>"
  ++ "<soap:address location='http://calc.example.org/ws'/>"
  ++ "</port></service></definitions>".

Definition calculator : element :=
  Element (wsdl "definitions") [("targetNamespace", "urn:calc")] None
    [ Element (wsdl "documentation") [] (Some "Calculator") [];
      Element (wsdl "message") [("name", "AddRequest")] None
        [ Element (wsdl "part") [("name", "a"); ("type", "xsd:int")] None [];
          Element (wsdl "part") [("type", "xsd:int")] None [] ];
      Element (wsdl "message") [("name", "AddResponse")] None
        [ Element (wsdl "part") [("name", "sum"); ("type", "xsd:dateTime")]
            None [] ];
      Element (wsdl "portType") [("name", "P1")] None
        [ Element (wsdl "operation") [("name", "Add")] None
            [ Element (wsdl "input") [("message", "tns:Missing")] None [] ] ];
      Element (wsdl "portType") [("name", "P2")] None
        [ Element (wsdl "operation") [("name", "Add")] None
            [ Element (wsdl "input") [("message", "tns:AddRequest")] None [];
              Element (wsdl "output") [("message", "tns:AddResponse")] None []
            ] ];
      Element (wsdl "service") [("name", "Calc")] None
        [ Element (wsdl "port") [("name", "p"); ("binding", "tns:b")] None
            [ Element (soap "address")
                [("location", "http://calc.example.org/ws")] None [] ] ] ].

(** A document without a target namespace and without ports. *)
Definition plain_xml : string :=
  "<definitions xmlns='http://schemas.xmlsoap.org/wsdl/'>"
  ++ "<documentation/><service name='Plain'/></definitions>".

Definition plain_service : element :=
  Element (wsdl "definitions") [] None
    [ Element (wsdl "documentation") [] None [];
      Element (wsdl "service") [("name", "Plain")] None [] ].

(** A document with a target namespace, an empty documentation element
    and a service without ports. *)
Definition bare_xml : string :=
  "<definitions xmlns='http://schemas.xmlsoap.org/wsdl/'"
  ++ " targetNamespace='urn:bare'><documentation/>"
  ++ "<service name='Bare'/></definitions>".

Definition bare_service : element :=
  Element (wsdl "definitions") [("targetNamespace", "urn:bare")] None
    [ Element (wsdl "documentation") [] None [];
      Element (wsdl "service") [("name", "Bare")] None [] ].

(** An input that names a message with one double quote in its name. *)
Definition quoted_reference_xml : string :=
  "<definitions xmlns='http://schemas.xmlsoap.org/wsdl/'"
  ++ " targetNamespace='urn:q'><portType name='P'><operation name='Op'>"
  ++ "<input message='tns:a" ++ Py.dquote ++ "b'/>"
  ++ "</operation></portType></definitions>".

Definition quoted_reference : element :=
  Element (wsdl "definitions") [("targetNamespace", "urn:q")] None
    [ Element (wsdl "portType") [("name", "P")] None
        [ Element (wsdl "operation") [("name", "Op")] None
            [ Element (wsdl "input")
                [("message", "tns:a" ++ Py.dquote ++ "b")] None [] ] ] ].

(** A schema in which the element [X] precedes the simple type [X]. *)
Definition collision_xml : string :=
  "<definitions xmlns='http://schemas.xmlsoap.org/wsdl/'"
  ++ " xmlns:xsd='http://www.w3.org/2001/XMLSchema'"
  ++ " targetNamespace='urn:c'><types><xsd:schema>"
  ++ "<xsd:element name='X' type='xsd:int'/>"
  ++ "<xsd:simpleType name='X'><xsd:restriction base='xsd:boolean'/>"
  ++ "</xsd:simpleType></xsd:schema></types></definitions>".

Definition collision : element :=
  Element (wsdl "definitions") [("targetNamespace", "urn:c")] None
    [ Element (wsdl "types") [] None
        [ Element (xsd "schema") [] None
            [ Element (xsd "element") [("name", "X"); ("type", "xsd:int")]
                None [];
              Element (xsd "simpleType") [("name", "X")] None
                [ Element (xsd "restriction") [("base", "xsd:boolean")]
                    None [] ] ] ] ].

(** A port type inside a port type: the operation documented [first] lies
    in both, the operation documented [last] comes after it in the
    document and lies in the outer one only. *)
Definition nested_xml : string :=
  "<definitions xmlns='http://schemas.xmlsoap.org/wsdl/'"
  ++ " targetNamespace='urn:n'><portType name='Outer'>"
  ++ "<portType name='Inner'><operation name='Op'>"
  ++ "<documentation>first</documentation></operation></portType>"
  ++ "<operation name='Op'><documentation>last</documentation>"
  ++ "</operation></portType></definitions>".

Definition nested : element :=
  Element (wsdl "definitions") [("targetNamespace", "urn:n")] None
    [ Element (wsdl "portType") [("name", "Outer")] None
        [ Element (wsdl "portType") [("name", "Inner")] None
            [ Element (wsdl "operation") [("name", "Op")] None
                [ Element (wsdl "documentation") [] (Some "first") [] ] ];
          Element (wsdl "operation") [("name", "Op")] None
            [ Element (wsdl "documentation") [] (Some "last") [] ] ] ].

(** A schema with a complex type, a simple type over [xsd:decimal] and an
    element of type [xsd:double], and one operation. *)
Definition typed_xml : string :=
  "<definitions xmlns='http://schemas.xmlsoap.org/wsdl/'"
  ++ " xmlns:xsd='http://www.w3.org/2001/XMLSchema'"
  ++ " targetNamespace='urn:t'><types><xsd:schema>"
  ++ "<xsd:complexType name='Item'><xsd:sequence>"
  ++ "<xsd:element name='id' type='xsd:int'/>"
  ++ "<xsd:element name='tags' type='xsd:string' minOccurs='0'"
  ++ " maxOccurs='unbounded'/>"
  ++ "<xsd:element name='pair' maxOccurs='2'/>"
  ++ "</xsd:sequence></xsd:complexType>"
  ++ "<xsd:simpleType name='Amount'><xsd:restriction base='xsd:decimal'/>"
  ++ "</xsd:simpleType><xsd:element name='price' type='xsd:double'/>"
  ++ "</xsd:schema></types><portType name='P'><operation name='Get'/>"
  ++ "</portType></definitions>".

Definition typed : element :=
  Element (wsdl "definitions") [("targetNamespace", "urn:t")] None
    [ Element (wsdl "types") [] None
        [ Element (xsd "schema") [] None
            [ Element (xsd "complexType") [("name", "Item")] None
                [ Element (xsd "sequence") [] None
                    [ Element (xsd "element")
                        [("name", "id"); ("type", "xsd:int")] None [];
                      Element (xsd "element")
                        [("name", "tags"); ("type", "xsd:string");
                         ("minOccurs", "0"); ("maxOccurs", "unbounded")]
                        None [];
                      Element (xsd "element")
                        [("name", "pair"); ("maxOccurs", "2")] None [] ] ];
              Element (xsd "simpleType") [("name", "Amount")] None
                [ Element (xsd "restriction") [("base", "xsd:decimal")]
                    None [] ];
              Element (xsd "element")
                [("name", "price"); ("type", "xsd:double")] None [] ] ];
      Element (wsdl "portType") [("name", "P")] None
        [ Element (wsdl "operation") [("name", "Get")] None [] ] ].

(** lxml's parser on the sample documents. *)
Definition fromstring (content : string) : result element :=
  if String.eqb content calculator_xml then Ok calculator
  else if String.eqb content plain_xml then Ok plain_service
  else if String.eqb content bare_xml then Ok bare_service
  else if String.eqb content quoted_reference_xml then Ok quoted_reference
  else if String.eqb content collision_xml then Ok collision
  else if String.eqb content nested_xml then Ok nested
  else if String.eqb content typed_xml then Ok typed
  else Raise (mk_exn XMLSyntaxError
                "Start tag expected, '<' not found, line 1, column 1").

Definition library : Library :=
  Build_Library fromstring urlparse strip isdigit int
    (fun _ => "Invalid predicate")
    (fun _ _ _ => Raise (mk_exn XPathEvalError "Invalid expression")).

End Samples.

(** ** Reading a document directly

    What the elements of a document say, read off the tree without the
    parser: the values the extraction is compared with. *)

Module Tree.

(** The first element of [nodes] with the given expanded name. *)
Definition first_named (uri local : string) (nodes : list element)
  : option element :=
  find (has_name uri local) nodes.

(** A part element as a [Part]. *)
Definition part_of (part : element) : Part :=
  {| part_name := get "name" part;
     part_element := get "element" part;
     part_type := get "type" part |}.

(** The message elements of the document with a given name. *)
Definition messages_named (root : element) (msg_name : string)
  : list element :=
  filter (name_is msg_name)
    (filter (has_name wsdl_uri "message") (root :: descendants root)).

(** The location of a port: the [location] of its first SOAP 1.1 address,
    of its first SOAP 1.2 address when it has no SOAP 1.1 address, and
    the empty string when it has neither. *)
Definition location_of (port : element) : option string :=
  match filter (has_name soap_uri "address") (descendants port) with
  | a :: _ => get "location" a
  | [] =>
      match filter (has_name soap12_uri "address") (descendants port) with
      | a :: _ => get "location" a
      | [] => Some ""
      end
  end.

(** The documentation of an element: the stripped text of the first
    documentation element below it, None when there is none or when it
    has no text. *)
Definition documentation_of (L : Library) (e : element) : option string :=
  match filter (has_name wsdl_uri "documentation") (descendants e) with
  | d :: _ =>
      match text_of d with
      | Some (String a r) => Some (strip L (String a r))
      | _ => None
      end
  | [] => None
  end.

(** An attribute of the first SOAP 1.1 binding element under a binding,
    with a default for a missing element or attribute. *)
Definition soap_binding_attribute (key default : string) (binding : element)
  : string :=
  match filter (has_name soap_uri "binding") (descendants binding) with
  | b :: _ => get_or key default b
  | [] => default
  end.


(** The operation elements that lie below [e] and below a port type,
    in document order, each once; [inside] says that [e] itself lies
    below a port type. *)
Fixpoint covered_operations (inside : bool) (e : element) : list element :=
  match e with
  | Element _ _ _ cs =>
      let inside' := inside || has_name wsdl_uri "portType" e in
      flat_map
        (fun c =>
           (if inside' && has_name wsdl_uri "operation" c then [c] else [])
           ++ covered_operations inside' c)%list
        cs
  end.

(** The port-type operations of the document in document order. *)
Definition document_operations (root : element) : list element :=
  covered_operations false root.

(** The values of [maxOccurs] (default [1]) of the element declarations of
    the document. *)
Definition occurs_bounds (root : element) : list string :=
  map (get_or "maxOccurs" "1")
    (filter (has_name xsd_uri "element") (descendants root)).

End Tree.

(** An operation of the description is the one extracted from an operation
    element: name, documentation, resolved input and output, faults. *)
Definition extracted_from (L : Library) (ns : namespaces) (root : element)
  (operation : Operation) (op : element) : Prop :=
  operation_name operation = get "name" op
  /\ operation_documentation operation = Tree.documentation_of L op
  /\ WSDLParser._extract_message_info L ns root op "input"
     = Ok (operation_input operation)
  /\ WSDLParser._extract_message_info L ns root op "output"
     = Ok (operation_output operation)
  /\ WSDLParser._extract_faults L ns root op
     = Ok (operation_faults operation).

(** A path item is the item of an operation: its identifiers are the
    operation's name, its description the documentation (a sentence with
    the name when there is none), its examples those of the name, and it
    has a JSON request (response) schema exactly when the operation has an
    input (output), the schema of that message. *)
Definition item_describes (operation : Operation) (item : PathItem) : Prop :=
  let p := post item in
  post_tags p = ["SOAP Operations"]
  /\ post_summary p = operation_name operation
  /\ post_operationId p = operation_name operation
  /\ post_description p
     = match operation_documentation operation with
       | Some (String a r) => String a r
       | _ => "SOAP operation: " ++ Py.format (operation_name operation)
       end
  /\ request_text_xml_example (post_requestBody p)
     = SwaggerGenerator._generate_soap_example operation "request"
  /\ request_soap_xml_example (post_requestBody p)
     = SwaggerGenerator._generate_soap_example operation "request"
  /\ request_json_schema (post_requestBody p)
     = option_map (fun msg => SwaggerGenerator._generate_input_schema (Some msg))
         (operation_input operation)
  /\ response_200_text_xml_example (post_responses p)
     = SwaggerGenerator._generate_soap_example operation "response"
  /\ response_200_json_schema (post_responses p)
     = option_map
         (fun msg => SwaggerGenerator._generate_output_schema (Some msg))
         (operation_output operation)
  /\ response_500_text_xml_example (post_responses p)
     = SwaggerGenerator._generate_soap_fault_example
  /\ map parameter_name (post_parameters p) = ["SOAPAction"; "Content-Type"].

(** The keys of [l] in the order of their first occurrence, those of
    [seen] left out. *)
Fixpoint first_occurrences (seen l : list string) : list string :=
  match l with
  | [] => []
  | x :: r =>
      if existsb (String.eqb x) seen then first_occurrences seen r
      else x :: first_occurrences (seen ++ [x])%list r
  end.

(** The two loops of [_extract_base_url] as one loop over the locations
    of all ports. *)
Fixpoint scan_locations (L : Library) (locs : list (option string))
  : result (option string) :=
  match locs with
  | [] => Ok None
  | Some (String a r) :: rest =>
      parsed <- urlparse L (String a r) ;;
      let (scheme, netloc) := (parsed : string * string) in
      if Py.truthy (Some scheme) && Py.truthy (Some netloc) then
        Ok (Some (scheme ++ "://" ++ netloc))
      else scan_locations L rest
  | _ :: rest => scan_locations L rest
  end.

(** The schema [_generate_schemas] stores for one property. *)
Definition prop_schema_of (p : PropertyDef) : PropSchema :=
  if property_array p then PropArray (property_type p)
  else PropScalar (property_type p).

(** The kinds [_map_xsd_type] can return, and the entries of the catalog
    as the parser builds them: a complex type with distinct property
    names, a simple type or an element with the kind of its raw type. *)
Definition scalar_kinds : list string :=
  ["string"; "integer"; "number"; "boolean"].

Definition parsed_shape (d : TypeDef) : Prop :=
  match d with
  | ComplexDef properties => NoDup (map fst properties)
  | SimpleDef t base => t = WSDLParser._map_xsd_type (Some base)
  | SimpleDefault => True
  | ElementDef t xml_type => t = WSDLParser._map_xsd_type (Some xml_type)
  end.

(** The component schema [_generate_schemas] stores for one entry of the
    catalog. *)
Definition component_of (type_def : TypeDef) : ComponentSchema :=
  if String.eqb (SwaggerGenerator.type_def_type type_def) "object" then
    let (properties, required) :=
      SwaggerGenerator.properties_loop
        (SwaggerGenerator.type_def_properties type_def) [] [] in
    ComponentObject properties
      (match required with [] => None | _ => Some required end)
  else
    ComponentScalar
      (SwaggerGenerator._map_type_to_openapi
         (Some (SwaggerGenerator.type_def_type type_def))).

(** The property a part gives to a message schema. *)
Definition part_property (part : Part) : option string * ScalarSchema :=
  (part_name part,
   SwaggerGenerator._map_type_to_openapi (SwaggerGenerator.part_type_of part)).

(** The path of an operation. *)
Definition path_of (operation : Operation) : string :=
  "/" ++ Py.format (operation_name operation).

(** A computation returns: it does not raise. *)
Definition returns {A} (m : result A) : Prop := exists a, m = Ok a.

(** * Properties *)

(** ** Strings, dictionaries and the result monad *)

Lemma split_nonempty (c : ascii) (s : string) : Py.split c s <> [].
Proof.
  induction s as [|a r IH]; simpl; [discriminate|].
  destruct (Ascii.eqb a c); [discriminate|].
  destruct (Py.split c r); [contradiction|discriminate].
Qed.

(** Under the guard [c in s], [s.split(c)] has an item of index 1. *)
Lemma split_second_exists (c : ascii) (s : string) :
  Py.contains c s = true -> 2 <= List.length (Py.split c s).
Proof.
  induction s as [|a r IH]; simpl; [discriminate|].
  destruct (Ascii.eqb a c) eqn:E; simpl.
  - intros _. pose proof (split_nonempty c r) as Hne.
    destruct (Py.split c r); [contradiction|simpl; lia].
  - intros H. specialize (IH H).
    destruct (Py.split c r) as [|h t]; simpl in *; lia.
Qed.

Section DictFacts.

Variable K : Type.
Variable eqb : K -> K -> bool.
Variable V : Type.
Hypothesis eqb_spec : forall a b, eqb a b = true <-> a = b.

Lemma eqb_same (a : K) : eqb a a = true.
Proof. apply eqb_spec; reflexivity. Qed.

Lemma eqb_sym (a b : K) : eqb a b = eqb b a.
Proof.
  destruct (eqb a b) eqn:E1, (eqb b a) eqn:E2; try reflexivity.
  - apply eqb_spec in E1; subst. rewrite eqb_same in E2; discriminate.
  - apply eqb_spec in E2; subst. rewrite eqb_same in E1; discriminate.
Qed.

Lemma dict_get_set (k k' : K) (v : V) (d : Dict.t K V) :
  Dict.get eqb k' (Dict.set eqb k v d)
  = if eqb k k' then Some v else Dict.get eqb k' d.
Proof.
  induction d as [|[k0 v0] r IH]; simpl.
  - reflexivity.
  - destruct (eqb k0 k) eqn:E0; simpl.
    + apply eqb_spec in E0; subst k0.
      destruct (eqb k k'); reflexivity.
    + destruct (eqb k0 k') eqn:E1; [|exact IH].
      apply eqb_spec in E1; subst k0. rewrite eqb_sym, E0. reflexivity.
Qed.

Lemma dict_set_length (k : K) (v : V) (d : Dict.t K V) :
  List.length (Dict.set eqb k v d) <= S (List.length d).
Proof.
  induction d as [|[k0 v0] r IH]; simpl; [lia|].
  destruct (eqb k0 k); simpl; lia.
Qed.

Lemma dict_set_in (k : K) (v : V) (d : Dict.t K V) (kv : K * V) :
  In kv (Dict.set eqb k v d) -> kv = (k, v) \/ In kv d.
Proof.
  induction d as [|[k0 v0] r IH]; simpl.
  - intros [H|[]]; left; symmetry; exact H.
  - destruct (eqb k0 k) eqn:E0; simpl.
    + intros [H|H]; [|right; right; exact H].
      apply eqb_spec in E0; subst k0. left; symmetry; exact H.
    + intros [H|H]; [right; left; exact H|].
      destruct (IH H) as [H'|H']; [left; exact H'|right; right; exact H'].
Qed.

Lemma dict_set_all_length (l : list (K * V)) (d : Dict.t K V) :
  List.length (Dict.set_all eqb l d) <= List.length d + List.length l.
Proof.
  revert d; induction l as [|[k v] r IH]; intros d; simpl; [lia|].
  unfold Dict.set_all in *; simpl.
  specialize (IH (Dict.set eqb k v d)).
  pose proof (dict_set_length k v d). lia.
Qed.

Lemma dict_set_all_in (l : list (K * V)) (d : Dict.t K V) (kv : K * V) :
  In kv (Dict.set_all eqb l d) -> In kv d \/ In kv l.
Proof.
  revert d; induction l as [|[k v] r IH]; intros d; simpl; [tauto|].
  unfold Dict.set_all in *; simpl. intros H.
  destruct (IH _ H) as [H'|H']; [|tauto].
  destruct (dict_set_in _ _ _ _ H') as [E|E]; [subst; tauto|tauto].
Qed.

(** After a loop of assignments a key holds the value assigned last. *)
Lemma dict_get_set_all (l : list (K * V)) (d : Dict.t K V) (k : K) :
  Dict.get eqb k (Dict.set_all eqb l d)
  = match Dict.last_with eqb k l with
    | Some v => Some v
    | None => Dict.get eqb k d
    end.
Proof.
  revert d; induction l as [|[k0 v0] r IH]; intros d; simpl; [reflexivity|].
  unfold Dict.set_all in *; simpl. rewrite IH.
  destruct (Dict.last_with eqb k r); [reflexivity|].
  rewrite dict_get_set. destruct (eqb k0 k); reflexivity.
Qed.

Lemma dict_last_with_app (k : K) (v : V) (pre post : list (K * V)) :
  (forall kv, In kv post -> eqb (fst kv) k = false) ->
  Dict.last_with eqb k (pre ++ (k, v) :: post) = Some v.
Proof.
  intros Hpost. induction pre as [|[k0 v0] r IH]; simpl.
  - assert (Dict.last_with eqb k post = None) as ->.
    { induction post as [|[k1 v1] p IHp]; simpl; [reflexivity|].
      rewrite IHp by (intros; apply Hpost; right; assumption).
      pose proof (Hpost (k1, v1) (or_introl eq_refl)) as E; simpl in E.
      rewrite E. reflexivity. }
    rewrite eqb_same. reflexivity.
  - rewrite IH. reflexivity.
Qed.

End DictFacts.

Lemma bind_ok {A B} (m : result A) (f : A -> result B) (b : B) :
  bind m f = Ok b -> exists a, m = Ok a /\ f a = Ok b.
Proof. destruct m as [a|e]; simpl; [eauto|discriminate]. Qed.

Lemma for_each_length {A B} (f : A -> result B) (l : list A) (r : list B) :
  for_each f l = Ok r -> List.length r = List.length l.
Proof.
  revert r; induction l as [|a l IH]; simpl; intros r H.
  - injection H as <-. reflexivity.
  - apply bind_ok in H as (b & _ & H). apply bind_ok in H as (bs & Hbs & H).
    injection H as <-. simpl. f_equal. apply IH. exact Hbs.
Qed.

(** ** The scalar type tables *)

Lemma tables_agree (k : string) :
  match Dict.get String.eqb k WSDLParser.type_mapping with
  | Some kind => kind
  | None => "string"
  end
  = sc_type match Dict.get String.eqb k SwaggerGenerator.type_mapping with
            | Some schema => schema
            | None => plain "string"
            end.
Proof.
  unfold WSDLParser.type_mapping, SwaggerGenerator.type_mapping.
  cbn [Dict.get].
  repeat match goal with
         | |- context [String.eqb ?a k] =>
             destruct (String.eqb a k); [reflexivity|]
         end.
  reflexivity.
Qed.

(** C9.  The parser's table and the generator's table agree on the scalar
    kind: for every input, None included, [_map_xsd_type] returns the
    [type] entry of what [_map_type_to_openapi] returns. *)
Theorem scalar_kind_single_source (t : option string) :
  WSDLParser._map_xsd_type t
  = sc_type (SwaggerGenerator._map_type_to_openapi t).
Proof.
  destruct t as [[|a r]|]; try reflexivity.
  unfold WSDLParser._map_xsd_type, SwaggerGenerator._map_type_to_openapi.
  apply tables_agree.
Qed.

Lemma lower_ascii_not_upper (a : ascii) :
  let n := nat_of_ascii (Py.lower_ascii a) in
  (Nat.leb 65 n && Nat.leb n 90)%bool = false.
Proof.
  destruct a as [[] [] [] [] [] [] [] []]; vm_compute; reflexivity.
Qed.

Lemma lower_has_no_upper (s : string) : Py.has_upper (Py.lower s) = false.
Proof.
  induction s as [|a r IH]; simpl; [reflexivity|].
  rewrite IH, Bool.orb_false_r. apply lower_ascii_not_upper.
Qed.

(** The four keys spelled with a capital are never found: the looked-up
    key is lower case.  So the formats [date-time], [byte], [binary] and
    [uri] are never returned. *)
Lemma capital_keys_unreachable (t : option string) :
  In (sc_format (SwaggerGenerator._map_type_to_openapi t))
     [ None; Some "int32"; Some "int64"; Some "double"; Some "float";
       Some "date"; Some "time" ].
Proof.
  destruct t as [[|a r]|]; try (left; reflexivity).
  unfold SwaggerGenerator._map_type_to_openapi.
  set (k := Py.lower _).
  assert (Hk : Py.has_upper k = false) by apply lower_has_no_upper.
  clearbody k.
  unfold SwaggerGenerator.type_mapping. cbn [Dict.get].
  repeat match goal with
         | |- context [String.eqb ?a k] =>
             destruct (String.eqb a k) eqn:?;
             [ first [ simpl; tauto
                     | match goal with
                       | E : String.eqb _ k = true |- _ =>
                           apply String.eqb_eq in E; subst k; discriminate Hk
                       end ] | ]
         end.
  left; reflexivity.
Qed.

(** C2.  The table lists [dateTime] with the format [date-time], and the
    mapper returns the default schema without a format for it, as it does
    for [base64Binary], [hexBinary] and [anyURI]: the key is lowered
    before the lookup and these table keys are not lower case.  No input
    at all is mapped to the format [date-time]. *)
Theorem dateTime_maps_to_default :
  Dict.get String.eqb "dateTime" SwaggerGenerator.type_mapping
  = Some (formatted "string" "date-time")
  /\ SwaggerGenerator._map_type_to_openapi (Some "xsd:dateTime")
     = plain "string"
  /\ map SwaggerGenerator._map_type_to_openapi
       [Some "dateTime"; Some "base64Binary"; Some "hexBinary"; Some "anyURI"]
     = [plain "string"; plain "string"; plain "string"; plain "string"]
  /\ forall t,
       sc_format (SwaggerGenerator._map_type_to_openapi t)
       <> Some "date-time".
Proof.
  split; [reflexivity|]. split; [reflexivity|]. split; [reflexivity|].
  intros t Heq. pose proof (capital_keys_unreachable t) as Hin.
  rewrite Heq in Hin. simpl in Hin.
  repeat (destruct Hin as [Hin|Hin]; [discriminate Hin|]).
  exact Hin.
Qed.

(** The keys spelled in lower case are found whatever the case and the
    prefix of the input. *)
Example lower_case_keys_found :
  SwaggerGenerator._map_type_to_openapi (Some "xsd:INT")
  = formatted "integer" "int32"
  /\ SwaggerGenerator._map_type_to_openapi (Some "Long")
     = formatted "integer" "int64"
  /\ SwaggerGenerator._map_type_to_openapi (Some "s:decimal") = plain "number"
  /\ SwaggerGenerator._map_type_to_openapi (Some "") = plain "string"
  /\ SwaggerGenerator._map_type_to_openapi (Some "tns:Customer")
     = plain "string".
Proof. repeat split. Qed.

(** ** The exception handlers of [parse] *)


(** ** Servers *)

Section Servers.

Variable L : Library.

Lemma first_absolute_app (l1 l2 : list (option string)) :
  Spec.first_absolute L (l1 ++ l2)
  = match Spec.first_absolute L l1 with
    | Some url => Some url
    | None => Spec.first_absolute L l2
    end.
Proof.
  induction l1 as [|l r IH]; simpl; [reflexivity|].
  destruct (Spec.absolute L l); [reflexivity|exact IH].
Qed.

(** One turn of the inner loop: a location that is looked at and does not
    make the loop return is not absolute, and one that makes it return is. *)
Lemma scan_ports_spec (ports : list Port) :
  (forall loc, In (Some loc) (map port_location ports) -> loc <> "" ->
     exists parsed, urlparse L loc = Ok parsed) ->
  SwaggerGenerator.scan_ports L ports
  = Ok (Spec.first_absolute L (map port_location ports)).
Proof.
  induction ports as [|port rest IH]; simpl; intros Hparse; [reflexivity|].
  assert (Hrest : SwaggerGenerator.scan_ports L rest
                  = Ok (Spec.first_absolute L (map port_location rest))).
  { apply IH. intros loc Hin. apply Hparse. right. exact Hin. }
  assert (Hne : forall a r, String a r <> "") by (intros; discriminate).
  unfold Py.get_present.
  destruct (port_location port) as [[|a r]|] eqn:Eloc; simpl; try exact Hrest.
  destruct (Hparse (String a r) (or_introl eq_refl) (Hne a r))
    as [[scheme netloc] Hp].
  rewrite Hp. simpl.
  destruct scheme as [|s1 s]; simpl; [exact Hrest|].
  destruct netloc as [|n1 n]; simpl; [exact Hrest|reflexivity].
Qed.

Lemma scan_services_spec (services : list Service) :
  (forall loc, In (Some loc) (Spec.locations services) -> loc <> "" ->
     exists parsed, urlparse L loc = Ok parsed) ->
  SwaggerGenerator.scan_services L services
  = Ok (Spec.first_absolute L (Spec.locations services)).
Proof.
  induction services as [|service rest IH]; simpl; intros Hparse;
    [reflexivity|].
  unfold Py.get_present.
  rewrite scan_ports_spec
    by (intros loc Hin; apply Hparse; apply in_or_app; left; exact Hin).
  simpl. rewrite first_absolute_app.
  destruct (Spec.first_absolute L (map port_location (service_ports service)));
    [reflexivity|].
  apply IH. intros loc Hin. apply Hparse. apply in_or_app. right. exact Hin.
Qed.

Lemma absolute_not_empty (l : option string) (url : string) :
  Spec.absolute L l = Some url -> Py.truthy (Some url) = true.
Proof.
  unfold Spec.absolute.
  destruct l as [[|a r]|]; try discriminate.
  destruct (urlparse L (String a r)) as [[[|s1 s] [|n1 n]]|]; try discriminate.
  intros H; injection H as <-. reflexivity.
Qed.

Lemma first_absolute_not_empty (locs : list (option string)) (url : string) :
  Spec.first_absolute L locs = Some url -> Py.truthy (Some url) = true.
Proof.
  induction locs as [|l r IH]; simpl; [discriminate|].
  destruct (Spec.absolute L l) eqn:E; [|exact IH].
  intros H; injection H as <-. eapply absolute_not_empty; exact E.
Qed.

End Servers.

(** C1, amended.  When [urlparse] raises on none of the port locations
    (the empty ones are not given to it),
    [generate] returns a document whose server list has exactly one entry:
    the scheme and the netloc of the first location, services then ports in
    declaration order, that parses with both a scheme and a netloc, and the
    placeholder [https://example.com] when there is no such location. *)
Theorem servers_from_first_absolute_location
  (L : Library) (info : ServiceInfo) :
  (forall loc, In (Some loc) (Spec.locations (info_services info)) ->
     loc <> "" -> exists parsed, urlparse L loc = Ok parsed) ->
  exists doc,
    SwaggerGenerator.generate L info = Ok doc
    /\ servers doc
       = [ {| server_url :=
                match Spec.first_absolute L
                        (Spec.locations (info_services info)) with
                | Some url => url
                | None => "https://example.com"
                end;
              server_description := "SOAP Service Endpoint" |} ].
Proof.
  intros Hparse.
  unfold SwaggerGenerator.generate, SwaggerGenerator._extract_base_url,
    Py.get_present.
  rewrite (scan_services_spec L _ Hparse). simpl.
  destruct (Spec.first_absolute L (Spec.locations (info_services info)))
    as [url|] eqn:E; simpl.
  - pose proof (first_absolute_not_empty L _ E) as Hne.
    destruct url as [|a r]; [discriminate Hne|].
    eexists; split; reflexivity.
  - eexists; split; reflexivity.
Qed.

Lemma servers_from_first_absolute_location_holds :
  exists doc,
    SwaggerGenerator.generate Samples.library
      {| info_name := "Calc";
         info_description := "Calculator";
         info_target_namespace := Some "urn:calc";
         info_operations := [];
         info_types := [];
         info_bindings := [];
         info_services :=
           [ {| service_name := Some "Calc";
                service_ports :=
                  [ {| port_name := Some "p";
                       port_binding := Some "tns:b";
                       port_location := Some "" |};
                    {| port_name := Some "q";
                       port_binding := Some "tns:b";
                       port_location := Some "http://calc.example.org/ws" |} ];
                service_documentation := None |} ] |}
    = Ok doc
    /\ servers doc
       = [ {| server_url := "http://calc.example.org";
              server_description := "SOAP Service Endpoint" |} ].
Proof.
  apply (servers_from_first_absolute_location Samples.library).
  simpl. intros loc [H|[H|[]]] _; injection H as <-; eexists;
    vm_compute; reflexivity.
Defined.

(** C1 as stated fails: a description without any port has no location
    that is an absolute URL, and the server list is not empty. *)
Lemma no_location_gives_placeholder_server :
  exists info self' doc,
    WSDLParser.parse Samples.library WSDLParser.__init__ Samples.bare_xml
    = (Ok info, self')
    /\ Spec.first_absolute Samples.library
         (Spec.locations (info_services info)) = None
    /\ SwaggerGenerator.generate Samples.library info = Ok doc
    /\ servers doc
       = [ {| server_url := "https://example.com";
              server_description := "SOAP Service Endpoint" |} ]
    /\ servers doc <> [].
Proof.
  do 3 eexists. split; [vm_compute; reflexivity|].
  split; [reflexivity|]. split; [vm_compute; reflexivity|].
  split; [reflexivity|discriminate].
Qed.

(** ** What a successful [parse] has computed *)

Lemma check_namespaces_with (tns : option string) :
  check_namespaces (namespaces_with tns)
  = if Py.truthy tns then Ok tt
    else Raise (mk_exn TypeError
                  "setting default namespace is not supported in XPath").
Proof. destruct tns as [[|a r]|]; reflexivity. Qed.

Lemma select_wsdl (tns : option string) (local : string)
  (nodes l : list element) :
  select (namespaces_with tns) "wsdl" local nodes = Ok l ->
  l = filter (has_name wsdl_uri local) nodes.
Proof.
  unfold select. rewrite check_namespaces_with.
  destruct (Py.truthy tns); simpl; [|discriminate].
  intros H; injection H as <-. reflexivity.
Qed.

Lemma select_xsd (tns : option string) (local : string)
  (nodes l : list element) :
  select (namespaces_with tns) "xsd" local nodes = Ok l ->
  l = filter (has_name xsd_uri local) nodes.
Proof.
  unfold select. rewrite check_namespaces_with.
  destruct (Py.truthy tns); simpl; [|discriminate].
  intros H; injection H as <-. reflexivity.
Qed.

(** Assigning [tns] in the table of a parser object in use. *)
Lemma set_tns (tns target_ns : option string) :
  Dict.set String.eqb "tns" target_ns (namespaces_with tns)
  = namespaces_with target_ns.
Proof. reflexivity. Qed.

(** A [parse] that returns has parsed the bytes into a tree and has run
    the extraction on it, with the table the call leaves in the object. *)
Lemma parse_ok_inv (L : Library) (tns : option string) (content : string)
  (info : ServiceInfo) (self' : WSDLParser.t) :
  WSDLParser.parse L (parser_with tns) content = (Ok info, self') ->
  exists root tns',
    fromstring L content = Ok root
    /\ self' = parser_with tns'
    /\ WSDLParser.extract L (namespaces_with tns') root
         (get "targetNamespace" root) = Ok info.
Proof.
  unfold WSDLParser.parse, WSDLParser.parse_try.
  destruct (fromstring L content) as [root|e]; [|discriminate].
  set (target_ns := get "targetNamespace" root).
  destruct (Py.truthy target_ns) eqn:Et; simpl.
  - fold (namespaces_with target_ns).
    destruct (WSDLParser.extract L (namespaces_with target_ns) root target_ns)
      as [i|e] eqn:Ex; [|discriminate].
    intros H; injection H as <- <-.
    exists root, target_ns. repeat split. exact Ex.
  - destruct (WSDLParser.extract L (namespaces_with tns) root target_ns)
      as [i|e] eqn:Ex; [|discriminate].
    intros H; injection H as <- <-.
    exists root, tns. repeat split. exact Ex.
Qed.

Lemma extract_ok_inv (L : Library) (ns : namespaces) (root : element)
  (target_ns : option string) (info : ServiceInfo) :
  WSDLParser.extract L ns root target_ns = Ok info ->
  WSDLParser._get_service_name ns root = Ok (info_name info)
  /\ WSDLParser._get_service_description ns root = Ok (info_description info)
  /\ WSDLParser._extract_operations L ns root = Ok (info_operations info)
  /\ WSDLParser._extract_types L ns root = Ok (info_types info)
  /\ WSDLParser._extract_bindings ns root = Ok (info_bindings info)
  /\ WSDLParser._extract_services L ns root = Ok (info_services info).
Proof.
  unfold WSDLParser.extract. intros H.
  apply bind_ok in H as (name & Hname & H).
  apply bind_ok in H as (description & Hdescription & H).
  apply bind_ok in H as (operations & Hoperations & H).
  apply bind_ok in H as (types & Htypes & H).
  apply bind_ok in H as (bindings & Hbindings & H).
  apply bind_ok in H as (services & Hservices & H).
  injection H as <-. simpl. repeat split; assumption.
Qed.

Lemma for_each_map {A B C} (f : A -> result B) (g : B -> C) (h : A -> C)
  (l : list A) (r : list B) :
  (forall a b, f a = Ok b -> g b = h a) ->
  for_each f l = Ok r -> map g r = map h l.
Proof.
  intros Hf. revert r; induction l as [|a l IH]; simpl; intros r H.
  - injection H as <-. reflexivity.
  - apply bind_ok in H as (b & Hb & H). apply bind_ok in H as (bs & Hbs & H).
    injection H as <-. simpl. f_equal; [apply Hf; exact Hb|apply IH; exact Hbs].
Qed.

(** The operations of the description are the operation elements of the
    port types, one for one and in the same order. *)
Lemma extract_operations_names (L : Library) (tns : option string)
  (root : element) (ops : list Operation) :
  WSDLParser._extract_operations L (namespaces_with tns) root = Ok ops ->
  map operation_name ops = map (get "name") (Spec.port_type_operations root).
Proof.
  unfold WSDLParser._extract_operations. intros H.
  apply bind_ok in H as (port_types & Hpt & H).
  apply bind_ok in H as (per_port_type & Hper & H).
  injection H as <-.
  apply select_wsdl in Hpt. subst port_types.
  unfold Spec.port_type_operations.
  rewrite concat_map, flat_map_concat_map, concat_map, map_map.
  f_equal.
  eapply for_each_map; [|exact Hper].
  intros port_type b Hb. simpl in Hb.
  apply bind_ok in Hb as (els & Hels & Hb).
  apply select_wsdl in Hels. subst els.
  eapply for_each_map; [|exact Hb].
  intros op o Ho. simpl in Ho.
  apply bind_ok in Ho as (doc & _ & Ho).
  apply bind_ok in Ho as (inp & _ & Ho).
  apply bind_ok in Ho as (out & _ & Ho).
  apply bind_ok in Ho as (faults & _ & Ho).
  injection Ho as <-. reflexivity.
Qed.

(** ** Paths *)

Lemma paths_loop_set_all (ops : list Operation) (d : Dict.t string PathItem) :
  SwaggerGenerator.paths_loop ops d
  = Dict.set_all String.eqb
      (map (fun op => ("/" ++ Py.format (operation_name op),
                       SwaggerGenerator._generate_operation_spec op)) ops)
      d.
Proof.
  unfold SwaggerGenerator.paths_loop, Dict.set_all.
  revert d; induction ops as [|op r IH]; intros d; simpl; [reflexivity|].
  apply IH.
Qed.

Lemma generate_paths (L : Library) (info : ServiceInfo) (doc : OpenApiDocument) :
  SwaggerGenerator.generate L info = Ok doc ->
  paths doc = SwaggerGenerator.paths_loop (info_operations info) [].
Proof.
  unfold SwaggerGenerator.generate. intros H.
  apply bind_ok in H as (base_url & _ & H). injection H as <-. reflexivity.
Qed.

(** The two operations named Add of the sample leave one path, and it is
    the path item of the second. *)
Example calculator_paths :
  exists info self' doc second,
    WSDLParser.parse Samples.library WSDLParser.__init__ Samples.calculator_xml
    = (Ok info, self')
    /\ SwaggerGenerator.generate Samples.library info = Ok doc
    /\ map operation_name (info_operations info) = [Some "Add"; Some "Add"]
    /\ nth_error (info_operations info) 1 = Some second
    /\ paths doc
       = [("/Add", SwaggerGenerator._generate_operation_spec second)].
Proof.
  do 4 eexists. split; [vm_compute; reflexivity|].
  split; [vm_compute; reflexivity|].
  split; [reflexivity|]. split; reflexivity.
Qed.

(** ** The service description text *)

Lemma filter_head_find {A} (p : A -> bool) (l : list A) :
  find p l = match filter p l with
             | x :: _ => Some x
             | [] => None
             end.
Proof.
  induction l as [|a l IH]; simpl; [reflexivity|].
  destruct (p a); [reflexivity|exact IH].
Qed.

(** What [_get_service_description] returns: the text of the first
    documentation element as it stands, surrounding white space included;
    a fixed sentence when that element has no text; the default when the
    document has no documentation element. *)
Lemma service_description_value (tns : option string) (root : element)
  (description : string) :
  WSDLParser._get_service_description (namespaces_with tns) root
  = Ok description ->
  description
  = match find (has_name wsdl_uri "documentation")
            (root :: descendants root) with
    | Some d =>
        match text_of d with
        | Some (String a r) => String a r
        | _ => "No description available"
        end
    | None => "SOAP Web Service converted from WSDL"
    end.
Proof.
  unfold WSDLParser._get_service_description. intros H.
  apply bind_ok in H as (docs & Hdocs & H).
  apply select_wsdl in Hdocs. rewrite filter_head_find, <- Hdocs.
  destruct docs as [|d rest].
  - injection H as <-. reflexivity.
  - destruct (text_of d) as [[|a r]|]; injection H as <-; reflexivity.
Qed.

(** C4, amended.  After a successful [parse] the description is: the text
    of the first documentation element of the document, when that text is
    not empty and has no surrounding white space; the sentence
    [No description available] when the first documentation element has
    no text; the default when the document has no documentation element. *)
Theorem description_from_first_documentation
  (L : Library) (tns : option string) (content : string)
  (info : ServiceInfo) (self' : WSDLParser.t) :
  WSDLParser.parse L (parser_with tns) content = (Ok info, self') ->
  exists root,
    fromstring L content = Ok root
    /\ match find (has_name wsdl_uri "documentation")
               (root :: descendants root) with
       | Some d =>
           match text_of d with
           | Some (String a r) =>
               strip L (String a r) = String a r ->
               info_description info = String a r
           | _ => info_description info = "No description available"
           end
       | None =>
           info_description info = "SOAP Web Service converted from WSDL"
       end.
Proof.
  intros Hparse.
  apply parse_ok_inv in Hparse as (root & tns' & Hroot & _ & Hex).
  apply extract_ok_inv in Hex as (_ & Hdesc & _).
  apply service_description_value in Hdesc.
  exists root. split; [exact Hroot|].
  destruct (find (has_name wsdl_uri "documentation") (root :: descendants root))
    as [d|]; [|exact Hdesc].
  destruct (text_of d) as [[|a r]|]; try exact Hdesc.
  intros _. exact Hdesc.
Qed.

Lemma description_from_first_documentation_holds :
  exists info self',
    WSDLParser.parse Samples.library WSDLParser.__init__ Samples.calculator_xml
    = (Ok info, self')
    /\ info_description info = "Calculator".
Proof.
  do 2 eexists. split; [vm_compute; reflexivity|].
  destruct (description_from_first_documentation Samples.library None
              Samples.calculator_xml
              (info := match fst (WSDLParser.parse Samples.library
                                    WSDLParser.__init__
                                    Samples.calculator_xml) with
                       | Ok i => i
                       | Raise _ =>
                           Build_ServiceInfo "" "" None [] [] [] []
                       end)
              (self' := snd (WSDLParser.parse Samples.library
                               WSDLParser.__init__ Samples.calculator_xml))
              ltac:(vm_compute; reflexivity))
    as (root & Hroot & Hdesc).
  vm_compute in Hroot. injection Hroot as <-.
  apply Hdesc. vm_compute. reflexivity.
Defined.

(** C4 as stated fails: the first documentation element of the sample is
    empty, its trimmed text is the empty string, and the description is a
    sentence of the parser's own. *)
Lemma empty_documentation_is_not_its_text :
  exists info self',
    WSDLParser.parse Samples.library WSDLParser.__init__ Samples.bare_xml
    = (Ok info, self')
    /\ Spec.description Samples.library Samples.bare_service = ""
    /\ info_description info = "No description available"
    /\ info_description info
       <> Spec.description Samples.library Samples.bare_service.
Proof.
  do 2 eexists. split; [vm_compute; reflexivity|].
  split; [reflexivity|]. split; [reflexivity|]. discriminate.
Qed.

(** A text with surrounding white space is returned as it stands, while
    the documentation of an operation is stripped. *)
Example padded_documentation_kept :
  let padded :=
    Element (Samples.wsdl "definitions") [] None
      [ Element (Samples.wsdl "documentation") [] (Some "  Padded  ") [] ] in
  WSDLParser._get_service_description (namespaces_with (Some "urn:p")) padded
  = Ok "  Padded  "
  /\ WSDLParser._get_element_documentation Samples.library
       (namespaces_with (Some "urn:p")) padded
     = Ok (Some "Padded")
  /\ Spec.description Samples.library padded = "Padded".
Proof. repeat split. Qed.

(** ** The type catalog *)

Lemma set_all_app {V} (l1 l2 : list (string * V)) (d : Dict.t string V) :
  Dict.set_all String.eqb (l1 ++ l2) d
  = Dict.set_all String.eqb l2 (Dict.set_all String.eqb l1 d).
Proof. unfold Dict.set_all. apply fold_left_app. Qed.

(** One loop of [_extract_types] stores the named definitions of its
    group, in order. *)
Lemma store_named_loop (ns : namespaces) (p : element -> result TypeDef)
  (l : list element) (types types' : Dict.t string TypeDef) :
  fold_result (WSDLParser.store_named p) l types = Ok types' ->
  exists defs,
    named_definitions p l = Ok defs
    /\ types' = Dict.set_all String.eqb defs types.
Proof.
  revert types; induction l as [|e l IH]; simpl; intros types H.
  - injection H as <-. exists []. split; reflexivity.
  - apply bind_ok in H as (types1 & H1 & H).
    unfold WSDLParser.store_named in H1.
    destruct (get "name" e) as [[|a r]|].
    + injection H1 as <-. apply IH. exact H.
    + apply bind_ok in H1 as (d & Hd & H1). injection H1 as <-.
      destruct (IH _ H) as (defs & Hdefs & ->).
      exists ((String a r, d) :: defs). rewrite Hd, Hdefs. split; reflexivity.
    + injection H1 as <-. apply IH. exact H.
Qed.

Lemma schema_loops (L : Library) (ns : namespaces) (schema : element)
  (types types' : Dict.t string TypeDef) :
  (complex_types <- xpath_under ns schema "xsd" "complexType" ;;
   types <- fold_result
              (WSDLParser.store_named (WSDLParser._parse_complex_type L ns))
              complex_types types ;;
   simple_types <- xpath_under ns schema "xsd" "simpleType" ;;
   types <- fold_result
              (WSDLParser.store_named (WSDLParser._parse_simple_type ns))
              simple_types types ;;
   elements <- xpath_under ns schema "xsd" "element" ;;
   fold_result
     (WSDLParser.store_named (fun e => Ok (WSDLParser._parse_element e)))
     elements types) = Ok types' ->
  exists defs,
    schema_definitions L ns schema = Ok defs
    /\ types' = Dict.set_all String.eqb defs types.
Proof.
  intros H. unfold schema_definitions.
  apply bind_ok in H as (complex_types & Ec & H).
  apply bind_ok in H as (types1 & H1 & H).
  apply (store_named_loop ns) in H1 as (cs & Hcs & ->).
  apply bind_ok in H as (simple_types & Es & H).
  apply bind_ok in H as (types2 & H2 & H).
  apply (store_named_loop ns) in H2 as (ss & Hss & ->).
  apply bind_ok in H as (elements & Ee & H).
  apply (store_named_loop ns) in H as (es & Hes & ->).
  rewrite Ec; simpl. rewrite Hcs; simpl. rewrite Es; simpl.
  rewrite Hss; simpl. rewrite Ee; simpl. rewrite Hes; simpl.
  exists (cs ++ ss ++ es)%list. split; [reflexivity|].
  rewrite !set_all_app. reflexivity.
Qed.

(** C8, amended.  The catalog holds, under each name, the definition that
    [_extract_types] meets last, and it meets them schema by schema in
    document order and, inside a schema, all complex types first, then all
    simple types, then all elements, each group in document order. *)
Theorem catalog_last_wins_in_traversal_order
  (L : Library) (ns : namespaces) (root : element)
  (catalog : Dict.t string TypeDef) :
  WSDLParser._extract_types L ns root = Ok catalog ->
  exists defs,
    traversal_definitions L ns root = Ok defs
    /\ forall name,
         Dict.get String.eqb name catalog
         = Dict.last_with String.eqb name defs.
Proof.
  unfold WSDLParser._extract_types, traversal_definitions. intros H.
  apply bind_ok in H as (schemas & Hschemas & H). rewrite Hschemas; simpl.
  assert (Hloop : forall types types',
             fold_result
               (fun types schema =>
                  complex_types <- xpath_under ns schema "xsd" "complexType" ;;
                  types <- fold_result
                             (WSDLParser.store_named
                                (WSDLParser._parse_complex_type L ns))
                             complex_types types ;;
                  simple_types <- xpath_under ns schema "xsd" "simpleType" ;;
                  types <- fold_result
                             (WSDLParser.store_named
                                (WSDLParser._parse_simple_type ns))
                             simple_types types ;;
                  elements <- xpath_under ns schema "xsd" "element" ;;
                  fold_result
                    (WSDLParser.store_named
                       (fun e => Ok (WSDLParser._parse_element e)))
                    elements types)
               schemas types = Ok types' ->
             exists per,
               for_each (schema_definitions L ns) schemas = Ok per
               /\ types' = Dict.set_all String.eqb (List.concat per) types).
  { clear H Hschemas. induction schemas as [|schema rest IH]; simpl; intros types types' H.
    - injection H as <-. exists []. split; reflexivity.
    - apply bind_ok in H as (types1 & H1 & H).
      apply schema_loops in H1 as (defs & Hdefs & ->).
      apply IH in H as (per & Hper & ->).
      rewrite Hdefs; simpl. rewrite Hper; simpl.
      exists (defs :: per). split; [reflexivity|].
      simpl. rewrite set_all_app. reflexivity. }
  apply Hloop in H as (per & Hper & ->). rewrite Hper; simpl.
  eexists. split; [reflexivity|].
  intros name.
  rewrite (@dict_get_set_all _ String.eqb _ String.eqb_eq).
  destruct (Dict.last_with String.eqb name (List.concat per)); reflexivity.
Qed.

Lemma catalog_last_wins_in_traversal_order_holds :
  exists defs,
    traversal_definitions Samples.library (namespaces_with (Some "urn:c"))
      Samples.collision = Ok defs
    /\ forall name,
         Dict.get String.eqb name [("X", ElementDef "integer" "xsd:int")]
         = Dict.last_with String.eqb name defs.
Proof.
  apply (catalog_last_wins_in_traversal_order Samples.library
           (namespaces_with (Some "urn:c")) Samples.collision).
  vm_compute. reflexivity.
Defined.

(** C8 as stated fails: in the sample the simple type X comes after the
    element X in the document, and the catalog holds the element. *)
Lemma catalog_not_last_in_document_order :
  exists catalog defs,
    WSDLParser._extract_types Samples.library
      (namespaces_with (Some "urn:c")) Samples.collision = Ok catalog
    /\ Spec.document_order_definitions Samples.library
         (namespaces_with (Some "urn:c")) Samples.collision = Ok defs
    /\ Dict.last_with String.eqb "X" defs
       = Some (SimpleDef "boolean" "xsd:boolean")
    /\ Dict.get String.eqb "X" catalog
       = Some (ElementDef "integer" "xsd:int")
    /\ Dict.get String.eqb "X" catalog <> Dict.last_with String.eqb "X" defs.
Proof.
  do 2 eexists. split; [vm_compute; reflexivity|].
  split; [vm_compute; reflexivity|].
  split; [reflexivity|]. split; [reflexivity|]. discriminate.
Qed.

(** ** Message references *)

Lemma filter_nil_existsb {A} (p : A -> bool) (l : list A) :
  existsb p l = false -> filter p l = [].
Proof.
  induction l as [|a l IH]; simpl; [reflexivity|].
  destruct (p a); simpl; [discriminate|exact IH].
Qed.

Lemma select_wsdl_ok (tns : option string) (local : string)
  (nodes : list element) :
  Py.truthy tns = true ->
  select (namespaces_with tns) "wsdl" local nodes
  = Ok (filter (has_name wsdl_uri local) nodes).
Proof.
  intros Ht. unfold select. rewrite check_namespaces_with, Ht. reflexivity.
Qed.

(** X20.  A reference without a double quote in its name that no message
    of the document answers, like a missing reference, resolves to None. *)
Lemma unresolved_reference_is_None (L : Library) (tns : option string)
  (root operation : element) (msg_type : string) :
  Py.truthy tns = true ->
  match Spec.referenced_message operation msg_type with
  | Some msg_name =>
      count_dquote msg_name = 0 /\ Spec.message_defined root msg_name = false
  | None => True
  end ->
  WSDLParser._extract_message_info L (namespaces_with tns) root operation
    msg_type = Ok None.
Proof.
  intros Ht. unfold Spec.referenced_message, WSDLParser._extract_message_info,
    xpath_under.
  rewrite (@select_wsdl_ok tns _ _ Ht). simpl.
  destruct (filter (has_name wsdl_uri msg_type) (descendants operation))
    as [|e rest]; [reflexivity|].
  destruct (get "message" e) as [[|a r]|]; try reflexivity.
  intros [Hq Hdef]. unfold xpath_message_named. rewrite Hq.
  unfold xpath_all. rewrite (@select_wsdl_ok tns _ _ Ht). cbn [bind].
  unfold Spec.message_defined in Hdef.
  rewrite (@filter_nil_existsb _ _ _ Hdef). reflexivity.
Qed.

(** X21.  A reference with exactly one double quote in its name makes the
    lookup raise. *)
Lemma one_quote_reference_raises (L : Library) (tns : option string)
  (root operation : element) (msg_type msg_name : string) :
  Py.truthy tns = true ->
  Spec.referenced_message operation msg_type = Some msg_name ->
  count_dquote msg_name = 1 ->
  WSDLParser._extract_message_info L (namespaces_with tns) root operation
    msg_type
  = Raise (mk_exn XPathEvalError (xpath_syntax_message L msg_name)).
Proof.
  intros Ht. unfold Spec.referenced_message, WSDLParser._extract_message_info,
    xpath_under.
  rewrite (@select_wsdl_ok tns _ _ Ht). simpl.
  destruct (filter (has_name wsdl_uri msg_type) (descendants operation))
    as [|e rest]; [discriminate|].
  destruct (get "message" e) as [[|a r]|]; try discriminate.
  intros Hname Hq. injection Hname as Hname. rewrite Hname.
  unfold xpath_message_named.
  rewrite Hq, check_namespaces_with, Ht. reflexivity.
Qed.

(** C5.  The sample has an input that refers to a message whose name holds
    one double quote; no message has that name, and [parse] raises. *)
Theorem quoted_reference_aborts_parse :
  Spec.referenced_message
    (Element (Samples.wsdl "operation") [("name", "Op")] None
       [ Element (Samples.wsdl "input")
           [("message", "tns:a" ++ Py.dquote ++ "b")] None [] ])
    "input"
  = Some ("a" ++ Py.dquote ++ "b")
  /\ Spec.message_defined Samples.quoted_reference ("a" ++ Py.dquote ++ "b")
     = false
  /\ fst (WSDLParser.parse Samples.library WSDLParser.__init__
            Samples.quoted_reference_xml)
     = Raise (mk_exn ValueError "Failed to parse WSDL: Invalid predicate").
Proof. repeat split. Qed.

(** ** Message schemas *)

Lemma input_loop_required (parts : list Part)
  (properties : Dict.t (option string) ScalarSchema)
  (required : list (option string)) :
  snd (SwaggerGenerator.input_loop parts properties required)
  = (required ++ map part_name parts)%list.
Proof.
  revert properties required; induction parts as [|part rest IH];
    intros properties required; simpl.
  - rewrite app_nil_r. reflexivity.
  - rewrite IH, <- app_assoc. reflexivity.
Qed.

(** Every part of an input message with parts is listed as required,
    under the name stored for it. *)
Lemma input_schema_required (msg : Message) :
  message_parts msg <> [] ->
  exists properties,
    SwaggerGenerator._generate_input_schema (Some msg)
    = ObjectSchema properties (Some (map part_name (message_parts msg))).
Proof.
  unfold SwaggerGenerator._generate_input_schema.
  destruct (message_parts msg) as [|part rest] eqn:E; [contradiction|].
  intros _.
  pose proof (input_loop_required (part :: rest) [] []) as Hreq.
  destruct (SwaggerGenerator.input_loop (part :: rest) [] [])
    as [properties required].
  simpl in Hreq. subst required. exists properties. reflexivity.
Qed.

(** No output schema carries a list of required names. *)
Lemma output_schema_not_required (msg : option Message) :
  SwaggerGenerator._generate_output_schema msg = GenericObject
  \/ exists properties,
       SwaggerGenerator._generate_output_schema msg
       = ObjectSchema properties None.
Proof.
  destruct msg as [msg|]; [|left; reflexivity].
  unfold SwaggerGenerator._generate_output_schema.
  destruct (message_parts msg); [left; reflexivity|].
  right. eexists. reflexivity.
Qed.

(** C6.  The second part of the input message of the sample has no name
    attribute.  Its property is keyed by None, and None is what the list
    of required names holds for it: neither is [parameter]. *)
Theorem nameless_part_keyed_None :
  exists info self' doc item,
    WSDLParser.parse Samples.library WSDLParser.__init__ Samples.calculator_xml
    = (Ok info, self')
    /\ SwaggerGenerator.generate Samples.library info = Ok doc
    /\ Dict.get String.eqb "/Add" (paths doc) = Some item
    /\ request_json_schema (post_requestBody (post item))
       = Some (ObjectSchema
                 [ (Some "a", formatted "integer" "int32");
                   (None, formatted "integer" "int32") ]
                 (Some [Some "a"; None])).
Proof.
  do 4 eexists. split; [vm_compute; reflexivity|].
  split; [vm_compute; reflexivity|]. split; reflexivity.
Qed.

(** A part dict without the key [name] does not occur: the parser stores
    the key for every part, with None for a missing attribute. *)
Example nameless_output_part :
  SwaggerGenerator._generate_output_schema
    (Some {| message_name := Some "R";
             message_parts :=
               [ {| part_name := None;
                    part_element := Some "tns:Body";
                    part_type := None |} ] |})
  = ObjectSchema [(None, plain "string")] None.
Proof. reflexivity. Qed.

(** ** The prefix table across calls *)

(** X22.  A parser object that has not yet met a target namespace raises
    on a document without one: the first query finds [tns] bound to
    None. *)
Lemma fresh_parser_needs_target_namespace
  (L : Library) (content : string) (root : element) :
  fromstring L content = Ok root ->
  Py.truthy (get "targetNamespace" root) = false ->
  fst (WSDLParser.parse L WSDLParser.__init__ content)
  = Raise (mk_exn ValueError
             ("Failed to parse WSDL: "
              ++ "setting default namespace is not supported in XPath")).
Proof.
  intros Hroot Ht.
  unfold WSDLParser.parse, WSDLParser.parse_try. rewrite Hroot, Ht.
  reflexivity.
Qed.

(** A parser object keeps the target namespace of the last document that
    had one. *)
Lemma parse_keeps_target_namespace
  (L : Library) (tns : option string) (content : string) (root : element) :
  fromstring L content = Ok root ->
  snd (WSDLParser.parse L (parser_with tns) content)
  = parser_with (if Py.truthy (get "targetNamespace" root)
                 then get "targetNamespace" root else tns).
Proof.
  intros Hroot.
  unfold WSDLParser.parse, WSDLParser.parse_try. rewrite Hroot.
  destruct (Py.truthy (get "targetNamespace" root)); simpl.
  - fold (namespaces_with (get "targetNamespace" root)).
    destruct (WSDLParser.extract _ _ _ _); reflexivity.
  - destruct (WSDLParser.extract _ _ _ _); reflexivity.
Qed.

(** C7.  The same document, parsed by a new parser object and by one that
    has parsed the calculator sample before, gives a ValueError in the
    first case and a service description in the second. *)
Theorem parse_depends_on_earlier_calls :
  let fresh := WSDLParser.__init__ in
  let used :=
    snd (WSDLParser.parse Samples.library fresh Samples.calculator_xml) in
  fst (WSDLParser.parse Samples.library fresh Samples.plain_xml)
  = Raise (mk_exn ValueError
             ("Failed to parse WSDL: "
              ++ "setting default namespace is not supported in XPath"))
  /\ used = parser_with (Some "urn:calc")
  /\ (exists info,
        fst (WSDLParser.parse Samples.library used Samples.plain_xml)
        = Ok info)
  /\ fst (WSDLParser.parse Samples.library fresh Samples.plain_xml)
     <> fst (WSDLParser.parse Samples.library used Samples.plain_xml).
Proof.
  split; [reflexivity|]. split; [reflexivity|].
  split; [eexists; vm_compute; reflexivity|].
  vm_compute. discriminate.
Qed.

(** * Further properties *)

(** ** The scalar type mappers: case and prefix *)

Lemma lower_ascii_colon (a : ascii) :
  Ascii.eqb (Py.lower_ascii a) ":" = Ascii.eqb a ":".
Proof. destruct a as [[] [] [] [] [] [] [] []]; reflexivity. Qed.

Lemma lower_ascii_idem (a : ascii) :
  Py.lower_ascii (Py.lower_ascii a) = Py.lower_ascii a.
Proof. destruct a as [[] [] [] [] [] [] [] []]; reflexivity. Qed.

Lemma lower_idem (s : string) : Py.lower (Py.lower s) = Py.lower s.
Proof.
  induction s as [|a r IH]; simpl; [reflexivity|].
  rewrite lower_ascii_idem, IH. reflexivity.
Qed.

Lemma contains_colon_lower (s : string) :
  Py.contains ":" (Py.lower s) = Py.contains ":" s.
Proof.
  induction s as [|a r IH]; simpl; [reflexivity|].
  rewrite lower_ascii_colon, IH. reflexivity.
Qed.

Lemma split_lower (s : string) :
  Py.split ":" (Py.lower s) = map Py.lower (Py.split ":" s).
Proof.
  induction s as [|a r IH]; simpl; [reflexivity|].
  rewrite lower_ascii_colon, IH.
  destruct (Ascii.eqb a ":"); [reflexivity|].
  destruct (Py.split ":" r); reflexivity.
Qed.

(** The name that is looked up: the second segment of a name with a
    colon, the whole name otherwise. *)
Lemma lower_local_name (s : string) :
  Py.lower (if Py.contains ":" s then Py.split_colon_1 s else s)
  = if Py.contains ":" (Py.lower s) then Py.split_colon_1 (Py.lower s)
    else Py.lower s.
Proof.
  rewrite contains_colon_lower.
  destruct (Py.contains ":" s); [|reflexivity].
  unfold Py.split_colon_1. rewrite split_lower.
  change EmptyString with (Py.lower EmptyString) at 2.
  rewrite map_nth. reflexivity.
Qed.

Lemma map_type_lowered (s : string) :
  SwaggerGenerator._map_type_to_openapi (Some (Py.lower s))
  = SwaggerGenerator._map_type_to_openapi (Some s).
Proof.
  destruct s as [|a r]; [reflexivity|].
  unfold SwaggerGenerator._map_type_to_openapi.
  change (Py.lower (String a r)) with (String (Py.lower_ascii a) (Py.lower r)).
  change (String (Py.lower_ascii a) (Py.lower r)) with (Py.lower (String a r)).
  cbv zeta.
  rewrite (lower_local_name (Py.lower (String a r))).
  rewrite (lower_local_name (String a r)), lower_idem.
  reflexivity.
Qed.

Lemma map_xsd_lowered (s : string) :
  WSDLParser._map_xsd_type (Some (Py.lower s))
  = WSDLParser._map_xsd_type (Some s).
Proof.
  destruct s as [|a r]; [reflexivity|].
  unfold WSDLParser._map_xsd_type.
  change (Py.lower (String a r)) with (String (Py.lower_ascii a) (Py.lower r)).
  change (String (Py.lower_ascii a) (Py.lower r)) with (Py.lower (String a r)).
  cbv zeta.
  rewrite (lower_local_name (Py.lower (String a r))).
  rewrite (lower_local_name (String a r)), lower_idem.
  reflexivity.
Qed.

(** X1.  Both mappers ignore the case of ASCII letters: two type names
    with the same lower-case form are mapped alike. *)
Theorem mappers_ignore_case (s1 s2 : string) :
  Py.lower s1 = Py.lower s2 ->
  SwaggerGenerator._map_type_to_openapi (Some s1)
  = SwaggerGenerator._map_type_to_openapi (Some s2)
  /\ WSDLParser._map_xsd_type (Some s1) = WSDLParser._map_xsd_type (Some s2).
Proof.
  intros H. split.
  - rewrite <- (map_type_lowered s1), <- (map_type_lowered s2), H.
    reflexivity.
  - rewrite <- (map_xsd_lowered s1), <- (map_xsd_lowered s2), H. reflexivity.
Qed.

Lemma mappers_ignore_case_holds :
  SwaggerGenerator._map_type_to_openapi (Some "xsd:LONG")
  = SwaggerGenerator._map_type_to_openapi (Some "XSD:Long")
  /\ WSDLParser._map_xsd_type (Some "xsd:LONG")
     = WSDLParser._map_xsd_type (Some "XSD:Long").
Proof. apply mappers_ignore_case. reflexivity. Defined.

Lemma split_after_prefix (p x : string) :
  Py.contains ":" p = false ->
  Py.split ":" (p ++ String ":" x) = p :: Py.split ":" x.
Proof.
  induction p as [|a r IH]; simpl; intros H; [reflexivity|].
  apply Bool.orb_false_elim in H as [Ha Hr].
  rewrite Ha, (IH Hr). reflexivity.
Qed.

Lemma split_colon_free (n : string) :
  Py.contains ":" n = false -> Py.split ":" n = [n].
Proof.
  induction n as [|a r IH]; simpl; intros H; [reflexivity|].
  apply Bool.orb_false_elim in H as [Ha Hr].
  rewrite Ha, (IH Hr). reflexivity.
Qed.

Lemma contains_after_prefix (p x : string) :
  Py.contains ":" (p ++ String ":" x) = true.
Proof.
  induction p as [|a r IH]; simpl; [reflexivity|].
  rewrite IH. apply Bool.orb_true_r.
Qed.

Lemma map_type_by_local (s n : string) :
  s <> "" ->
  (if Py.contains ":" s then Py.split_colon_1 s else s) = n ->
  Py.contains ":" n = false ->
  SwaggerGenerator._map_type_to_openapi (Some s)
  = SwaggerGenerator._map_type_to_openapi (Some n)
  /\ WSDLParser._map_xsd_type (Some s) = WSDLParser._map_xsd_type (Some n).
Proof.
  intros Hs Hlocal Hn.
  unfold SwaggerGenerator._map_type_to_openapi, WSDLParser._map_xsd_type.
  destruct s as [|a r]; [contradiction|]. cbv zeta. rewrite Hlocal.
  destruct n as [|b t]; [split; reflexivity|].
  rewrite Hn. split; reflexivity.
Qed.

(** X2.  Of a name with a colon both mappers read the segment between the
    first and the second colon and nothing else: a prefix, and whatever
    follows a second colon, do not change the result. *)
Theorem mappers_read_second_segment (p n rest : string) :
  Py.contains ":" p = false ->
  Py.contains ":" n = false ->
  (SwaggerGenerator._map_type_to_openapi (Some (p ++ ":" ++ n))
   = SwaggerGenerator._map_type_to_openapi (Some n)
   /\ WSDLParser._map_xsd_type (Some (p ++ ":" ++ n))
      = WSDLParser._map_xsd_type (Some n))
  /\ (SwaggerGenerator._map_type_to_openapi (Some (p ++ ":" ++ n ++ ":" ++ rest))
      = SwaggerGenerator._map_type_to_openapi (Some n)
      /\ WSDLParser._map_xsd_type (Some (p ++ ":" ++ n ++ ":" ++ rest))
         = WSDLParser._map_xsd_type (Some n)).
Proof.
  intros Hp Hn. simpl. split.
  - apply map_type_by_local; [destruct p; discriminate| |exact Hn].
    rewrite contains_after_prefix. unfold Py.split_colon_1.
    rewrite (@split_after_prefix p _ Hp), (@split_colon_free n Hn). reflexivity.
  - apply map_type_by_local; [destruct p; discriminate| |exact Hn].
    rewrite contains_after_prefix. unfold Py.split_colon_1.
    rewrite (@split_after_prefix p _ Hp), (@split_after_prefix n _ Hn).
    reflexivity.
Qed.

Lemma mappers_read_second_segment_holds :
  (SwaggerGenerator._map_type_to_openapi (Some "xsd:int")
   = SwaggerGenerator._map_type_to_openapi (Some "int")
   /\ WSDLParser._map_xsd_type (Some "xsd:int")
      = WSDLParser._map_xsd_type (Some "int"))
  /\ (SwaggerGenerator._map_type_to_openapi (Some "xsd:int:string")
      = SwaggerGenerator._map_type_to_openapi (Some "int")
      /\ WSDLParser._map_xsd_type (Some "xsd:int:string")
         = WSDLParser._map_xsd_type (Some "int")).
Proof.
  apply (mappers_read_second_segment "xsd" "int" "string"); reflexivity.
Defined.

(** ** The prefix table of a parser object *)

(** X3.  What a call of [parse] leaves in the parser object: the target
    namespace of the document when the bytes parse and the root has a
    non-empty one, and the table as it was otherwise, also when the call
    raises. *)
Theorem parse_leaves_namespaces
  (L : Library) (tns : option string) (content : string) :
  snd (WSDLParser.parse L (parser_with tns) content)
  = match fromstring L content with
    | Ok root =>
        parser_with (if Py.truthy (get "targetNamespace" root)
                     then get "targetNamespace" root else tns)
    | Raise _ => parser_with tns
    end.
Proof.
  unfold WSDLParser.parse, WSDLParser.parse_try.
  destruct (fromstring L content) as [root|e]; [|reflexivity].
  destruct (Py.truthy (get "targetNamespace" root)); simpl.
  - fold (namespaces_with (get "targetNamespace" root)).
    destruct (WSDLParser.extract _ _ _ _); reflexivity.
  - destruct (WSDLParser.extract _ _ _ _); reflexivity.
Qed.

Lemma select_ok_truthy (ns : namespaces) (prefix local : string)
  (nodes l : list element) :
  select ns prefix local nodes = Ok l -> check_namespaces ns = Ok tt.
Proof.
  unfold select. destruct (check_namespaces ns) as [[]|e]; simpl;
    [reflexivity|discriminate].
Qed.

(** X4.  A call of [parse] that returns leaves the prefix [tns] bound to a
    non-empty namespace: to the target namespace of the document when it
    has a non-empty one. *)
Theorem successful_parse_binds_tns
  (L : Library) (tns : option string) (content : string)
  (info : ServiceInfo) (self' : WSDLParser.t) :
  WSDLParser.parse L (parser_with tns) content = (Ok info, self') ->
  exists t,
    self' = parser_with (Some t)
    /\ t <> ""
    /\ (Py.truthy (info_target_namespace info) = true ->
        info_target_namespace info = Some t).
Proof.
  intros Hparse.
  assert (Hsnd : snd (WSDLParser.parse L (parser_with tns) content) = self')
    by (rewrite Hparse; reflexivity).
  apply parse_ok_inv in Hparse as (root & tns' & Hroot & Hself & Hex).
  pose proof (@parse_keeps_target_namespace L tns content root Hroot)
    as Hstate.
  rewrite Hsnd in Hstate.
  assert (Htarget : info_target_namespace info = get "targetNamespace" root).
  { unfold WSDLParser.extract in Hex.
    repeat (apply bind_ok in Hex as (? & _ & Hex)).
    injection Hex as <-. reflexivity. }
  apply extract_ok_inv in Hex as (Hname & _).
  unfold WSDLParser._get_service_name in Hname.
  apply bind_ok in Hname as (services & Hsel & _).
  apply select_ok_truthy in Hsel. rewrite check_namespaces_with in Hsel.
  destruct tns' as [[|a r]|]; try discriminate Hsel.
  exists (String a r). split; [exact Hself|]. split; [discriminate|].
  rewrite Htarget. intros Ht. rewrite Ht in Hstate.
  rewrite Hself in Hstate. injection Hstate as Hstate. symmetry. exact Hstate.
Qed.

Lemma successful_parse_binds_tns_holds :
  exists t,
    snd (WSDLParser.parse Samples.library WSDLParser.__init__
           Samples.calculator_xml) = parser_with (Some t)
    /\ t <> "".
Proof.
  destruct (successful_parse_binds_tns Samples.library None
              Samples.calculator_xml
              (info := match fst (WSDLParser.parse Samples.library
                                    WSDLParser.__init__
                                    Samples.calculator_xml) with
                       | Ok i => i
                       | Raise _ => Build_ServiceInfo "" "" None [] [] [] []
                       end)
              (self' := snd (WSDLParser.parse Samples.library
                               WSDLParser.__init__ Samples.calculator_xml))
              ltac:(vm_compute; reflexivity))
    as (t & Hself & Hne & _).
  exists t. split; assumption.
Defined.

Lemma fresh_parser_needs_target_namespace_holds :
  fst (WSDLParser.parse Samples.library WSDLParser.__init__ Samples.plain_xml)
  = Raise (mk_exn ValueError
             ("Failed to parse WSDL: "
              ++ "setting default namespace is not supported in XPath")).
Proof.
  apply (fresh_parser_needs_target_namespace Samples.library
           Samples.plain_xml (root := Samples.plain_service));
    reflexivity.
Defined.

(** ** When [parse] returns *)

Lemma select_with_inv (tns : option string) (prefix uri local : string)
  (nodes l : list element) :
  Dict.get String.eqb prefix (namespaces_with tns) = Some (Some uri) ->
  select (namespaces_with tns) prefix local nodes = Ok l ->
  l = filter (has_name uri local) nodes.
Proof.
  intros Hget. unfold select. rewrite check_namespaces_with, Hget.
  destruct (Py.truthy tns); simpl; [|discriminate].
  intros H; injection H as <-. reflexivity.
Qed.

(** Induction on a tree, with the property at hand for all children. *)
Lemma element_tree_ind (P : element -> Prop) :
  (forall tag attrib text children,
     Forall P children -> P (Element tag attrib text children)) ->
  forall e, P e.
Proof.
  intros Hstep. fix IH 1. intros [tag attrib text children].
  apply Hstep. induction children as [|c cs IHcs]; constructor;
    [apply IH|exact IHcs].
Qed.

Lemma descendants_trans (a b c : element) :
  In a (descendants b) -> In b (descendants c) -> In a (descendants c).
Proof.
  revert a b. induction c as [tag attrib text children IH]
    using element_tree_ind.
  intros a b Hab Hbc. simpl in *.
  apply in_flat_map in Hbc as (x & Hx & Hbx). apply in_flat_map.
  exists x. split; [exact Hx|]. right.
  destruct Hbx as [->|Hbx]; [exact Hab|].
  rewrite Forall_forall in IH. apply (IH x Hx a b Hab Hbx).
Qed.

Lemma returns_ok {A} (a : A) : returns (Ok a).
Proof. exists a. reflexivity. Qed.

Lemma returns_bind {A B} (m : result A) (f : A -> result B) :
  returns m -> (forall a, m = Ok a -> returns (f a)) -> returns (bind m f).
Proof.
  intros [a Ha] Hf. rewrite Ha. simpl. apply Hf. exact Ha.
Qed.

Lemma for_each_returns {A B} (f : A -> result B) (l : list A) :
  (forall a, In a l -> returns (f a)) -> returns (for_each f l).
Proof.
  induction l as [|a l IH]; simpl; intros Hf; [apply returns_ok|].
  apply returns_bind; [apply Hf; left; reflexivity|]. intros b _.
  apply returns_bind; [apply IH; intros; apply Hf; right; assumption|].
  intros bs _. apply returns_ok.
Qed.

Lemma fold_result_returns {A S} (f : S -> A -> result S) (l : list A) (s : S) :
  (forall s' a, In a l -> returns (f s' a)) -> returns (fold_result f l s).
Proof.
  revert s; induction l as [|a l IH]; simpl; intros s Hf; [apply returns_ok|].
  apply returns_bind; [apply Hf; left; reflexivity|]. intros s' _.
  apply IH. intros; apply Hf; right; assumption.
Qed.

Section Returning.

Variable L : Library.
Variable tns : option string.
Hypothesis tns_bound : Py.truthy tns = true.

Lemma select_bound (prefix uri local : string) (nodes : list element) :
  Dict.get String.eqb prefix (namespaces_with tns) = Some (Some uri) ->
  select (namespaces_with tns) prefix local nodes
  = Ok (filter (has_name uri local) nodes).
Proof.
  intros Hget. unfold select.
  rewrite check_namespaces_with, tns_bound, Hget. reflexivity.
Qed.

Lemma select_returns (prefix local : string) (nodes : list element) :
  In prefix ["wsdl"; "soap"; "soap12"; "xsd"] ->
  returns (select (namespaces_with tns) prefix local nodes).
Proof.
  intros [<-|[<-|[<-|[<-|[]]]]];
    erewrite select_bound by reflexivity; apply returns_ok.
Qed.

Ltac known_prefix := simpl; tauto.

Lemma element_documentation_returns (e : element) :
  returns (WSDLParser._get_element_documentation L (namespaces_with tns) e).
Proof.
  unfold WSDLParser._get_element_documentation, xpath_under.
  apply returns_bind; [apply select_returns; known_prefix|].
  intros [|d rest] _; [apply returns_ok|].
  destruct (text_of d) as [[|a r]|]; apply returns_ok.
Qed.

Lemma parse_message_returns (m : element) :
  returns (WSDLParser._parse_message (namespaces_with tns) m).
Proof.
  unfold WSDLParser._parse_message, xpath_under.
  apply returns_bind; [apply select_returns; known_prefix|].
  intros; apply returns_ok.
Qed.

Lemma message_info_returns (root operation : element) (msg_type : string) :
  (forall msg_name,
     Spec.referenced_message operation msg_type = Some msg_name ->
     count_dquote msg_name = 0) ->
  returns (WSDLParser._extract_message_info L (namespaces_with tns) root
             operation msg_type).
Proof.
  unfold Spec.referenced_message, WSDLParser._extract_message_info,
    xpath_under.
  erewrite select_bound by reflexivity. cbn [bind].
  destruct (filter (has_name wsdl_uri msg_type) (descendants operation))
    as [|e rest]; [intros; apply returns_ok|].
  destruct (get "message" e) as [[|a r]|]; try (intros; apply returns_ok).
  intros Hq. unfold xpath_message_named. rewrite (Hq _ eq_refl).
  apply returns_bind.
  { apply returns_bind; [apply select_returns; known_prefix|].
    intros; apply returns_ok. }
  intros [|m ms] _; [apply returns_ok|].
  apply returns_bind; [apply parse_message_returns|].
  intros; apply returns_ok.
Qed.

Lemma faults_return (root operation : element) :
  returns (WSDLParser._extract_faults L (namespaces_with tns) root operation).
Proof.
  unfold WSDLParser._extract_faults, xpath_under.
  apply returns_bind; [apply select_returns; known_prefix|].
  intros faults _. apply for_each_returns. intros fault _.
  apply returns_bind; [apply element_documentation_returns|].
  intros; apply returns_ok.
Qed.

Lemma operations_return (root : element) :
  (forall op msg_type msg_name,
     In op (Spec.port_type_operations root) ->
     In msg_type ["input"; "output"] ->
     Spec.referenced_message op msg_type = Some msg_name ->
     count_dquote msg_name = 0) ->
  returns (WSDLParser._extract_operations L (namespaces_with tns) root).
Proof.
  intros Hrefs. unfold WSDLParser._extract_operations, xpath_all.
  erewrite select_bound by reflexivity. cbn [bind].
  apply returns_bind; [|intros; apply returns_ok].
  apply for_each_returns. intros port_type Hpt.
  unfold xpath_under. erewrite select_bound by reflexivity. cbn [bind].
  apply for_each_returns. intros op Hop.
  assert (Hin : In op (Spec.port_type_operations root)).
  { unfold Spec.port_type_operations. apply in_flat_map.
    exists port_type. split; assumption. }
  apply returns_bind; [apply element_documentation_returns|]. intros doc _.
  apply returns_bind.
  { apply message_info_returns. intros n Hn.
    apply (Hrefs op "input" n Hin); [simpl; tauto|exact Hn]. }
  intros inp _. apply returns_bind.
  { apply message_info_returns. intros n Hn.
    apply (Hrefs op "output" n Hin); [simpl; tauto|exact Hn]. }
  intros out _.
  apply returns_bind; [apply faults_return|]. intros; apply returns_ok.
Qed.

Lemma is_array_returns (max_occurs : string) :
  (isdigit L max_occurs = true -> returns (int L max_occurs)) ->
  returns (WSDLParser.is_array L max_occurs).
Proof.
  intros Hint. unfold WSDLParser.is_array.
  destruct (String.eqb max_occurs "unbounded"); [apply returns_ok|].
  destruct (isdigit L max_occurs) eqn:E; [|apply returns_ok].
  apply returns_bind; [apply Hint; reflexivity|].
  intros; apply returns_ok.
Qed.

Lemma complex_type_returns (ct : element) :
  (forall e,
     In e (filter (has_name xsd_uri "element") (descendants ct)) ->
     isdigit L (get_or "maxOccurs" "1" e) = true ->
     returns (int L (get_or "maxOccurs" "1" e))) ->
  returns (WSDLParser._parse_complex_type L (namespaces_with tns) ct).
Proof.
  intros Hint.
  unfold WSDLParser._parse_complex_type, xpath_under.
  apply returns_bind; [apply select_returns; known_prefix|].
  intros sequences Hseq.
  apply (@select_with_inv tns "xsd" xsd_uri _ _ _ eq_refl) in Hseq.
  apply returns_bind; [|intros; apply returns_ok].
  apply fold_result_returns. intros properties seq Hin_seq.
  apply returns_bind; [apply select_returns; known_prefix|].
  intros elements Hels.
  apply (@select_with_inv tns "xsd" xsd_uri _ _ _ eq_refl) in Hels.
  apply fold_result_returns. intros props elem Hin_elem.
  apply returns_bind; [|intros; apply returns_ok].
  apply is_array_returns. apply Hint.
  subst sequences elements.
  apply filter_In in Hin_seq as [Hseq _].
  apply filter_In in Hin_elem as [Helem Hname].
  apply filter_In. split; [|exact Hname].
  eapply descendants_trans; eassumption.
Qed.

Lemma simple_type_returns (st : element) :
  returns (WSDLParser._parse_simple_type (namespaces_with tns) st).
Proof.
  unfold WSDLParser._parse_simple_type, xpath_under.
  apply returns_bind; [apply select_returns; known_prefix|].
  intros [|r rest] _; apply returns_ok.
Qed.

Lemma store_named_returns (p : element -> result TypeDef)
  (types : Dict.t string TypeDef) (e : element) :
  returns (p e) -> returns (WSDLParser.store_named p types e).
Proof.
  intros Hp. unfold WSDLParser.store_named.
  destruct (get "name" e) as [[|a r]|]; try apply returns_ok.
  apply returns_bind; [exact Hp|]. intros; apply returns_ok.
Qed.

Lemma types_return (root : element) :
  (forall m,
     In m (Tree.occurs_bounds root) ->
     isdigit L m = true -> returns (int L m)) ->
  returns (WSDLParser._extract_types L (namespaces_with tns) root).
Proof.
  intros Hint.
  unfold WSDLParser._extract_types, xpath_all.
  apply returns_bind; [apply select_returns; known_prefix|].
  intros schemas Hschemas.
  apply (@select_with_inv tns "xsd" xsd_uri _ _ _ eq_refl) in Hschemas.
  apply fold_result_returns. intros types schema Hin_schema.
  unfold xpath_under.
  apply returns_bind; [apply select_returns; known_prefix|]. intros cts Hcts.
  apply (@select_with_inv tns "xsd" xsd_uri _ _ _ eq_refl) in Hcts.
  apply returns_bind.
  { apply fold_result_returns. intros types0 ct Hin_ct.
    apply store_named_returns. apply complex_type_returns.
    intros e Hin_e. apply Hint.
    unfold Tree.occurs_bounds. apply in_map.
    subst schemas cts.
    apply filter_In in Hin_schema as [Hschema _].
    apply filter_In in Hin_ct as [Hct _].
    apply filter_In in Hin_e as [He Hname].
    apply filter_In. split; [|exact Hname].
    assert (Hes : In e (descendants schema))
      by (eapply descendants_trans; eassumption).
    destruct Hschema as [->|Hschema]; [exact Hes|].
    eapply descendants_trans; eassumption. }
  intros types1 _.
  apply returns_bind; [apply select_returns; known_prefix|]. intros sts _.
  apply returns_bind.
  { apply fold_result_returns. intros; apply store_named_returns.
    apply simple_type_returns. }
  intros types2 _.
  apply returns_bind; [apply select_returns; known_prefix|]. intros els _.
  apply fold_result_returns. intros; apply store_named_returns.
  apply returns_ok.
Qed.

Lemma bindings_return (root : element) :
  returns (WSDLParser._extract_bindings (namespaces_with tns) root).
Proof.
  unfold WSDLParser._extract_bindings, xpath_all.
  apply returns_bind; [apply select_returns; known_prefix|].
  intros bindings _. apply for_each_returns. intros binding _.
  apply returns_bind.
  { unfold WSDLParser._get_soap_transport, xpath_under.
    apply returns_bind; [apply select_returns; known_prefix|].
    intros [|b rest] _; apply returns_ok. }
  intros transport _. apply returns_bind.
  { unfold WSDLParser._get_soap_style, xpath_under.
    apply returns_bind; [apply select_returns; known_prefix|].
    intros [|b rest] _; apply returns_ok. }
  intros style _. apply returns_bind; [|intros; apply returns_ok].
  unfold WSDLParser._extract_binding_operations, xpath_under.
  apply returns_bind; [apply select_returns; known_prefix|].
  intros ops _. apply for_each_returns. intros op _.
  apply returns_bind; [apply select_returns; known_prefix|].
  intros; apply returns_ok.
Qed.

Lemma services_return (root : element) :
  returns (WSDLParser._extract_services L (namespaces_with tns) root).
Proof.
  unfold WSDLParser._extract_services, xpath_all.
  apply returns_bind; [apply select_returns; known_prefix|].
  intros services _. apply for_each_returns. intros service _.
  unfold xpath_under.
  apply returns_bind; [apply select_returns; known_prefix|]. intros ports _.
  apply returns_bind.
  { apply for_each_returns. intros port _.
    apply returns_bind; [apply select_returns; known_prefix|].
    intros addresses _. apply returns_bind; [|intros; apply returns_ok].
    destruct addresses; [apply select_returns; known_prefix|apply returns_ok]. }
  intros service_ports _.
  apply returns_bind; [apply element_documentation_returns|].
  intros; apply returns_ok.
Qed.

Lemma extract_returns (root : element) (target_ns : option string) :
  (forall m,
     In m (Tree.occurs_bounds root) ->
     isdigit L m = true -> returns (int L m)) ->
  (forall op msg_type msg_name,
     In op (Spec.port_type_operations root) ->
     In msg_type ["input"; "output"] ->
     Spec.referenced_message op msg_type = Some msg_name ->
     count_dquote msg_name = 0) ->
  returns (WSDLParser.extract L (namespaces_with tns) root target_ns).
Proof.
  intros Hint Hrefs. unfold WSDLParser.extract.
  apply returns_bind.
  { unfold WSDLParser._get_service_name, xpath_all.
    apply returns_bind; [apply select_returns; known_prefix|].
    intros [|s rest] _; apply returns_ok. }
  intros name _. apply returns_bind.
  { unfold WSDLParser._get_service_description, xpath_all.
    apply returns_bind; [apply select_returns; known_prefix|].
    intros [|d rest] _; [apply returns_ok|].
    destruct (text_of d) as [[|a r]|]; apply returns_ok. }
  intros description _.
  apply returns_bind; [apply operations_return; exact Hrefs|]. intros ops _.
  apply returns_bind; [apply types_return; exact Hint|]. intros types _.
  apply returns_bind; [apply bindings_return|]. intros bindings _.
  apply returns_bind; [apply services_return|]. intros services _.
  apply returns_ok.
Qed.

End Returning.

(** X5.  [parse] returns a service description whenever: the bytes parse
    to a tree; the root has a non-empty target namespace, or the parser
    object holds one from an earlier call; [int] accepts the [maxOccurs]
    value (default [1]) of every element declaration of the document
    that [isdigit] accepts; and no input or output of a port-type
    operation names a message with a double quote in its name. *)
Theorem parse_returns
  (L : Library) (tns : option string) (content : string) (root : element) :
  fromstring L content = Ok root ->
  Py.truthy (if Py.truthy (get "targetNamespace" root)
             then get "targetNamespace" root else tns) = true ->
  (forall m,
     In m (Tree.occurs_bounds root) ->
     isdigit L m = true -> returns (int L m)) ->
  (forall op msg_type msg_name,
     In op (Spec.port_type_operations root) ->
     In msg_type ["input"; "output"] ->
     Spec.referenced_message op msg_type = Some msg_name ->
     count_dquote msg_name = 0) ->
  returns (fst (WSDLParser.parse L (parser_with tns) content)).
Proof.
  intros Hroot Htns Hint Hrefs.
  unfold WSDLParser.parse, WSDLParser.parse_try. rewrite Hroot.
  destruct (Py.truthy (get "targetNamespace" root)) eqn:Et; simpl.
  - fold (namespaces_with (get "targetNamespace" root)).
    destruct (@extract_returns L _ Htns root
                (get "targetNamespace" root) Hint Hrefs) as [info ->].
    apply returns_ok.
  - destruct (@extract_returns L _ Htns root
                (get "targetNamespace" root) Hint Hrefs) as [info ->].
    apply returns_ok.
Qed.

Lemma parse_returns_holds :
  Tree.occurs_bounds Samples.typed = ["1"; "unbounded"; "2"; "1"]
  /\ returns (fst (WSDLParser.parse Samples.library WSDLParser.__init__
                     Samples.typed_xml)).
Proof.
  split; [reflexivity|].
  apply (@parse_returns Samples.library None Samples.typed_xml Samples.typed).
  - reflexivity.
  - reflexivity.
  - intros m [<-|[<-|[<-|[<-|[]]]]] Hdigit;
      first [discriminate Hdigit | eexists; vm_compute; reflexivity].
  - intros op msg_type msg_name Hop Hmt.
    vm_compute in Hop.
    destruct Hop as [<-|[]]; destruct Hmt as [<-|[<-|[]]];
      vm_compute; intros H; discriminate H.
Defined.

(** ** What the parser reads from the document *)

(** X6.  After a successful [parse] the service name is the [name]
    attribute of the first service element of the document, and
    [UnknownService] when that element has no such attribute or the
    document has no service element. *)
Theorem name_from_first_service
  (L : Library) (tns : option string) (content : string)
  (info : ServiceInfo) (self' : WSDLParser.t) :
  WSDLParser.parse L (parser_with tns) content = (Ok info, self') ->
  exists root,
    fromstring L content = Ok root
    /\ info_name info
       = match Tree.first_named wsdl_uri "service"
                 (root :: descendants root) with
         | Some service => get_or "name" "UnknownService" service
         | None => "UnknownService"
         end.
Proof.
  intros Hparse.
  apply parse_ok_inv in Hparse as (root & tns' & Hroot & _ & Hex).
  apply extract_ok_inv in Hex as (Hname & _).
  exists root. split; [exact Hroot|].
  unfold WSDLParser._get_service_name in Hname.
  apply bind_ok in Hname as (services & Hsel & Hname).
  apply select_wsdl in Hsel.
  unfold Tree.first_named. rewrite filter_head_find, <- Hsel.
  destruct services; injection Hname as <-; reflexivity.
Qed.

Lemma name_from_first_service_holds :
  exists info,
    fst (WSDLParser.parse Samples.library WSDLParser.__init__
           Samples.calculator_xml) = Ok info
    /\ info_name info = "Calc".
Proof.
  destruct (@name_from_first_service Samples.library None
              Samples.calculator_xml
              (match fst (WSDLParser.parse Samples.library
                            WSDLParser.__init__ Samples.calculator_xml) with
               | Ok i => i
               | Raise _ => Build_ServiceInfo "" "" None [] [] [] []
               end)
              (snd (WSDLParser.parse Samples.library WSDLParser.__init__
                      Samples.calculator_xml))
              ltac:(vm_compute; reflexivity))
    as (root & Hroot & Hname).
  vm_compute in Hroot. injection Hroot as <-.
  eexists. split; [vm_compute; reflexivity|]. exact Hname.
Defined.

(** X7.  A reference without a double quote that some message of the
    document answers resolves to the first such message in document
    order: its name attribute and, for every part element below it in
    document order, the part's name, element and type attributes. *)
Theorem resolved_reference_reads_first_message
  (L : Library) (tns : option string) (root operation : element)
  (msg_type msg_name : string) (m : element) (others : list element) :
  Py.truthy tns = true ->
  Spec.referenced_message operation msg_type = Some msg_name ->
  count_dquote msg_name = 0 ->
  Tree.messages_named root msg_name = m :: others ->
  WSDLParser._extract_message_info L (namespaces_with tns) root operation
    msg_type
  = Ok (Some {| message_name := get "name" m;
                message_parts :=
                  map Tree.part_of
                    (filter (has_name wsdl_uri "part") (descendants m)) |}).
Proof.
  intros Ht. unfold Spec.referenced_message, WSDLParser._extract_message_info,
    xpath_under.
  rewrite (@select_wsdl_ok tns _ _ Ht). simpl.
  destruct (filter (has_name wsdl_uri msg_type) (descendants operation))
    as [|e rest]; [discriminate|].
  destruct (get "message" e) as [[|a r]|]; try discriminate.
  intros Hname Hq Hfirst. injection Hname as Hname. rewrite Hname.
  unfold xpath_message_named. rewrite Hq.
  unfold xpath_all. rewrite (@select_wsdl_ok tns _ _ Ht). cbn [bind].
  unfold Tree.messages_named in Hfirst. rewrite Hfirst.
  unfold WSDLParser._parse_message, xpath_under.
  rewrite (@select_wsdl_ok tns _ _ Ht). reflexivity.
Qed.

Lemma resolved_reference_reads_first_message_holds :
  WSDLParser._extract_message_info Samples.library
    (namespaces_with (Some "urn:calc")) Samples.calculator
    (nth 1 (Spec.port_type_operations Samples.calculator) Samples.calculator)
    "input"
  = Ok (Some {| message_name := Some "AddRequest";
                message_parts :=
                  [ {| part_name := Some "a";
                       part_element := None;
                       part_type := Some "xsd:int" |};
                    {| part_name := None;
                       part_element := None;
                       part_type := Some "xsd:int" |} ] |}).
Proof.
  apply (@resolved_reference_reads_first_message Samples.library
           (Some "urn:calc") Samples.calculator
           (nth 1 (Spec.port_type_operations Samples.calculator)
              Samples.calculator)
           "input" "AddRequest"
           (hd Samples.calculator
              (Tree.messages_named Samples.calculator "AddRequest"))
           []);
    reflexivity.
Defined.

Lemma unresolved_reference_is_None_holds :
  WSDLParser._extract_message_info Samples.library
    (namespaces_with (Some "urn:calc")) Samples.calculator
    (nth 0 (Spec.port_type_operations Samples.calculator) Samples.calculator)
    "input"
  = Ok None.
Proof.
  apply (@unresolved_reference_is_None Samples.library (Some "urn:calc")
           Samples.calculator
           (nth 0 (Spec.port_type_operations Samples.calculator)
              Samples.calculator)
           "input");
    [reflexivity|vm_compute; split; reflexivity].
Defined.

Lemma one_quote_reference_raises_holds :
  WSDLParser._extract_message_info Samples.library
    (namespaces_with (Some "urn:q")) Samples.quoted_reference
    (nth 0 (Spec.port_type_operations Samples.quoted_reference)
       Samples.quoted_reference)
    "input"
  = Raise (mk_exn XPathEvalError "Invalid predicate").
Proof.
  apply (@one_quote_reference_raises Samples.library (Some "urn:q")
           Samples.quoted_reference
           (nth 0 (Spec.port_type_operations Samples.quoted_reference)
              Samples.quoted_reference)
           "input" ("a" ++ Py.dquote ++ "b"));
    reflexivity.
Defined.

Lemma fold_result_inv {A S} (P : S -> Prop) (f : S -> A -> result S)
  (l : list A) (s s' : S) :
  P s ->
  (forall s0 a s1, In a l -> P s0 -> f s0 a = Ok s1 -> P s1) ->
  fold_result f l s = Ok s' -> P s'.
Proof.
  revert s; induction l as [|a l IH]; simpl; intros s Hs Hf H.
  - injection H as <-. exact Hs.
  - apply bind_ok in H as (s1 & H1 & H).
    apply (IH s1); [|intros; eapply Hf; eauto|exact H].
    eapply Hf; [left; reflexivity|exact Hs|exact H1].
Qed.

Lemma okey_eqb_eq (a b : option string) :
  Dict.okey_eqb a b = true <-> a = b.
Proof.
  destruct a as [x|], b as [y|]; simpl; split; intros H;
    try discriminate; try reflexivity.
  - apply String.eqb_eq in H. subst. reflexivity.
  - injection H as <-. apply String.eqb_refl.
Qed.



(** ** Keys of the dictionaries *)

Section DictKeys.

Variable K : Type.
Variable eqb : K -> K -> bool.
Variable V : Type.
Hypothesis eqb_spec : forall a b, eqb a b = true <-> a = b.

Lemma dict_set_key_in (k : K) (v : V) (d : Dict.t K V) (x : K) :
  In x (map fst (Dict.set eqb k v d)) -> x = k \/ In x (map fst d).
Proof.
  intros H. apply in_map_iff in H as ([k0 v0] & <- & Hin).
  apply (@dict_set_in K eqb V eqb_spec) in Hin as [Heq|Hin].
  - injection Heq as -> _. left. reflexivity.
  - right. apply in_map_iff. exists (k0, v0). split; [reflexivity|exact Hin].
Qed.

(** An assignment keeps the keys of a dictionary distinct. *)
Lemma dict_set_nodup (k : K) (v : V) (d : Dict.t K V) :
  NoDup (map fst d) -> NoDup (map fst (Dict.set eqb k v d)).
Proof.
  induction d as [|[k0 v0] r IH]; simpl; intros Hnd.
  - constructor; [intros []|constructor].
  - destruct (eqb k0 k) eqn:E; simpl; [exact Hnd|].
    inversion Hnd as [|? ? Hnotin Hr]; subst.
    constructor; [|apply IH; exact Hr].
    intros Hin. apply dict_set_key_in in Hin as [->|Hin]; [|contradiction].
    rewrite (proj2 (eqb_spec k k) eq_refl) in E. discriminate.
Qed.

Lemma dict_set_all_nodup (l : list (K * V)) (d : Dict.t K V) :
  NoDup (map fst d) -> NoDup (map fst (Dict.set_all eqb l d)).
Proof.
  revert d; induction l as [|[k v] r IH]; intros d Hnd; [exact Hnd|].
  unfold Dict.set_all in *; simpl. apply IH. apply dict_set_nodup. exact Hnd.
Qed.

(** Looking a key up in a dictionary with distinct keys finds the pair
    that holds it. *)
Lemma dict_get_in (k : K) (v : V) (d : Dict.t K V) :
  NoDup (map fst d) -> In (k, v) d -> Dict.get eqb k d = Some v.
Proof.
  induction d as [|[k0 v0] r IH]; simpl; intros Hnd Hin; [contradiction|].
  inversion Hnd as [|? ? Hnotin Hr]; subst.
  destruct Hin as [Heq|Hin].
  - injection Heq as -> ->. rewrite (proj2 (eqb_spec k k) eq_refl).
    reflexivity.
  - destruct (eqb k0 k) eqn:E; [|apply IH; assumption].
    apply eqb_spec in E; subst k0. exfalso. apply Hnotin.
    apply in_map_iff. exists (k, v). split; [reflexivity|exact Hin].
Qed.

(** Assigning the pairs of a list with distinct keys to the empty
    dictionary gives the list back. *)
Lemma dict_set_all_fresh (l : list (K * V)) (d : Dict.t K V) :
  NoDup (map fst d ++ map fst l) ->
  Dict.set_all eqb l d = (d ++ l)%list.
Proof.
  revert d; induction l as [|[k v] r IH]; intros d Hnd; simpl.
  - rewrite app_nil_r. reflexivity.
  - unfold Dict.set_all in *; simpl.
    assert (Hset : Dict.set eqb k v d = (d ++ [(k, v)])%list).
    { clear IH. induction d as [|[k0 v0] d IHd]; simpl; [reflexivity|].
      simpl in Hnd. inversion Hnd as [|? ? Hnotin Hrest]; subst.
      destruct (eqb k0 k) eqn:E.
      - apply eqb_spec in E; subst k0. exfalso. apply Hnotin.
        apply in_or_app. right. left. reflexivity.
      - rewrite (IHd Hrest). reflexivity. }
    rewrite Hset, IH.
    + rewrite <- app_assoc. reflexivity.
    + rewrite map_app, <- app_assoc. exact Hnd.
Qed.

End DictKeys.

Lemma map_xsd_kinds (t : option string) :
  In (WSDLParser._map_xsd_type t) scalar_kinds.
Proof.
  destruct t as [[|a r]|]; try (left; reflexivity).
  unfold WSDLParser._map_xsd_type. cbv zeta.
  set (k := Py.lower _). clearbody k.
  unfold WSDLParser.type_mapping. cbn [Dict.get].
  repeat match goal with
         | |- context [String.eqb ?a k] =>
             destruct (String.eqb a k); [simpl; tauto|]
         end.
  left; reflexivity.
Qed.

Lemma complex_type_keys_distinct (L : Library) (ns : namespaces)
  (ct : element) (props : Dict.t (option string) PropertyDef) :
  WSDLParser._parse_complex_type L ns ct = Ok (ComplexDef props) ->
  NoDup (map fst props).
Proof.
  unfold WSDLParser._parse_complex_type. intros H.
  apply bind_ok in H as (sequences & _ & H).
  apply bind_ok in H as (properties & Hfold & H).
  injection H as <-. revert Hfold.
  set (P := fun d : Dict.t (option string) PropertyDef => NoDup (map fst d)).
  apply (fold_result_inv P); [constructor|].
  intros props0 seq props1 _ Hprops Hstep.
  apply bind_ok in Hstep as (elements & _ & Hstep).
  revert Hstep. apply (fold_result_inv P); [exact Hprops|].
  intros props2 elem props3 _ Hprops2 Hset.
  apply bind_ok in Hset as (array & _ & Hset). injection Hset as <-.
  apply (@dict_set_nodup _ Dict.okey_eqb _ okey_eqb_eq). exact Hprops2.
Qed.

(** What [_extract_types] keeps true of the catalog it builds. *)
Lemma extract_types_invariant (L : Library) (ns : namespaces)
  (root : element) (catalog : Dict.t string TypeDef) :
  WSDLParser._extract_types L ns root = Ok catalog ->
  NoDup (map fst catalog)
  /\ forall name d, In (name, d) catalog -> name <> "" /\ parsed_shape d.
Proof.
  set (P := fun cat : Dict.t string TypeDef =>
              NoDup (map fst cat)
              /\ forall name d, In (name, d) cat -> name <> "" /\ parsed_shape d).
  assert (Hstore : forall (p : element -> result TypeDef) l cat cat',
             (forall e d, p e = Ok d -> parsed_shape d) ->
             P cat ->
             fold_result (WSDLParser.store_named p) l cat = Ok cat' -> P cat').
  { intros p l cat cat' Hp Hcat. apply (fold_result_inv P); [exact Hcat|].
    intros cat0 e cat1 _ [Hnd Hall] Hstep.
    unfold WSDLParser.store_named in Hstep.
    destruct (get "name" e) as [[|a r]|];
      try (injection Hstep as <-; split; assumption).
    apply bind_ok in Hstep as (d & Hd & Hstep). injection Hstep as <-.
    split; [apply (@dict_set_nodup _ String.eqb _ String.eqb_eq); exact Hnd|].
    intros name d0 Hin.
    apply (@dict_set_in _ String.eqb _ String.eqb_eq) in Hin as [Heq|Hin];
      [|apply Hall; exact Hin].
    injection Heq as -> ->. split; [discriminate|eapply Hp; exact Hd]. }
  unfold WSDLParser._extract_types. intros H.
  apply bind_ok in H as (schemas & _ & H).
  revert H. apply (fold_result_inv P).
  - split; [constructor|intros name d []].
  - intros cat0 schema cat1 _ Hcat0 Hstep.
    apply bind_ok in Hstep as (cts & _ & Hstep).
    apply bind_ok in Hstep as (cat_c & Hc & Hstep).
    apply bind_ok in Hstep as (sts & _ & Hstep).
    apply bind_ok in Hstep as (cat_s & Hs & Hstep).
    apply bind_ok in Hstep as (els & _ & Hstep).
    apply (Hstore _ _ _ _) in Hc; [|clear; intros e d Hd|exact Hcat0].
    2:{ assert (Hshape : exists props, d = ComplexDef props).
        { unfold WSDLParser._parse_complex_type in Hd.
          apply bind_ok in Hd as (? & _ & Hd).
          apply bind_ok in Hd as (props & _ & Hd). injection Hd as <-.
          exists props. reflexivity. }
        destruct Hshape as [props ->].
        apply complex_type_keys_distinct in Hd. exact Hd. }
    apply (Hstore _ _ _ _) in Hs; [|clear; intros e d Hd|exact Hc].
    2:{ unfold WSDLParser._parse_simple_type in Hd.
        apply bind_ok in Hd as (rs & _ & Hd).
        destruct rs as [|r0 rs']; injection Hd as <-; [exact I|].
        reflexivity. }
    apply (Hstore _ _ _ _) in Hstep; [exact Hstep| |exact Hs].
    intros e d Hd. injection Hd as <-. reflexivity.
Qed.

(** X9.  The catalog of a parsed document has pairwise distinct keys, and
    none of them is the empty string: a definition without a name, or
    with an empty one, is not stored. *)
Theorem catalog_keys_distinct_and_named
  (L : Library) (ns : namespaces) (root : element)
  (catalog : Dict.t string TypeDef) :
  WSDLParser._extract_types L ns root = Ok catalog ->
  NoDup (map fst catalog) /\ ~ In "" (map fst catalog).
Proof.
  intros H. apply extract_types_invariant in H as [Hnd Hall].
  split; [exact Hnd|].
  intros Hin. apply in_map_iff in Hin as ([name d] & Hname & Hin).
  simpl in Hname. subst name. apply Hall in Hin as [Hne _].
  apply Hne. reflexivity.
Qed.

Lemma catalog_keys_distinct_and_named_holds :
  NoDup (map fst [("X", ElementDef "integer" "xsd:int")])
  /\ ~ In "" (map fst [("X", ElementDef "integer" "xsd:int")]).
Proof.
  apply (@catalog_keys_distinct_and_named Samples.library
           (namespaces_with (Some "urn:c")) Samples.collision).
  vm_compute. reflexivity.
Defined.

(** ** Services and bindings *)

(** X10.  The services of a parsed document are its service elements in
    document order, each with the port elements below it in document
    order; the location of a port is that of its first SOAP 1.1 address,
    of its first SOAP 1.2 address when it has no SOAP 1.1 address, and the
    empty string when it has neither. *)
Theorem services_read_from_document
  (L : Library) (tns : option string) (root : element)
  (services : list Service) :
  WSDLParser._extract_services L (namespaces_with tns) root = Ok services ->
  map (fun s =>
         (service_name s,
          map (fun p => (port_name p, port_binding p, port_location p))
            (service_ports s)))
    services
  = map (fun service =>
           (get "name" service,
            map (fun port =>
                   (get "name" port, get "binding" port, Tree.location_of port))
              (filter (has_name wsdl_uri "port") (descendants service))))
      (filter (has_name wsdl_uri "service") (root :: descendants root)).
Proof.
  unfold WSDLParser._extract_services. intros H.
  apply bind_ok in H as (service_elements & Hsel & H).
  apply select_wsdl in Hsel. subst service_elements.
  eapply for_each_map; [|exact H].
  intros service s Hs. simpl in Hs.
  apply bind_ok in Hs as (ports & Hports & Hs).
  apply select_wsdl in Hports. subst ports.
  apply bind_ok in Hs as (service_ports & Hsp & Hs).
  apply bind_ok in Hs as (doc & _ & Hs).
  injection Hs as <-. simpl. f_equal.
  eapply for_each_map; [|exact Hsp].
  intros port p Hp. simpl in Hp.
  apply bind_ok in Hp as (addresses & Haddr & Hp).
  apply (@select_with_inv tns "soap" soap_uri _ _ _ eq_refl) in Haddr.
  apply bind_ok in Hp as (addresses' & Haddr' & Hp).
  injection Hp as <-. simpl. f_equal.
  unfold Tree.location_of. rewrite <- Haddr.
  destruct addresses as [|a rest].
  - apply (@select_with_inv tns "soap12" soap12_uri _ _ _ eq_refl) in Haddr'.
    rewrite <- Haddr'. reflexivity.
  - injection Haddr' as <-. reflexivity.
Qed.

Lemma services_read_from_document_holds :
  map (fun s =>
         (service_name s,
          map (fun p => (port_name p, port_binding p, port_location p))
            (service_ports s)))
    [ {| service_name := Some "Calc";
         service_ports :=
           [ {| port_name := Some "p";
                port_binding := Some "tns:b";
                port_location := Some "http://calc.example.org/ws" |} ];
         service_documentation := None |} ]
  = map (fun service =>
           (get "name" service,
            map (fun port =>
                   (get "name" port, get "binding" port, Tree.location_of port))
              (filter (has_name wsdl_uri "port") (descendants service))))
      (filter (has_name wsdl_uri "service")
         (Samples.calculator :: descendants Samples.calculator)).
Proof.
  apply (@services_read_from_document Samples.library (Some "urn:calc")).
  vm_compute. reflexivity.
Defined.

(** A port with a SOAP 1.2 address before a SOAP 1.1 address takes the
    SOAP 1.1 location; a port with only a SOAP 1.2 address takes that one;
    an address without a location gives None. *)
Example port_locations :
  let address (uri location : string) :=
    Element {| q_ns := uri; q_local := "address" |}
      [("location", location)] None [] in
  Tree.location_of
    (Element (Samples.wsdl "port") [] None
       [address soap12_uri "http://twelve"; address soap_uri "http://eleven"])
  = Some "http://eleven"
  /\ Tree.location_of
       (Element (Samples.wsdl "port") [] None [address soap12_uri "http://twelve"])
     = Some "http://twelve"
  /\ Tree.location_of (Element (Samples.wsdl "port") [] None []) = Some ""
  /\ Tree.location_of
       (Element (Samples.wsdl "port") [] None
          [Element (Samples.soap "address") [] None []])
     = None.
Proof. repeat split. Qed.

(** X11.  The bindings of a parsed document are its binding elements in
    document order.  Transport and style are attributes of the first SOAP
    1.1 binding element below the binding, with the defaults
    [http://schemas.xmlsoap.org/soap/http] and [document]; each operation
    element below the binding gives one entry whose SOAP action is the
    [soapAction] of the first SOAP 1.1 operation element below it, and the
    empty string without one. *)
Theorem bindings_read_from_document
  (tns : option string) (root : element) (bindings : list Binding) :
  WSDLParser._extract_bindings (namespaces_with tns) root = Ok bindings ->
  map (fun b =>
         (binding_name b, binding_type b, binding_transport b,
          binding_style b,
          map (fun o => (binding_operation_name o,
                         binding_operation_soap_action o))
            (binding_operations b)))
    bindings
  = map (fun binding =>
           (get "name" binding, get "type" binding,
            Tree.soap_binding_attribute "transport"
              "http://schemas.xmlsoap.org/soap/http" binding,
            Tree.soap_binding_attribute "style" "document" binding,
            map (fun op =>
                   (get "name" op,
                    match filter (has_name soap_uri "operation")
                            (descendants op) with
                    | o :: _ => get_or "soapAction" "" o
                    | [] => ""
                    end))
              (filter (has_name wsdl_uri "operation") (descendants binding))))
      (filter (has_name wsdl_uri "binding") (root :: descendants root)).
Proof.
  unfold WSDLParser._extract_bindings. intros H.
  apply bind_ok in H as (binding_elements & Hsel & H).
  apply select_wsdl in Hsel. subst binding_elements.
  eapply for_each_map; [|exact H].
  intros binding b Hb. simpl in Hb.
  apply bind_ok in Hb as (transport & Htransport & Hb).
  apply bind_ok in Hb as (style & Hstyle & Hb).
  apply bind_ok in Hb as (ops & Hops & Hb).
  injection Hb as <-. simpl.
  unfold WSDLParser._get_soap_transport in Htransport.
  apply bind_ok in Htransport as (sb & Hsb & Htransport).
  apply (@select_with_inv tns "soap" soap_uri _ _ _ eq_refl) in Hsb.
  unfold WSDLParser._get_soap_style in Hstyle.
  apply bind_ok in Hstyle as (sb' & Hsb' & Hstyle).
  apply (@select_with_inv tns "soap" soap_uri _ _ _ eq_refl) in Hsb'.
  unfold WSDLParser._extract_binding_operations in Hops.
  apply bind_ok in Hops as (op_elements & Hsel & Hops).
  apply select_wsdl in Hsel. subst op_elements.
  subst sb sb'. unfold Tree.soap_binding_attribute.
  assert (Hlist :
            map (fun o => (binding_operation_name o,
                           binding_operation_soap_action o)) ops
            = map (fun op =>
                     (get "name" op,
                      match filter (has_name soap_uri "operation")
                              (descendants op) with
                      | o :: _ => get_or "soapAction" "" o
                      | [] => ""
                      end))
                (filter (has_name wsdl_uri "operation")
                   (descendants binding))).
  { eapply for_each_map; [|exact Hops].
    intros op o Ho. simpl in Ho.
    apply bind_ok in Ho as (soap_ops & Hso & Ho).
    apply (@select_with_inv tns "soap" soap_uri _ _ _ eq_refl) in Hso.
    injection Ho as <-. simpl. rewrite <- Hso. reflexivity. }
  rewrite Hlist.
  destruct (filter (has_name soap_uri "binding") (descendants binding));
    injection Htransport as <-; injection Hstyle as <-; reflexivity.
Qed.

Lemma bindings_read_from_document_holds :
  map (fun b =>
         (binding_name b, binding_type b, binding_transport b,
          binding_style b,
          map (fun o => (binding_operation_name o,
                         binding_operation_soap_action o))
            (binding_operations b)))
    [ {| binding_name := Some "B";
         binding_type := Some "tns:P";
         binding_transport := "http://schemas.xmlsoap.org/soap/http";
         binding_style := "rpc";
         binding_operations :=
           [ {| binding_operation_name := Some "Add";
                binding_operation_soap_action := "" |} ] |} ]
  = map (fun binding =>
           (get "name" binding, get "type" binding,
            Tree.soap_binding_attribute "transport"
              "http://schemas.xmlsoap.org/soap/http" binding,
            Tree.soap_binding_attribute "style" "document" binding,
            map (fun op =>
                   (get "name" op,
                    match filter (has_name soap_uri "operation")
                            (descendants op) with
                    | o :: _ => get_or "soapAction" "" o
                    | [] => ""
                    end))
              (filter (has_name wsdl_uri "operation") (descendants binding))))
      (filter (has_name wsdl_uri "binding")
         (descendants
            (Element (Samples.wsdl "definitions") [] None
               [ Element (Samples.wsdl "binding")
                   [("name", "B"); ("type", "tns:P")] None
                   [ Element (Samples.soap "binding") [("style", "rpc")]
                       None [];
                     Element (Samples.wsdl "operation") [("name", "Add")]
                       None [] ] ]))).
Proof.
  apply (@bindings_read_from_document (Some "urn:b")).
  vm_compute. reflexivity.
Defined.

(** ** Message schemas: properties *)

Lemma input_loop_properties (parts : list Part)
  (properties : Dict.t (option string) ScalarSchema)
  (required : list (option string)) :
  fst (SwaggerGenerator.input_loop parts properties required)
  = Dict.set_all Dict.okey_eqb (map part_property parts) properties.
Proof.
  revert properties required; induction parts as [|part rest IH];
    intros properties required; simpl; [reflexivity|].
  rewrite IH. reflexivity.
Qed.


(** X12.  The input schema of a message with parts has one property per
    distinct part name, holding the schema of the last part of that
    name, while the list of required names has one entry per part: parts
    that share a name leave one property and several equal entries. *)
Theorem input_schema_properties (msg : Message) :
  message_parts msg <> [] ->
  exists properties,
    SwaggerGenerator._generate_input_schema (Some msg)
    = ObjectSchema properties (Some (map part_name (message_parts msg)))
    /\ NoDup (map fst properties)
    /\ List.length properties <= List.length (message_parts msg)
    /\ forall key,
         Dict.get Dict.okey_eqb key properties
         = Dict.last_with Dict.okey_eqb key
             (map part_property (message_parts msg)).
Proof.
  unfold SwaggerGenerator._generate_input_schema.
  destruct (message_parts msg) as [|part rest] eqn:E; [contradiction|].
  intros _.
  pose proof (input_loop_required (part :: rest) [] []) as Hreq.
  pose proof (input_loop_properties (part :: rest) [] []) as Hprops.
  destruct (SwaggerGenerator.input_loop (part :: rest) [] [])
    as [properties required].
  simpl fst in Hprops. simpl snd in Hreq. simpl app in Hreq.
  subst properties required.
  eexists. split; [reflexivity|].
  split; [apply (@dict_set_all_nodup _ Dict.okey_eqb _ okey_eqb_eq);
          constructor|].
  split.
  - pose proof (dict_set_all_length Dict.okey_eqb
                  (map part_property (part :: rest)) []) as Hlen.
    rewrite length_map in Hlen. exact Hlen.
  - intros key.
    rewrite (@dict_get_set_all _ Dict.okey_eqb _ okey_eqb_eq).
    destruct (Dict.last_with _ _ _); reflexivity.
Qed.

Lemma input_schema_properties_holds :
  exists properties,
    SwaggerGenerator._generate_input_schema
      (Some {| message_name := Some "M";
               message_parts :=
                 [ {| part_name := Some "x"; part_element := None;
                      part_type := Some "xsd:int" |};
                   {| part_name := Some "x"; part_element := None;
                      part_type := Some "xsd:boolean" |} ] |})
    = ObjectSchema properties (Some [Some "x"; Some "x"])
    /\ NoDup (map fst properties)
    /\ List.length properties <= 2
    /\ forall key,
         Dict.get Dict.okey_eqb key properties
         = Dict.last_with Dict.okey_eqb key
             [ (Some "x", formatted "integer" "int32");
               (Some "x", plain "boolean") ].
Proof.
  apply (input_schema_properties
           {| message_name := Some "M";
              message_parts :=
                [ {| part_name := Some "x"; part_element := None;
                     part_type := Some "xsd:int" |};
                  {| part_name := Some "x"; part_element := None;
                     part_type := Some "xsd:boolean" |} ] |}).
  discriminate.
Defined.


(** ** Servers: which locations are parsed *)

Section Scanning.

Variable L : Library.

Lemma scan_ports_locations (ports : list Port) :
  SwaggerGenerator.scan_ports L ports
  = scan_locations L (map port_location ports).
Proof.
  induction ports as [|port rest IH]; simpl; [reflexivity|].
  unfold Py.get_present.
  destruct (port_location port) as [[|a r]|]; try exact IH.
  destruct (urlparse L (String a r)) as [[scheme netloc]|e]; simpl;
    [|reflexivity].
  destruct scheme, netloc; simpl; first [reflexivity | exact IH].
Qed.

Lemma scan_locations_app (l1 l2 : list (option string)) :
  scan_locations L (l1 ++ l2)
  = (found <- scan_locations L l1 ;;
     match found with
     | Some url => Ok (Some url)
     | None => scan_locations L l2
     end).
Proof.
  induction l1 as [|l r IH]; simpl.
  - destruct (scan_locations L l2) as [[url|]|e]; reflexivity.
  - destruct l as [[|a s]|]; try exact IH.
    destruct (urlparse L (String a s)) as [[scheme netloc]|e]; simpl;
      [|reflexivity].
    destruct scheme, netloc; simpl; first [reflexivity | exact IH].
Qed.

Lemma scan_services_locations (services : list Service) :
  SwaggerGenerator.scan_services L services
  = scan_locations L (Spec.locations services).
Proof.
  induction services as [|service rest IH]; simpl; [reflexivity|].
  unfold Py.get_present.
  rewrite scan_locations_app, scan_ports_locations.
  destruct (scan_locations L (map port_location (service_ports service)))
    as [[url|]|e]; simpl; [reflexivity|exact IH|reflexivity].
Qed.

Lemma scan_locations_raises (locs : list (option string)) (e : exn) :
  scan_locations L locs = Raise e ->
  exists before loc after,
    locs = (before ++ Some loc :: after)%list
    /\ loc <> ""
    /\ urlparse L loc = Raise e
    /\ Spec.first_absolute L before = None.
Proof.
  induction locs as [|l rest IH]; simpl; [discriminate|].
  assert (Hskip : scan_locations L rest = Raise e ->
                  Spec.absolute L l = None ->
                  exists before loc after,
                    l :: rest = (before ++ Some loc :: after)%list
                    /\ loc <> ""
                    /\ urlparse L loc = Raise e
                    /\ Spec.first_absolute L before = None).
  { intros H Habs. destruct (IH H) as (b & loc & a & -> & Hne & Hp & Hb).
    exists (l :: b), loc, a. repeat split; try assumption.
    simpl. rewrite Habs. exact Hb. }
  destruct l as [[|a s]|]; try (intros H; apply Hskip; [exact H|reflexivity]).
  destruct (urlparse L (String a s)) as [[scheme netloc]|e'] eqn:Ep; simpl.
  - destruct scheme as [|s1 s']; simpl;
      [intros H; apply Hskip; [exact H|simpl; rewrite Ep; reflexivity]|].
    destruct netloc as [|n1 n']; simpl; [|discriminate].
    intros H; apply Hskip; [exact H|simpl; rewrite Ep; reflexivity].
  - intros H. injection H as ->.
    exists [], (String a s), rest. repeat split; [discriminate|exact Ep].
Qed.

Lemma scan_locations_found (before after : list (option string))
  (l : option string) (url : string) :
  (forall loc, In (Some loc) before -> loc <> "" -> returns (urlparse L loc)) ->
  Spec.first_absolute L before = None ->
  Spec.absolute L l = Some url ->
  scan_locations L (before ++ l :: after) = Ok (Some url).
Proof.
  intros Hparse Hnone Habs.
  induction before as [|b rest IH]; simpl.
  - unfold Spec.absolute in Habs.
    destruct l as [[|a s]|]; try discriminate.
    destruct (urlparse L (String a s)) as [[[|s1 s'] [|n1 n']]|];
      try discriminate.
    injection Habs as <-. reflexivity.
  - simpl in Hnone. destruct (Spec.absolute L b) eqn:Eb; [discriminate|].
    assert (Hrest : scan_locations L (rest ++ l :: after) = Ok (Some url)).
    { apply IH; [|exact Hnone].
      intros loc Hin. apply Hparse. right. exact Hin. }
    destruct b as [[|a s]|]; try exact Hrest.
    destruct (Hparse (String a s) (or_introl eq_refl)) as [[scheme netloc] Hp];
      [discriminate|].
    unfold Spec.absolute in Eb. rewrite Hp in Eb. rewrite Hp. simpl.
    destruct scheme as [|s1 s']; simpl; [exact Hrest|].
    destruct netloc as [|n1 n']; simpl; [exact Hrest|discriminate].
Qed.

End Scanning.

(** X14.  [generate] raises only what [urlparse] raises, and only on a
    non-empty port location that no absolute location precedes. *)
Theorem generate_raises_from_urlparse
  (L : Library) (info : ServiceInfo) (e : exn) :
  SwaggerGenerator.generate L info = Raise e ->
  exists before loc after,
    Spec.locations (info_services info)
    = (before ++ Some loc :: after)%list
    /\ loc <> ""
    /\ urlparse L loc = Raise e
    /\ Spec.first_absolute L before = None.
Proof.
  unfold SwaggerGenerator.generate, SwaggerGenerator._extract_base_url,
    Py.get_present.
  rewrite scan_services_locations. intros H.
  apply scan_locations_raises.
  destruct (scan_locations L (Spec.locations (info_services info)))
    as [[url|]|e']; simpl in H; try discriminate.
  injection H as ->. reflexivity.
Qed.

Lemma generate_raises_from_urlparse_holds :
  exists before loc after,
    [Some ""; Some "http://[::1"; Some "http://h/"]
    = (before ++ Some loc :: after)%list
    /\ loc <> ""
    /\ urlparse Samples.library loc
       = Raise (mk_exn ValueError "Invalid IPv6 URL")
    /\ Spec.first_absolute Samples.library before = None.
Proof.
  apply (@generate_raises_from_urlparse Samples.library
           {| info_name := "S";
              info_description := "";
              info_target_namespace := None;
              info_operations := [];
              info_types := [];
              info_bindings := [];
              info_services :=
                [ {| service_name := None;
                     service_ports :=
                       [ {| port_name := None; port_binding := None;
                            port_location := Some "" |};
                         {| port_name := None; port_binding := None;
                            port_location := Some "http://[::1" |} ];
                     service_documentation := None |};
                  {| service_name := None;
                     service_ports :=
                       [ {| port_name := None; port_binding := None;
                            port_location := Some "http://h/" |} ];
                     service_documentation := None |} ] |}).
  vm_compute. reflexivity.
Defined.

(** X15.  The scan stops at the first absolute location: the locations
    after it are not parsed, so what [urlparse] would do with them does
    not matter, and the server list is the one entry of that location. *)
Theorem servers_ignore_later_locations
  (L : Library) (info : ServiceInfo)
  (before after : list (option string)) (l : option string) (url : string) :
  Spec.locations (info_services info) = (before ++ l :: after)%list ->
  (forall loc, In (Some loc) before -> loc <> "" -> returns (urlparse L loc)) ->
  Spec.first_absolute L before = None ->
  Spec.absolute L l = Some url ->
  exists doc,
    SwaggerGenerator.generate L info = Ok doc
    /\ servers doc
       = [ {| server_url := url;
              server_description := "SOAP Service Endpoint" |} ].
Proof.
  intros Hlocs Hparse Hnone Habs.
  unfold SwaggerGenerator.generate, SwaggerGenerator._extract_base_url,
    Py.get_present.
  rewrite scan_services_locations, Hlocs.
  rewrite (@scan_locations_found L before after l url Hparse Hnone Habs).
  simpl.
  pose proof (absolute_not_empty L l Habs) as Hne.
  destruct url as [|a r]; [discriminate Hne|].
  eexists; split; reflexivity.
Qed.

Lemma servers_ignore_later_locations_holds :
  exists doc,
    SwaggerGenerator.generate Samples.library
      {| info_name := "S";
         info_description := "";
         info_target_namespace := None;
         info_operations := [];
         info_types := [];
         info_bindings := [];
         info_services :=
           [ {| service_name := None;
                service_ports :=
                  [ {| port_name := None; port_binding := None;
                       port_location := Some "mailto:a@b" |};
                    {| port_name := None; port_binding := None;
                       port_location := Some "https://h.example/x" |};
                    {| port_name := None; port_binding := None;
                       port_location := Some "http://[::1" |} ];
                service_documentation := None |} ] |}
    = Ok doc
    /\ servers doc
       = [ {| server_url := "https://h.example";
              server_description := "SOAP Service Endpoint" |} ].
Proof.
  apply (@servers_ignore_later_locations Samples.library _
           [Some "mailto:a@b"] [Some "http://[::1"]
           (Some "https://h.example/x") "https://h.example").
  - reflexivity.
  - intros loc [H|[]] _. injection H as <-. eexists. vm_compute. reflexivity.
  - reflexivity.
  - reflexivity.
Defined.

(** ** Paths: keys *)

Lemma string_set_keys {V} (k : string) (v : V) (d : Dict.t string V) :
  map fst (Dict.set String.eqb k v d)
  = if existsb (String.eqb k) (map fst d) then map fst d
    else (map fst d ++ [k])%list.
Proof.
  induction d as [|[k0 v0] r IH]; simpl; [reflexivity|].
  rewrite (String.eqb_sym k k0).
  destruct (String.eqb k0 k); simpl; [reflexivity|].
  rewrite IH. destruct (existsb (String.eqb k) (map fst r)); reflexivity.
Qed.

Lemma string_set_all_keys {V} (l : list (string * V)) (d : Dict.t string V) :
  map fst (Dict.set_all String.eqb l d)
  = (map fst d ++ first_occurrences (map fst d) (map fst l))%list.
Proof.
  revert d; induction l as [|[k v] r IH]; intros d; simpl.
  - rewrite app_nil_r. reflexivity.
  - unfold Dict.set_all in *; simpl. rewrite IH, string_set_keys.
    destruct (existsb (String.eqb k) (map fst d)); [reflexivity|].
    rewrite <- app_assoc. reflexivity.
Qed.

(** X16.  The keys of the path map are pairwise distinct and stand in the
    order in which the operation names first occur: a later operation of
    the same name replaces the path item and leaves the position. *)
Theorem paths_keys_in_first_occurrence_order
  (L : Library) (info : ServiceInfo) (doc : OpenApiDocument) :
  SwaggerGenerator.generate L info = Ok doc ->
  map fst (paths doc)
  = first_occurrences [] (map path_of (info_operations info))
  /\ NoDup (map fst (paths doc)).
Proof.
  intros Hgen. apply generate_paths in Hgen.
  rewrite paths_loop_set_all in Hgen. rewrite Hgen. split.
  - rewrite string_set_all_keys, map_map. reflexivity.
  - apply (@dict_set_all_nodup _ String.eqb _ String.eqb_eq). constructor.
Qed.

Lemma paths_keys_in_first_occurrence_order_holds :
  exists doc,
    SwaggerGenerator.generate Samples.library
      {| info_name := "S";
         info_description := "";
         info_target_namespace := None;
         info_operations :=
           map (fun n => {| operation_name := n;
                            operation_documentation := None;
                            operation_input := None;
                            operation_output := None;
                            operation_faults := [] |})
             [Some "B"; Some "A"; Some "B"; None];
         info_types := [];
         info_bindings := [];
         info_services := [] |}
    = Ok doc
    /\ map fst (paths doc) = ["/B"; "/A"; "/None"].
Proof.
  match goal with
  | |- exists doc, SwaggerGenerator.generate _ ?i = _ /\ _ => set (info := i)
  end.
  destruct (SwaggerGenerator.generate Samples.library info) as [doc|e] eqn:Hgen;
    [|vm_compute in Hgen; discriminate Hgen].
  exists doc. split; [reflexivity|].
  destruct (@paths_keys_in_first_occurrence_order Samples.library info doc Hgen)
    as [Hkeys _].
  rewrite Hkeys. reflexivity.
Defined.

(** ** Component schemas *)

Lemma generate_schemas_set_all (types : Dict.t string TypeDef) :
  SwaggerGenerator._generate_schemas types
  = Dict.set_all String.eqb
      (map (fun entry => (fst entry, component_of (snd entry))) types) [].
Proof.
  unfold SwaggerGenerator._generate_schemas, Dict.set_all.
  generalize (@nil (string * ComponentSchema)).
  induction types as [|[name d] rest IH]; intros acc; simpl; [reflexivity|].
  rewrite <- IH. f_equal. unfold component_of.
  destruct (String.eqb (SwaggerGenerator.type_def_type d) "object");
    [|reflexivity].
  destruct (SwaggerGenerator.properties_loop
              (SwaggerGenerator.type_def_properties d) [] []);
    reflexivity.
Qed.

Lemma properties_loop_value (props : Dict.t (option string) PropertyDef)
  (schema_properties : Dict.t (option string) PropSchema)
  (required : list (option string)) :
  SwaggerGenerator.properties_loop props schema_properties required
  = (Dict.set_all Dict.okey_eqb
       (map (fun kp => (fst kp, prop_schema_of (snd kp))) props)
       schema_properties,
     (required
      ++ map fst (filter (fun kp => property_required (snd kp)) props))%list).
Proof.
  revert schema_properties required;
    induction props as [|[name p] rest IH]; intros sp req; simpl.
  - rewrite app_nil_r. reflexivity.
  - rewrite IH. unfold Dict.set_all, prop_schema_of. simpl.
    destruct (property_required p); simpl; [|reflexivity].
    rewrite <- app_assoc. reflexivity.
Qed.

Lemma remapped_kind (k : string) :
  In k scalar_kinds ->
  SwaggerGenerator._map_type_to_openapi (Some k)
  = plain (if String.eqb k "number" then "string" else k)
  /\ String.eqb k "object" = false.
Proof.
  intros [<-|[<-|[<-|[<-|[]]]]]; split; reflexivity.
Qed.

Lemma component_of_scalar (kind : string) :
  In kind scalar_kinds ->
  (if String.eqb kind "object" then
     let (properties, required) :=
       SwaggerGenerator.properties_loop [] [] [] in
     ComponentObject properties
       (match required with [] => None | _ => Some required end)
   else ComponentScalar (SwaggerGenerator._map_type_to_openapi (Some kind)))
  = ComponentScalar (plain (if String.eqb kind "number" then "string"
                            else kind)).
Proof.
  intros Hk. destruct (remapped_kind Hk) as [Hmap Hobj].
  rewrite Hobj, Hmap. reflexivity.
Qed.

(** X17.  For the catalog of a parsed document the component schemas have
    the keys of the catalog, in the same order, and under each key the
    schema of its entry.  For a simple type or an element it is a bare
    type: the kind of its raw XSD type, with [string] in place of
    [number], and never a format, because the generator maps the kind that
    the parser has already mapped.  For a complex type it is the object
    schema of its properties. *)
Theorem component_schemas_of_catalog
  (L : Library) (ns : namespaces) (root : element)
  (catalog : Dict.t string TypeDef) :
  WSDLParser._extract_types L ns root = Ok catalog ->
  map fst (SwaggerGenerator._generate_schemas catalog) = map fst catalog
  /\ forall name d,
       In (name, d) catalog ->
       let bare raw :=
         let kind := WSDLParser._map_xsd_type (Some raw) in
         ComponentScalar
           (plain (if String.eqb kind "number" then "string" else kind)) in
       Dict.get String.eqb name (SwaggerGenerator._generate_schemas catalog)
       = Some match d with
              | ComplexDef props =>
                  ComponentObject
                    (map (fun kp => (fst kp, prop_schema_of (snd kp))) props)
                    (match filter (fun kp => property_required (snd kp))
                             props with
                     | [] => None
                     | required => Some (map fst required)
                     end)
              | SimpleDef _ base => bare base
              | SimpleDefault => ComponentScalar (plain "string")
              | ElementDef _ xml_type => bare xml_type
              end.
Proof.
  intros H. apply extract_types_invariant in H as [Hnd Hshape].
  rewrite generate_schemas_set_all.
  rewrite (@dict_set_all_fresh _ String.eqb _ String.eqb_eq);
    [|simpl; rewrite map_map; exact Hnd].
  simpl app. split; [rewrite map_map; reflexivity|].
  intros name d Hin bare.
  rewrite (@dict_get_in _ String.eqb _ String.eqb_eq name (component_of d));
    [|rewrite map_map; exact Hnd
     |apply in_map_iff; exists (name, d); split; [reflexivity|exact Hin]].
  f_equal. apply Hshape in Hin as [_ Hd]. unfold component_of, bare.
  destruct d as [props|t base| |t raw];
    cbn [SwaggerGenerator.type_def_type SwaggerGenerator.type_def_properties
         parsed_shape] in *.
  - change (String.eqb "object" "object") with true. cbv iota.
    rewrite properties_loop_value. simpl app.
    rewrite (@dict_set_all_fresh _ Dict.okey_eqb _ okey_eqb_eq);
      [|simpl; rewrite map_map; exact Hd].
    simpl app.
    destruct (filter (fun kp => property_required (snd kp)) props);
      reflexivity.
  - subst t. apply component_of_scalar. apply map_xsd_kinds.
  - reflexivity.
  - subst t. apply component_of_scalar. apply map_xsd_kinds.
Qed.

Lemma component_schemas_of_catalog_holds :
  exists catalog,
    WSDLParser._extract_types Samples.library (namespaces_with (Some "urn:t"))
      Samples.typed = Ok catalog
    /\ map fst (SwaggerGenerator._generate_schemas catalog)
       = ["Item"; "Amount"; "id"; "tags"; "pair"; "price"]
    /\ Dict.get String.eqb "price" (SwaggerGenerator._generate_schemas catalog)
       = Some (ComponentScalar (plain "string"))
    /\ Dict.get String.eqb "Amount" (SwaggerGenerator._generate_schemas catalog)
       = Some (ComponentScalar (plain "string"))
    /\ Dict.get String.eqb "id" (SwaggerGenerator._generate_schemas catalog)
       = Some (ComponentScalar (plain "integer")).
Proof.
  destruct (WSDLParser._extract_types Samples.library
              (namespaces_with (Some "urn:t")) Samples.typed)
    as [catalog|e] eqn:Hcat; [|vm_compute in Hcat; discriminate Hcat].
  exists catalog. split; [reflexivity|].
  destruct (@component_schemas_of_catalog Samples.library
              (namespaces_with (Some "urn:t")) Samples.typed catalog Hcat)
    as [Hkeys Hget].
  vm_compute in Hcat. injection Hcat as <-.
  split; [rewrite Hkeys; reflexivity|].
  split; [|split].
  - apply (Hget "price" (ElementDef "number" "xsd:double")).
    simpl; tauto.
  - apply (Hget "Amount" (SimpleDef "number" "xsd:decimal")).
    simpl; tauto.
  - apply (Hget "id" (ElementDef "integer" "xsd:int")). simpl; tauto.
Defined.

(** An element of type [xsd:double] is catalogued with the kind [number]
    and comes out as the schema of a string. *)
Example double_element_becomes_string :
  WSDLParser._parse_element
    (Element (Samples.xsd "element") [("name", "price"); ("type", "xsd:double")]
       None [])
  = ElementDef "number" "xsd:double"
  /\ SwaggerGenerator._generate_schemas
       [("price", ElementDef "number" "xsd:double")]
     = [("price", ComponentScalar (plain "string"))].
Proof. split; reflexivity. Qed.

(** X18.  The component schema of a parsed complex type has one property
    per property of the type, in the same order: an array schema around
    the kind for an array, the kind otherwise.  Its list of required names
    holds the required properties in order, and is left out when no
    property is required. *)
Theorem component_schema_of_complex_type
  (L : Library) (ns : namespaces) (complex_type : element) (name : string)
  (props : Dict.t (option string) PropertyDef) :
  WSDLParser._parse_complex_type L ns complex_type = Ok (ComplexDef props) ->
  SwaggerGenerator._generate_schemas [(name, ComplexDef props)]
  = [ (name,
       ComponentObject
         (map (fun kp => (fst kp, prop_schema_of (snd kp))) props)
         (match filter (fun kp => property_required (snd kp)) props with
          | [] => None
          | required => Some (map fst required)
          end)) ].
Proof.
  intros H. apply complex_type_keys_distinct in H.
  unfold SwaggerGenerator._generate_schemas. simpl.
  rewrite properties_loop_value. simpl app.
  rewrite (@dict_set_all_fresh _ Dict.okey_eqb _ okey_eqb_eq);
    [|simpl; rewrite map_map; exact H].
  simpl. destruct (filter (fun kp => property_required (snd kp)) props);
    reflexivity.
Qed.

Lemma component_schema_of_complex_type_holds :
  SwaggerGenerator._generate_schemas
    [ ("T",
       ComplexDef
         [ (Some "id", {| property_type := "integer";
                          property_required := true;
                          property_array := false |});
           (Some "tags", {| property_type := "string";
                            property_required := false;
                            property_array := true |}) ]) ]
  = [ ("T",
       ComponentObject
         [ (Some "id", PropScalar "integer");
           (Some "tags", PropArray "string") ]
         (Some [Some "id"])) ].
Proof.
  apply (@component_schema_of_complex_type Samples.library
           (namespaces_with (Some "urn:t"))
           (Element (Samples.xsd "complexType") [("name", "T")] None
              [ Element (Samples.xsd "sequence") [] None
                  [ Element (Samples.xsd "element")
                      [("name", "id"); ("type", "xsd:int")] None [];
                    Element (Samples.xsd "element")
                      [("name", "tags"); ("minOccurs", "0");
                       ("maxOccurs", "unbounded")] None [] ] ])
           "T").
  vm_compute. reflexivity.
Defined.

(** ** Operations: documentation and faults *)

Lemma element_documentation_value (L : Library) (tns : option string)
  (e : element) (doc : option string) :
  WSDLParser._get_element_documentation L (namespaces_with tns) e = Ok doc ->
  doc = Tree.documentation_of L e.
Proof.
  unfold WSDLParser._get_element_documentation, Tree.documentation_of.
  intros H. apply bind_ok in H as (docs & Hdocs & H).
  apply select_wsdl in Hdocs. rewrite <- Hdocs.
  destruct docs as [|d rest]; [injection H as <-; reflexivity|].
  destruct (text_of d) as [[|a r]|]; injection H as <-; reflexivity.
Qed.

(** X19.  The operations of a parsed document carry, for each operation
    element of a port type: as documentation the stripped text of the
    first documentation element anywhere below the operation, None when
    that element has no text; and as faults the fault elements below the
    operation in document order, each with its name and message
    attributes and its own documentation. *)
Theorem operations_documentation_and_faults
  (L : Library) (tns : option string) (root : element)
  (ops : list Operation) :
  WSDLParser._extract_operations L (namespaces_with tns) root = Ok ops ->
  map (fun o =>
         (operation_documentation o,
          map (fun f => (fault_name f, fault_message f, fault_documentation f))
            (operation_faults o)))
    ops
  = map (fun op =>
           (Tree.documentation_of L op,
            map (fun fault =>
                   (get "name" fault, get "message" fault,
                    Tree.documentation_of L fault))
              (filter (has_name wsdl_uri "fault") (descendants op))))
      (Spec.port_type_operations root).
Proof.
  unfold WSDLParser._extract_operations. intros H.
  apply bind_ok in H as (port_types & Hpt & H).
  apply bind_ok in H as (per_port_type & Hper & H).
  injection H as <-.
  apply select_wsdl in Hpt. subst port_types.
  unfold Spec.port_type_operations.
  rewrite concat_map, flat_map_concat_map, concat_map, map_map.
  f_equal.
  eapply for_each_map; [|exact Hper].
  intros port_type b Hb. simpl in Hb.
  apply bind_ok in Hb as (els & Hels & Hb).
  apply select_wsdl in Hels. subst els.
  eapply for_each_map; [|exact Hb].
  intros op o Ho. simpl in Ho.
  apply bind_ok in Ho as (doc & Hdoc & Ho).
  apply bind_ok in Ho as (inp & _ & Ho).
  apply bind_ok in Ho as (out & _ & Ho).
  apply bind_ok in Ho as (faults & Hfaults & Ho).
  injection Ho as <-. simpl.
  apply element_documentation_value in Hdoc. subst doc. f_equal.
  unfold WSDLParser._extract_faults in Hfaults.
  apply bind_ok in Hfaults as (fault_elements & Hsel & Hfaults).
  apply select_wsdl in Hsel. subst fault_elements.
  eapply for_each_map; [|exact Hfaults].
  intros fault f Hf. simpl in Hf.
  apply bind_ok in Hf as (fdoc & Hfdoc & Hf).
  injection Hf as <-. simpl.
  apply element_documentation_value in Hfdoc. subst fdoc. reflexivity.
Qed.

Lemma operations_documentation_and_faults_holds :
  map (fun o =>
         (operation_documentation o,
          map (fun f => (fault_name f, fault_message f, fault_documentation f))
            (operation_faults o)))
    [ {| operation_name := Some "Op";
         operation_documentation := Some "why";
         operation_input := None;
         operation_output := None;
         operation_faults :=
           [ {| fault_name := Some "F";
                fault_message := Some "tns:M";
                fault_documentation := Some "why" |} ] |} ]
  = map (fun op =>
           (Tree.documentation_of Samples.library op,
            map (fun fault =>
                   (get "name" fault, get "message" fault,
                    Tree.documentation_of Samples.library fault))
              (filter (has_name wsdl_uri "fault") (descendants op))))
      (Spec.port_type_operations
         (Element (Samples.wsdl "definitions") [] None
            [ Element (Samples.wsdl "portType") [] None
                [ Element (Samples.wsdl "operation") [("name", "Op")] None
                    [ Element (Samples.wsdl "fault")
                        [("name", "F"); ("message", "tns:M")] None
                        [ Element (Samples.wsdl "documentation") []
                            (Some " why ") [] ] ] ] ])).
Proof.
  apply (@operations_documentation_and_faults Samples.library (Some "urn:o")).
  vm_compute. reflexivity.
Defined.

(** ** Paths and the operations of the document *)

Lemma for_each_forall2 {A B} (f : A -> result B) (l : list A) (r : list B) :
  for_each f l = Ok r -> Forall2 (fun b a => f a = Ok b) r l.
Proof.
  revert r; induction l as [|a l IH]; simpl; intros r H.
  - injection H as <-. constructor.
  - apply bind_ok in H as (b & Hb & H). apply bind_ok in H as (bs & Hbs & H).
    injection H as <-. constructor; [exact Hb|apply IH; exact Hbs].
Qed.

Lemma forall2_concat {A B C} (R : A -> B -> Prop) (g : C -> list B)
  (ll : list (list A)) (l : list C) :
  Forall2 (fun x y => Forall2 R x (g y)) ll l ->
  Forall2 R (List.concat ll) (flat_map g l).
Proof.
  induction 1 as [|x y ll l Hxy _ IH]; simpl; [constructor|].
  apply Forall2_app; assumption.
Qed.

Lemma forall2_in_left {A B} (R : A -> B -> Prop) (l1 : list A) (l2 : list B)
  (a : A) :
  Forall2 R l1 l2 -> In a l1 -> exists b, In b l2 /\ R a b.
Proof.
  induction 1 as [|x y l1 l2 Hxy _ IH]; simpl; [intros []|].
  intros [<-|Hin].
  - exists y. split; [left; reflexivity|exact Hxy].
  - destruct (IH Hin) as (b & Hb & Hab). exists b. split; [right|]; assumption.
Qed.

(** The operations of the description, one for one with the operation
    elements of the port types in the order of extraction. *)
Lemma extract_operations_forall2 (L : Library) (tns : option string)
  (root : element) (ops : list Operation) :
  WSDLParser._extract_operations L (namespaces_with tns) root = Ok ops ->
  Forall2 (extracted_from L (namespaces_with tns) root) ops
    (Spec.port_type_operations root).
Proof.
  unfold WSDLParser._extract_operations. intros H.
  apply bind_ok in H as (port_types & Hpt & H).
  apply bind_ok in H as (per_port_type & Hper & H).
  injection H as <-.
  apply select_wsdl in Hpt. subst port_types.
  unfold Spec.port_type_operations. apply forall2_concat.
  apply for_each_forall2 in Hper.
  eapply Forall2_impl; [|exact Hper].
  intros ops_pt port_type Hb. simpl in Hb.
  apply bind_ok in Hb as (els & Hels & Hb).
  apply select_wsdl in Hels. subst els.
  apply for_each_forall2 in Hb.
  eapply Forall2_impl; [|exact Hb].
  intros o op Ho. simpl in Ho.
  apply bind_ok in Ho as (doc & Hdoc & Ho).
  apply bind_ok in Ho as (inp & Hinp & Ho).
  apply bind_ok in Ho as (out & Hout & Ho).
  apply bind_ok in Ho as (faults & Hfaults & Ho).
  injection Ho as <-. unfold extracted_from. simpl.
  apply element_documentation_value in Hdoc. subst doc.
  repeat split; assumption.
Qed.

Lemma covered_all (e op : element) :
  In op (descendants e) ->
  has_name wsdl_uri "operation" op = true ->
  In op (Tree.covered_operations true e).
Proof.
  induction e as [tag attrib text children IH] using element_tree_ind.
  intros Hin Hop. simpl in *. rewrite Forall_forall in IH.
  apply in_flat_map in Hin as (c & Hc & Hin). apply in_flat_map.
  exists c. split; [exact Hc|]. apply in_or_app.
  destruct Hin as [->|Hin].
  - left. rewrite Hop. left. reflexivity.
  - right. apply (IH c Hc Hin Hop).
Qed.

Lemma covered_below_port_type (e pt op : element) (inside : bool) :
  In pt (e :: descendants e) ->
  has_name wsdl_uri "portType" pt = true ->
  In op (descendants pt) ->
  has_name wsdl_uri "operation" op = true ->
  In op (Tree.covered_operations inside e).
Proof.
  revert pt op inside. induction e as [tag attrib text children IH]
    using element_tree_ind.
  intros pt op inside Hpt Hispt Hin Hop. rewrite Forall_forall in IH.
  destruct Hpt as [<-|Hpt].
  - pose proof (@covered_all _ _ Hin Hop) as Hall.
    cbn [Tree.covered_operations] in Hall |- *.
    rewrite Hispt, Bool.orb_true_r. exact Hall.
  - cbn [descendants] in Hpt. cbn [Tree.covered_operations].
    apply in_flat_map in Hpt as (c & Hc & Hpt). apply in_flat_map.
    exists c. split; [exact Hc|]. apply in_or_app. right.
    apply (IH c Hc pt op _ Hpt Hispt Hin Hop).
Qed.

(** Every extracted operation element is a port-type operation of the
    document. *)
Lemma port_type_operations_in_document (root op : element) :
  In op (Spec.port_type_operations root) ->
  In op (Tree.document_operations root).
Proof.
  unfold Spec.port_type_operations, Tree.document_operations. intros H.
  apply in_flat_map in H as (pt & Hpt & Hop).
  apply filter_In in Hpt as [Hpt Hispt].
  apply filter_In in Hop as [Hop Hisop].
  eapply covered_below_port_type; eassumption.
Qed.

Lemma generated_item_describes (op : Operation) :
  item_describes op (SwaggerGenerator._generate_operation_spec op).
Proof.
  unfold item_describes, SwaggerGenerator._generate_operation_spec,
    Py.get_present. simpl.
  repeat split.
  destruct (operation_documentation op) as [[|a r]|]; reflexivity.
Qed.

(** C3, amended.  For a document that parses and a description that is
    generated: the operations of the description are extracted, one for
    one, from the operation elements below each port type, port types in
    document order and the operations below each in document order, so
    that an operation below nested port types is listed once for every
    port type around it; the path map has at most as many entries as the
    document has port-type operations; every entry is keyed by a slash and
    the name of a listed operation (as the f-string prints it) and holds
    the path item of that operation, with its single POST operation; and
    of the listed operations of one name the last listed is the one whose
    path item is in the map. *)
Theorem paths_last_extracted_operation_wins
  (L : Library) (tns : option string) (content : string)
  (info : ServiceInfo) (self' : WSDLParser.t) (doc : OpenApiDocument) :
  WSDLParser.parse L (parser_with tns) content = (Ok info, self') ->
  SwaggerGenerator.generate L info = Ok doc ->
  exists root tns',
    fromstring L content = Ok root
    /\ self' = parser_with tns'
    /\ Forall2 (extracted_from L (namespaces_with tns') root)
         (info_operations info) (Spec.port_type_operations root)
    /\ List.length (paths doc) <= List.length (Tree.document_operations root)
    /\ (forall path item,
          In (path, item) (paths doc) ->
          exists op,
            In op (info_operations info)
            /\ path = "/" ++ Py.format (operation_name op)
            /\ item_describes op item)
    /\ (forall earlier op later,
          info_operations info = (earlier ++ op :: later)%list ->
          (forall op', In op' later ->
             Py.format (operation_name op') <> Py.format (operation_name op)) ->
          exists item,
            Dict.get String.eqb ("/" ++ Py.format (operation_name op))
              (paths doc) = Some item
            /\ item_describes op item).
Proof.
  intros Hparse Hgen.
  apply generate_paths in Hgen. rewrite paths_loop_set_all in Hgen.
  apply parse_ok_inv in Hparse as (root & tns' & Hroot & Hself & Hex).
  apply extract_ok_inv in Hex as (_ & _ & Hops & _).
  apply extract_operations_forall2 in Hops.
  exists root, tns'. split; [exact Hroot|]. split; [exact Hself|].
  split; [exact Hops|].
  assert (Hentry : forall path item,
             In (path, item) (paths doc) ->
             exists op,
               In op (info_operations info)
               /\ path = "/" ++ Py.format (operation_name op)
               /\ item = SwaggerGenerator._generate_operation_spec op).
  { intros path item Hin. rewrite Hgen in Hin.
    apply (@dict_set_all_in _ String.eqb _ String.eqb_eq) in Hin as [[]|Hin].
    apply in_map_iff in Hin as (op & Heq & Hop).
    injection Heq as <- <-. exists op. repeat split. exact Hop. }
  split; [|split].
  - rewrite <- (length_map fst (paths doc)).
    rewrite <- (length_map
                  (fun e => "/" ++ Py.format (get "name" e))
                  (Tree.document_operations root)).
    apply NoDup_incl_length.
    + rewrite Hgen.
      apply (@dict_set_all_nodup _ String.eqb _ String.eqb_eq). constructor.
    + intros path Hpath.
      apply in_map_iff in Hpath as ([path' item] & Hfst & Hin).
      simpl in Hfst. subst path'.
      destruct (Hentry path item Hin) as (op & Hop & -> & _).
      destruct (@forall2_in_left _ _ _ _ _ _ Hops Hop) as (e & He & Hname & _).
      apply in_map_iff. exists e. rewrite Hname.
      split; [reflexivity|apply port_type_operations_in_document; exact He].
  - intros path item Hin.
    destruct (Hentry path item Hin) as (op & Hop & Hpath & ->).
    exists op. repeat split; try assumption. apply generated_item_describes.
  - intros earlier op later Hlist Hlater.
    exists (SwaggerGenerator._generate_operation_spec op).
    split; [|apply generated_item_describes].
    rewrite Hgen, Hlist, (@dict_get_set_all _ String.eqb _ String.eqb_eq),
      map_app.
    simpl.
    rewrite (@dict_last_with_app _ String.eqb _ String.eqb_eq);
      [reflexivity|].
    intros kv Hkv. apply in_map_iff in Hkv as (op' & <- & Hop'). simpl.
    apply String.eqb_neq. intros Heq. apply (Hlater op' Hop'). exact Heq.
Qed.

Lemma paths_last_extracted_operation_wins_holds :
  exists info self' doc,
    WSDLParser.parse Samples.library WSDLParser.__init__ Samples.calculator_xml
    = (Ok info, self')
    /\ SwaggerGenerator.generate Samples.library info = Ok doc
    /\ List.length (paths doc)
       <= List.length (Tree.document_operations Samples.calculator).
Proof.
  destruct (WSDLParser.parse Samples.library WSDLParser.__init__
              Samples.calculator_xml) as [[info|e] self'] eqn:Hparse;
    [|vm_compute in Hparse; discriminate Hparse].
  destruct (SwaggerGenerator.generate Samples.library info) as [doc|e] eqn:Hgen;
    [|vm_compute in Hparse; injection Hparse as <- _;
      vm_compute in Hgen; discriminate Hgen].
  exists info, self', doc. split; [reflexivity|]. split; [exact Hgen|].
  destruct (@paths_last_extracted_operation_wins Samples.library None
              Samples.calculator_xml info self' doc Hparse Hgen)
    as (root & tns' & Hroot & _ & _ & Hlen & _).
  vm_compute in Hroot. injection Hroot as <-. exact Hlen.
Defined.

(** C3 as stated fails: in the sample the operation documented [first]
    lies below both port types and is extracted a second time after the
    operation documented [last], which comes later in the document; the
    path map holds the item of [first]. *)
Lemma nested_port_types_keep_earlier_operation :
  exists info self' doc item,
    WSDLParser.parse Samples.library WSDLParser.__init__ Samples.nested_xml
    = (Ok info, self')
    /\ SwaggerGenerator.generate Samples.library info = Ok doc
    /\ map (fun e => (get "name" e, Tree.documentation_of Samples.library e))
         (Tree.document_operations Samples.nested)
       = [(Some "Op", Some "first"); (Some "Op", Some "last")]
    /\ map (fun o => (operation_name o, operation_documentation o))
         (info_operations info)
       = [ (Some "Op", Some "first"); (Some "Op", Some "last");
           (Some "Op", Some "first") ]
    /\ Dict.get String.eqb "/Op" (paths doc) = Some item
    /\ post_description (post item) = "first"
    /\ post_description (post item) <> "last".
Proof.
  do 4 eexists. split; [vm_compute; reflexivity|].
  split; [vm_compute; reflexivity|].
  split; [reflexivity|]. split; [reflexivity|]. split; [reflexivity|].
  split; [reflexivity|discriminate].
Qed.
